(** * tikki/utils.py: request-argument extraction, environment
      configuration and JWT identity claims

    A shallow embedding of [src/tikki/utils.py].  Python values are an
    inductive type, Python dicts are insertion-ordered association lists,
    exceptions are an explicit result type, and floats are binary64
    numbers.  What the module takes from its environment is a parameter of
    the development: the library calls ([dateutil.parser.parse], which
    takes the date of the call, werkzeug's [MultiDict.get], [str.encode],
    [jwt.decode] and the calls of [init_app]), the classes a descriptor
    can declare beyond the built-in ones, and the platform's [mktime]. *)

From stdpp Require Import gmap strings list fin_maps.
From Stdlib Require Import ZArith Lia.

Set Warnings "-register-all,-clear-no-such-hyp".

Local Open Scope string_scope.
Local Open Scope list_scope.
Local Open Scope Z_scope.

(** ** Python values and classes *)

(** A naive [datetime.datetime]: microseconds since 1970-01-01T00:00:00 on
    the naive (zone-less) time line. *)
Definition datetime : Type := Z.

(** The values that can travel through a request payload, a descriptor
    group or the application configuration.  [VFloat m e] is the binary
    fraction [m * 2^e]; [VObject cls] is an instance of a class named [cls]
    that derives from none of the classes of the other values but
    [object]. *)
Inductive value : Type :=
| VNone
| VBool (b : bool)
| VInt (n : Z)
| VFloat (m e : Z)
| VStr (s : string)
| VDateTime (d : datetime)
| VList (l : list value)
| VDict (d : list (string * value))
| VMultiDict (d : list (string * list value))
| VObject (cls : string).

(** The classes a descriptor can declare ([Type[Any]] in the source). *)
Inductive pytype : Type :=
| TNoneType | TBool | TInt | TFloat | TStr | TDateTime
| TList | TDict | TMultiDict | TObject
| TClass (name : string).

#[global] Instance pytype_eq_dec : EqDecision pytype.
Proof. solve_decision. Defined.

(** [type(v)] *)
Definition type_of (v : value) : pytype :=
  match v with
  | VNone => TNoneType
  | VBool _ => TBool
  | VInt _ => TInt
  | VFloat _ _ => TFloat
  | VStr _ => TStr
  | VDateTime _ => TDateTime
  | VList _ => TList
  | VDict _ => TDict
  | VMultiDict _ => TMultiDict
  | VObject cls => TClass cls
  end.

(** [t.__name__] *)
Definition type_name (t : pytype) : string :=
  match t with
  | TNoneType => "NoneType"
  | TBool => "bool"
  | TInt => "int"
  | TFloat => "float"
  | TStr => "str"
  | TDateTime => "datetime"
  | TList => "list"
  | TDict => "dict"
  | TMultiDict => "MultiDict"
  | TObject => "object"
  | TClass name => name
  end.

(** ** The class hierarchy

    Among the classes named above every class derives from [object],
    [bool] derives from [int], and werkzeug's [MultiDict] derives from
    [dict].  A descriptor may declare any other class, [TClass name]:
    [datetime.date], of which [datetime.datetime] is a subclass, an abstract
    base class such as [numbers.Number] or [collections.abc.Mapping], or a
    class of the application.  [subclass_of c name] tells whether the class
    [c] is a subclass of the class named [name], by inheritance or by
    registration with an abstract base class. *)
Section classes.
Variable subclass_of : pytype → string → bool.

(** [issubclass(c, t)] *)
Definition issubclass (c t : pytype) : bool :=
  bool_decide (c = t)
  || bool_decide (t = TObject)
  || (bool_decide (c = TBool) && bool_decide (t = TInt))
  || (bool_decide (c = TMultiDict) && bool_decide (t = TDict))
  || match t with
     | TClass name => subclass_of c name
     | _ => false
     end.

(** [isinstance(v, t)] *)
Definition isinstance (v : value) (t : pytype) : bool :=
  issubclass (type_of v) t.
End classes.

(** The classes of the standard library that the concrete cases declare:
    [datetime.date] with its subclass [datetime.datetime],
    [numbers.Number] with [int], [bool] and [float], and
    [collections.abc.Mapping] with [dict] and [MultiDict]. *)
Definition stdlib_classes (c : pytype) (name : string) : bool :=
  if decide (name = "date") then bool_decide (c = TDateTime)
  else if decide (name = "Number")
  then bool_decide (c = TInt) || bool_decide (c = TBool) || bool_decide (c = TFloat)
  else if decide (name = "Mapping")
  then bool_decide (c = TDict) || bool_decide (c = TMultiDict)
  else false.

(** [v is None] *)
Definition is_none (v : value) : bool :=
  match v with VNone => true | _ => false end.

(** Truth value of [v], as tested by [if v:]. *)
Definition truthy (v : value) : bool :=
  match v with
  | VNone => false
  | VBool b => b
  | VInt n => negb (n =? 0)
  | VFloat m _ => negb (m =? 0)
  | VStr s => negb (bool_decide (s = ""))
  | VDateTime _ => true
  | VList l => match l with [] => false | _ => true end
  | VDict d => match d with [] => false | _ => true end
  | VMultiDict d => match d with [] => false | _ => true end
  | VObject _ => true
  end.

(** ** Python dicts: insertion-ordered association lists *)

Abbreviation pydict V := (list (string * V)).

Section pydict.
Context {V : Type}.

(** [key in d and d[key]] *)
Fixpoint dict_lookup (d : pydict V) (key : string) : option V :=
  match d with
  | [] => None
  | (k, v) :: rest => if decide (k = key) then Some v else dict_lookup rest key
  end.

(** [d.get(key, default)] *)
Definition dict_get (d : pydict V) (key : string) (default : V) : V :=
  match dict_lookup d key with
  | Some v => v
  | None => default
  end.

(** [d[key] = v]: an existing key keeps its position, a new key goes last. *)
Fixpoint dict_setitem (d : pydict V) (key : string) (v : V) : pydict V :=
  match d with
  | [] => [(key, v)]
  | (k, x) :: rest =>
      if decide (k = key) then (k, v) :: rest
      else (k, x) :: dict_setitem rest key v
  end.

(** [d.update(other)] *)
Definition dict_update (d other : pydict V) : pydict V :=
  foldl (λ acc kv, dict_setitem acc kv.1 kv.2) d other.

(** [list(d.keys())] *)
Definition dict_keys (d : pydict V) : list string := d.*1.

(** A dict holds each key once. *)
Definition dict_wf (d : pydict V) : Prop := NoDup (dict_keys d).

(** [d if d else {}] for an optional group argument. *)
Definition or_empty (d : option (pydict V)) : pydict V :=
  match d with
  | Some (kv :: rest) => kv :: rest
  | _ => []
  end.
End pydict.

(** ** Exceptions *)

Inductive exn : Type :=
| AppException (msg : string)        (* tikki.exceptions.AppException *)
| ParserError (timestr : string)     (* raised by dateutil.parser.parse *)
| ConversionError (key : string)     (* raised inside MultiDict.get *)
| TypeError (msg : string).           (* an argument of the wrong shape *)

Inductive result (A : Type) : Type :=
| Return (a : A)
| Raise (e : exn).
Arguments Return {A} a.
Arguments Raise {A} e.

Definition bind {A B} (r : result A) (k : A → result B) : result B :=
  match r with
  | Return a => k a
  | Raise e => Raise e
  end.

#[global] Instance result_ret : MRet result := @Return.
#[global] Instance result_bind : MBind result := λ A B k r, bind r k.

(** [for x in xs: s = body(s, x)], stopping at the first exception. *)
Fixpoint for_each {A S} (body : S → A → result S) (xs : list A) (s : S)
  : result S :=
  match xs with
  | [] => Return s
  | x :: rest => s' ← body s x; for_each body rest s'
  end.

(** ** The argument extractor *)

(** The message of the exception for a source that is no dict. *)
Definition unsupported_message (source_dict : value) : string :=
  "Unsupported source_dict type: " +:+ type_name (type_of source_dict).

Section extractor.
Variable subclass_of : pytype → string → bool.

(** [dateutil.parser.parse(s, default=d, ignoretz=True)]: the naive
    datetime parsed, with the fields the string omits taken from [d], or
    [None] when the parser raises. *)
Variable dateutil_parse : datetime → string → option datetime.

(** The call in [parse_value] passes no [default], and the parser then
    takes [datetime.datetime.now()] at midnight: [today] is that default,
    the date of the call.  The lookups of a call share it: a call is taken
    not to run across midnight. *)
Variable today : datetime.

(** werkzeug's [MultiDict.get(key, default, type)], taken as a function of
    its arguments: the value found (or converted, or the default), or
    [None] when the call raises. *)
Variable multidict_get :
  list (string * list value) → string → value → pytype → option value.

Definition parse_value (val : value) (default_type : pytype) : result value :=
  match default_type, val with
  | TDateTime, VStr s =>
      match dateutil_parse today s with
      | Some d => Return (VDateTime d)
      | None => Raise (ParserError s)
      end
  | _, _ => Return (if isinstance subclass_of val default_type then val else VNone)
  end.

Definition get_anydict_value (source_dict : value) (key : string)
    (default_value : value) (default_type : pytype) : result value :=
  match source_dict with
  | VMultiDict m =>
      match multidict_get m key default_value default_type with
      | Some val => parse_value val default_type
      | None => Raise (ConversionError key)
      end
  | VDict d => parse_value (dict_get d key default_value) default_type
  | _ => Raise (AppException (unsupported_message source_dict))
  end.

(** Body of the loop over [required.items()]; the state is
    [(missing, ret_dict)]. *)
Definition required_step (received : value)
    (st : list string * pydict value) (item : string * pytype)
  : result (list string * pydict value) :=
  let '(missing, ret_dict) := st in
  let '(key, default_type) := item in
  val ← get_anydict_value received key VNone default_type;
  let missing := if is_none val then missing ++ [key] else missing in
  Return (missing, dict_setitem ret_dict key val).

(** Body of the loop over [defaultable.items()]. *)
Definition defaultable_step (received : value)
    (ret_dict : pydict value) (item : string * value)
  : result (pydict value) :=
  let '(key, default_value) := item in
  let default_type := type_of default_value in
  val ← get_anydict_value received key default_value default_type;
  Return (dict_setitem ret_dict key val).

(** Body of the loop over [optional.items()]. *)
Definition optional_step (received : value)
    (ret_dict : pydict value) (item : string * pytype)
  : result (pydict value) :=
  let '(key, default_type) := item in
  val ← get_anydict_value received key VNone default_type;
  Return (if is_none val then ret_dict else dict_setitem ret_dict key val).

(** The message built from the list of missing arguments. *)
Definition missing_message (missing : list string) : string :=
  foldl (λ msg arg, msg +:+ " " +:+ arg) "Missing following arguments:" missing.

Definition no_groups_message : string :=
  "One of the following is required: required, defaultable, optional or constant.".

(** What each loop writes when it starts from an empty [ret_dict]. *)
Definition required_group (received : value) (required : pydict pytype)
  : result (list string * pydict value) :=
  for_each (required_step received) required ([], []).

Definition defaultable_group (received : value) (defaultable : pydict value)
  : result (pydict value) :=
  for_each (defaultable_step received) defaultable [].

Definition optional_group (received : value) (optional : pydict pytype)
  : result (pydict value) :=
  for_each (optional_step received) optional [].

(** A descriptor whose lookup-and-coercion gives [None]. *)
Definition absent (received : value) (item : string * pytype) : bool :=
  match get_anydict_value received item.1 VNone item.2 with
  | Return val => is_none val
  | Raise _ => false
  end.

(** A descriptor whose lookup-and-coercion gives a value other than [None]. *)
Definition coerces (received : value) (item : string * pytype) : bool :=
  match get_anydict_value received item.1 VNone item.2 with
  | Return val => negb (is_none val)
  | Raise _ => false
  end.

(** A descriptor whose lookup raises. *)
Definition lookup_raises (received : value) (key : string)
    (default_value : value) (default_type : pytype) : bool :=
  match get_anydict_value received key default_value default_type with
  | Return _ => false
  | Raise _ => true
  end.

(** The lookups a call makes, each as key, default and type: the
    required descriptors, then the defaultable ones, then the optional ones. *)
Definition all_lookups (required : pydict pytype) (defaultable : pydict value)
    (optional : pydict pytype) : list (string * value * pytype) :=
  ((λ item, (item.1, VNone, item.2)) <$> required)
  ++ ((λ item, (item.1, item.2, type_of item.2)) <$> defaultable)
  ++ ((λ item, (item.1, VNone, item.2)) <$> optional).

(** The keys looked up, up to and including the first lookup that raises. *)
Fixpoint performed (received : value) (calls : list (string * value * pytype))
  : list string :=
  match calls with
  | [] => []
  | (key, default_value, default_type) :: rest =>
      key :: if lookup_raises received key default_value default_type
             then [] else performed received rest
  end.

(** How a loop over the store ends, against the loop of the functional
    model: [res] is the outcome over the store, [pure] the outcome of the
    functional loop, [final] the state the store is left in, and [calls]
    the lookups of the loop.  A loop that returns performed all its
    lookups; a loop that raises performed no lookup after the one that
    raised. *)
Definition loop_outcome {S} (received : value) (res : result ())
    (pure : result S) (final : S) (calls : list (string * value * pytype))
  : Prop :=
  match res with
  | Return _ =>
      pure = Return final
      ∧ ∀ more, performed received (calls ++ more)
                = performed received calls ++ performed received more
  | Raise e =>
      pure = Raise e
      ∧ ∀ more, performed received (calls ++ more) = performed received calls
  end.

Definition get_args (received : value)
    (required : option (pydict pytype))
    (defaultable : option (pydict value))
    (optional : option (pydict pytype))
    (constant : option (pydict value)) : result (pydict value) :=
  match required, defaultable, optional, constant with
  | None, None, None, None => Raise (AppException no_groups_message)
  | _, _, _, _ =>
      let required := or_empty required in
      let defaultable := or_empty defaultable in
      let optional := or_empty optional in
      let constant := or_empty constant in
      '(missing, ret_dict) ← for_each (required_step received) required ([], []);
      ret_dict ← for_each (defaultable_step received) defaultable ret_dict;
      ret_dict ← for_each (optional_step received) optional ret_dict;
      let ret_dict := dict_update ret_dict constant in
      if (0 <? length missing)%nat then Raise (AppException (missing_message missing))
      else Return ret_dict
  end.
End extractor.

(** A parser instance under which no string is a date.  It agrees with
    dateutil on every string dateutil rejects, the empty string among them. *)
Definition rejecting_parser : datetime → string → option datetime := λ _ _, None.

(** A date for the concrete cases, 2023-11-14 at midnight, and a reading
    of the clock on that day, 2023-11-14T22:13:20.123456. *)
Definition example_today : datetime := 1699920000000000.
Definition example_clock : datetime := 1700000000123456.

(** A parser instance for the string ["12:00"], which it reads as dateutil
    reads a time with no date: noon of the default date.  It rejects every
    other string. *)
Definition noon_parser : datetime → string → option datetime := λ default s,
  if decide (s = "12:00") then Some (default + 43200000000) else None.

(** A [MultiDict.get] instance that raises on every call; the examples
    below use plain dicts and never reach it. *)
Definition raising_multidict_get
  : list (string * list value) → string → value → pytype → option value :=
  λ _ _ _ _, None.

(** ** The cases of [tests/utils_tests.py] *)

Module UtilsTestCase.
Definition received : value := VDict [("a", VInt 1); ("b", VStr "c")].
Definition required : pydict pytype := [("a", TInt)].
Definition defaultable : pydict value := [("a", VInt 3); ("c", VInt 2)].
Definition optional : pydict pytype := [("a", TInt); ("b", TStr)].
Definition constant : pydict value := [("a", VInt 2)].
End UtilsTestCase.

(** ** The extractor over a store of mutable objects

    The same function once more, statement by statement, with the Python
    objects it touches held in a store: arguments are references, [{}]
    and [[]] allocate, and [missing.append], [ret_dict[key] = val] and
    [ret_dict.update] write to the store. *)

Definition loc : Type := positive.

Inductive object : Type :=
| OValue (v : value)           (* any value; a dict of values is a [VDict] *)
| OTypes (d : pydict pytype)   (* a dict from names to classes *)
| OStrings (l : list string).  (* a list of strings *)

(** The store, and a log of the lookups made by [get_anydict_value]: the
    source object and the key of each call, oldest first. *)
Record world : Type := World {
  heap : gmap loc object;
  lookups : list (loc * string)
}.

Definition state (A : Type) : Type := world → result A * world.

#[global] Instance state_ret : MRet state := λ A a w, (Return a, w).
#[global] Instance state_bind : MBind state := λ A B k m w,
  match m w with
  | (Return a, w') => k a w'
  | (Raise e, w') => (Raise e, w')
  end.

Definition raise {A} (e : exn) : state A := λ w, (Raise e, w).

(** Run a store-free computation. *)
Definition lift {A} (r : result A) : state A := λ w, (r, w).

(** Allocate a new object. *)
Definition new (o : object) : state loc := λ w,
  let l := fresh (dom (heap w)) in
  (Return l, World (<[l := o]> (heap w)) (lookups w)).

Definition store (l : loc) (o : object) : state () := λ w,
  (Return (), World (<[l := o]> (heap w)) (lookups w)).

Definition load_value (l : loc) : state value := λ w,
  match heap w !! l with
  | Some (OValue v) => (Return v, w)
  | _ => (Raise (TypeError "value expected"), w)
  end.

Definition load_types (l : loc) : state (pydict pytype) := λ w,
  match heap w !! l with
  | Some (OTypes d) => (Return d, w)
  | _ => (Raise (TypeError "dict of types expected"), w)
  end.

Definition load_dict (l : loc) : state (pydict value) := λ w,
  match heap w !! l with
  | Some (OValue (VDict d)) => (Return d, w)
  | _ => (Raise (TypeError "dict expected"), w)
  end.

Definition load_strings (l : loc) : state (list string) := λ w,
  match heap w !! l with
  | Some (OStrings xs) => (Return xs, w)
  | _ => (Raise (TypeError "list expected"), w)
  end.

Definition log_lookup (source_dict : loc) (key : string) : state () := λ w,
  (Return (), World (heap w) (lookups w ++ [(source_dict, key)])).

(** [xs.append(x)] *)
Definition list_append_at (l : loc) (x : string) : state () :=
  xs ← load_strings l; store l (OStrings (xs ++ [x])).

(** [d[key] = v] *)
Definition dict_setitem_at (l : loc) (key : string) (v : value) : state () :=
  d ← load_dict l; store l (OValue (VDict (dict_setitem d key v))).

(** [d.update(other)] *)
Definition dict_update_at (l other : loc) : state () :=
  o ← load_dict other; d ← load_dict l; store l (OValue (VDict (dict_update d o))).

(** [for x in xs: body(x)] *)
Fixpoint for_each_st {A} (body : A → state ()) (xs : list A) : state () :=
  match xs with
  | [] => mret ()
  | x :: rest => _ ← body x; for_each_st body rest
  end.

(** An optional group argument refers to a dict of classes, or to a dict
    of values, with the given content. *)
Definition types_at (h : gmap loc object) (arg : option loc)
    (content : option (pydict pytype)) : Prop :=
  option_Forall2 (λ l d, h !! l = Some (OTypes d)) arg content.

Definition dict_at (h : gmap loc object) (arg : option loc)
    (content : option (pydict value)) : Prop :=
  option_Forall2 (λ l d, h !! l = Some (OValue (VDict d))) arg content.

(** The store [h] with the two local objects of a call written over it:
    the list [missing] and the dict [ret_dict]. *)
Definition locals (h : gmap loc object) (missing ret_dict : loc)
    (ms : list string) (d : pydict value) : gmap loc object :=
  <[ret_dict := OValue (VDict d)]> (<[missing := OStrings ms]> h).

Section extractor_store.
Variable subclass_of : pytype → string → bool.
Variable dateutil_parse : datetime → string → option datetime.
Variable today : datetime.
Variable multidict_get :
  list (string * list value) → string → value → pytype → option value.

Definition get_anydict_value_st (source_dict : loc) (key : string)
    (default_value : value) (default_type : pytype) : state value :=
  _ ← log_lookup source_dict key;
  src ← load_value source_dict;
  lift (get_anydict_value subclass_of dateutil_parse today multidict_get
          src key default_value default_type).

(** [required = required if required else {}] (and [optional]) *)
Definition types_or_empty (arg : option loc) : state loc :=
  match arg with
  | Some l =>
      d ← load_types l;
      match d with [] => new (OTypes []) | _ => mret l end
  | None => new (OTypes [])
  end.

(** [defaultable = defaultable if defaultable else {}] (and [constant]) *)
Definition dict_or_empty (arg : option loc) : state loc :=
  match arg with
  | Some l =>
      d ← load_dict l;
      match d with [] => new (OValue (VDict [])) | _ => mret l end
  | None => new (OValue (VDict []))
  end.

(** Body of the loop over [required.items()]. *)
Definition required_body_st (received missing ret_dict : loc)
    (item : string * pytype) : state () :=
  let '(key, default_type) := item in
  val ← get_anydict_value_st received key VNone default_type;
  _ ← (if is_none val then list_append_at missing key else mret ());
  dict_setitem_at ret_dict key val.

(** Body of the loop over [defaultable.items()]. *)
Definition defaultable_body_st (received ret_dict : loc)
    (item : string * value) : state () :=
  let '(key, default_value) := item in
  let default_type := type_of default_value in
  val ← get_anydict_value_st received key default_value default_type;
  dict_setitem_at ret_dict key val.

(** Body of the loop over [optional.items()]. *)
Definition optional_body_st (received ret_dict : loc)
    (item : string * pytype) : state () :=
  let '(key, default_type) := item in
  val ← get_anydict_value_st received key VNone default_type;
  if is_none val then mret () else dict_setitem_at ret_dict key val.

Definition get_args_st (received : loc)
    (required defaultable optional constant : option loc) : state loc :=
  match required, defaultable, optional, constant with
  | None, None, None, None => raise (AppException no_groups_message)
  | _, _, _, _ =>
      required ← types_or_empty required;
      defaultable ← dict_or_empty defaultable;
      optional ← types_or_empty optional;
      constant ← dict_or_empty constant;
      missing ← new (OStrings []);
      ret_dict ← new (OValue (VDict []));
      items ← load_types required;
      _ ← for_each_st (required_body_st received missing ret_dict) items;
      items ← load_dict defaultable;
      _ ← for_each_st (defaultable_body_st received ret_dict) items;
      items ← load_types optional;
      _ ← for_each_st (optional_body_st received ret_dict) items;
      _ ← dict_update_at ret_dict constant;
      missing ← load_strings missing;
      if (0 <? length missing)%nat
      then raise (AppException (missing_message missing))
      else mret ret_dict
  end.

End extractor_store.

(** Two stores that hold the arguments of the test case at different
    addresses, the second next to an unrelated object and after an earlier
    lookup; and a store whose source is [None]. *)
Module ExampleStores.
Import UtilsTestCase.
Definition world1 : world :=
  World (<[1%positive := OValue received]>
         (<[2%positive := OTypes required]>
          (<[3%positive := OValue (VDict defaultable)]>
           (<[4%positive := OTypes optional]>
            (<[5%positive := OValue (VDict constant)]> ∅))))) [].

Definition world2 : world :=
  World (<[10%positive := OValue received]>
         (<[11%positive := OTypes required]>
          (<[12%positive := OValue (VDict defaultable)]>
           (<[13%positive := OTypes optional]>
            (<[14%positive := OValue (VDict constant)]>
             (<[15%positive := OStrings ["x"]]> ∅))))))
        [(10%positive, "a")].

Definition world_none : world :=
  World (<[1%positive := OValue VNone]>
         (<[2%positive := OValue (VDict constant)]> ∅)) [].
End ExampleStores.

(** ** Configuration from the environment *)

(** [_add_config_from_env]: [environ] is [os.environ], [config] is
    [app.config]; the result is the returned flag with the updated
    [app.config] and the updated [missing_list]. *)
Definition _add_config_from_env (environ : gmap string string)
    (config : gmap string value) (config_key env_variable : string)
    (missing_list : option (list string)) (default_value : value)
  : bool * gmap string value * option (list string) :=
  match environ !! env_variable with
  | Some val => (true, <[config_key := VStr val]> config, missing_list)
  | None =>
      if truthy default_value
      then (true, <[config_key := default_value]> config, missing_list)
      else
        match missing_list with
        | Some xs => (false, config, Some (xs ++ [env_variable]))
        | None => (false, config, None)
        end
  end.

(** ** Binary64 numbers

    A Python [float] is a binary64 number.  Every finite binary64 number
    is a whole multiple of [2^-1074], and a float is held here as that
    multiple: the integer [x] stands for the number [x * 2^-1074].  The
    numbers beyond the largest binary64 number, which no time stamp
    reaches, are not set apart. *)

Abbreviation float := Z.

(** The integer that stands for the float [1.0]. *)
Definition float_unit : float := 2 ^ 1074.

(** The integer nearest to the fraction [p / q], for [0 < q]; of two
    nearest integers, the even one. *)
Definition round_half_even (p q : Z) : Z :=
  let f := p `div` q in
  let r := p `mod` q in
  if 2 * r <? q then f
  else if q <? 2 * r then f + 1
  else if Z.even f then f else f + 1.

(** The distance between neighbouring binary64 numbers around the
    fraction [p / q] of units, for [0 ≤ p] and [0 < q].  A binary64 number
    has 53 significant bits: when the whole units of [p / q] take [n + 1]
    bits, with [52 ≤ n], the numbers around are the multiples of
    [2^(n - 52)] units; below, they are the multiples of the unit. *)
Definition spacing (p q : Z) : Z := 2 ^ Z.max 0 (Z.log2 (p `div` q) - 52).

(** The binary64 number nearest to the fraction [p / q] of units, for
    [0 < q], a tie going to the even neighbour: the rounding of every
    binary64 operation. *)
Definition round_float (p q : Z) : float :=
  let u := spacing (Z.abs p) q in
  Z.sgn p * (u * round_half_even (Z.abs p) (q * u)).

(** [float(n)] of an int *)
Definition float_of_int (n : Z) : float := round_float (n * float_unit) 1.

(** [n / d] for an int [n] below [2^53] and a float [d] that holds the
    whole number [d], as in [microsecond / 1e6]. *)
Definition int_truediv (n d : Z) : float := round_float (n * float_unit) d.

(** [x + y] *)
Definition float_add (x y : float) : float := round_float (x + y) 1.

(** [int(x)]: the whole part, rounded towards zero. *)
Definition int_of_float (x : float) : Z := x `quot` float_unit.

(** ** Identity claims *)

(** The first and the last [datetime]: 0001-01-01T00:00:00 and
    9999-12-31T23:59:59.999999. *)
Definition datetime_min : datetime := -62135596800000000.
Definition datetime_max : datetime := 253402300799999999.

(** [datetime.timedelta(days=n)], in microseconds *)
Definition timedelta_days (n : Z) : Z := n * 86400 * 1000000.

(** [d + delta], or [None] for the [OverflowError] of a date outside the
    years 1 to 9999. *)
Definition datetime_add (d : datetime) (delta : Z) : option datetime :=
  let d' := d + delta in
  if (datetime_min <=? d') && (d' <=? datetime_max) then Some d' else None.

Section identity.
(** The user record is [tikki.db.tables.Base], which is not part of this
    module: [user_id_str u] is [str(u.id)], [user_type_id u] is
    [u.type_id]. *)
Variable user : Type.
Variable user_id_str : user → string.
Variable user_type_id : user → value.

(** The platform's [mktime]: the POSIX time of a naive local time, both
    in whole seconds. *)
Variable mktime : Z → Z.

(** The local UTC offset [mktime] applies at a naive local time. *)
Definition utcoffset (s : Z) : Z := s - mktime s.

(** [d.timestamp()] of a naive datetime: the float
    [mktime(...) + d.microsecond / 1e6]. *)
Definition timestamp (d : datetime) : float :=
  float_add (float_of_int (mktime (d `div` 1000000)))
    (int_truediv (d `mod` 1000000) 1000000).

(** [utcnow] is the reading of [datetime.datetime.utcnow()]; the result is
    [None] when the addition of the day raises [OverflowError]. *)
Definition create_jwt_identity (utcnow : datetime) (u : user)
  : option (pydict value) :=
  let identity := [("sub", VStr (user_id_str u)); ("rol", user_type_id u)] in
  let now := utcnow in
  let identity := dict_setitem identity "iat" (VInt (int_of_float (timestamp now))) in
  tomorrow ← datetime_add now (timedelta_days 1);
  let identity :=
    dict_setitem identity "exp" (VInt (int_of_float (timestamp tomorrow))) in
  Some identity.
End identity.

(** ** The other functions of the module *)

(** The exceptions of the functions around the extractor. *)
Inductive error : Type :=
| Extractor (e : exn)              (* an exception out of [get_args] *)
| RuntimeError (msg : string)
| KeyError (key : string)
| IndexError
| NotSubscriptable (type : string)  (* the [TypeError] of [v[...]] *)
| AttributeError (name : string)
| UnicodeEncodeError (object : string)  (* raised by [str.encode] *)
| LibraryError (call : string).     (* raised by the library call named *)

Inductive outcome (A : Type) : Type :=
| Done (a : A)
| Failed (e : error).
Arguments Done {A} a.
Arguments Failed {A} e.

#[global] Instance outcome_ret : MRet outcome := @Done.
#[global] Instance outcome_bind : MBind outcome := λ A B k r,
  match r with
  | Done a => k a
  | Failed e => Failed e
  end.

(** An exception of [get_args] passing through a caller. *)
Definition of_result {A} (r : result A) : outcome A :=
  match r with
  | Return a => Done a
  | Raise e => Failed (Extractor e)
  end.

(** [os.environ.get('TIKKI_SQLA_DB_URI')], or the [RuntimeError]. *)
Definition get_sqla_uri (environ : gmap string string) : outcome string :=
  match environ !! "TIKKI_SQLA_DB_URI" with
  | Some uri => Done uri
  | None => Failed (RuntimeError "SQLA_DB_URI environment variable undefined")
  end.

(** [v[key]] on a value decoded from JSON. *)
Definition getitem (v : value) (key : string) : outcome value :=
  match v with
  | VDict d =>
      match dict_lookup d key with
      | Some x => Done x
      | None => Failed (KeyError key)
      end
  | _ => Failed (NotSubscriptable (type_name (type_of v)))
  end.

(** [v[0]] on a value decoded from JSON: the first element of a list, the
    first character of a string; a dict has no key [0]. *)
Definition getitem0 (v : value) : outcome value :=
  match v with
  | VList (x :: _) => Done x
  | VList [] => Failed IndexError
  | VStr (String c _) => Done (VStr (String c ""))
  | VStr "" => Failed IndexError
  | VDict _ => Failed (KeyError "0")
  | _ => Failed (NotSubscriptable (type_name (type_of v)))
  end.

Definition jwks_url : string := "https://tikkifi.eu.auth0.com/.well-known/jwks.json".

(** The environment variables [init_app] reads, in the order it reads them. *)
Definition init_app_variables : list string :=
  ["TIKKI_JWT_SECRET"; "TIKKI_SQLA_DB_URI"; "TIKKI_AUTH0_AUDIENCE"].

Section init_app.
(** [urllib.request.urlopen(url).read()], [json.loads] and
    [RSAAlgorithm.from_jwk]: the result, or [None] when the call raises;
    [json.dumps] of a value [json.loads] gave. *)
Variable urlopen_read : string → option string.
Variable json_loads : string → option value.
Variable json_dumps : value → string.
Variable from_jwk : string → option value.

(** What [init_app] does to [app.config] and how it ends.  The set-up of
    the logger writes to the [logging] module alone and is not part of
    the model. *)
Definition init_app (environ : gmap string string) (config : gmap string value)
  : outcome () * gmap string value :=
  let config := <["SQLALCHEMY_TRACK_MODIFICATIONS" := VBool false]> config in
  let missing_vars := Some [] in
  let '(_, config, missing_vars) :=
    _add_config_from_env environ config "JWT_SECRET_KEY" "TIKKI_JWT_SECRET"
      missing_vars VNone in
  let '(_, config, missing_vars) :=
    _add_config_from_env environ config "SQLALCHEMY_DATABASE_URI"
      "TIKKI_SQLA_DB_URI" missing_vars VNone in
  let '(_, config, missing_vars) :=
    _add_config_from_env environ config "AUTH0_AUDIENCE" "TIKKI_AUTH0_AUDIENCE"
      missing_vars VNone in
  match urlopen_read jwks_url with
  | None => (Failed (LibraryError "urlopen"), config)
  | Some contents =>
  match json_loads contents with
  | None => (Failed (LibraryError "json.loads"), config)
  | Some jwks =>
  let config := <["AUTH0_JWKS" := jwks]> config in
  match json_loads contents with
  | None => (Failed (LibraryError "json.loads"), config)
  | Some again =>
  match keys ← getitem again "keys"; getitem0 keys with
  | Failed e => (Failed e, config)
  | Done first =>
  let key := json_dumps first in
  match from_jwk key with
  | None => (Failed (LibraryError "from_jwk"), config)
  | Some public_key =>
  let config := <["AUTH0_PUBLIC_KEY" := public_key]> config in
  match missing_vars with
  | Some (var :: vars) =>
      (Failed (RuntimeError
                 ("Following environment variables undefined: "
                  +:+ String.concat ", " (var :: vars))),
       config)
  | _ => (Done (), config)
  end end end end end end.
End init_app.

Section auth0.
Variable subclass_of : pytype → string → bool.
Variable dateutil_parse : datetime → string → option datetime.
Variable today : datetime.
Variable multidict_get :
  list (string * list value) → string → value → pytype → option value.

(** [s.encode()]: the UTF-8 bytes of the str, or [None] when the str
    holds a code point that UTF-8 does not encode (a lone surrogate, which
    [json.loads] delivers for an escape such as [\ud800]) and the call
    raises [UnicodeEncodeError]. *)
Variable str_encode : string → option (list Byte.byte).

(** [jwt.decode(token, public_key, algorithms=['RS256'],
    audience=audience)] as a function of the bytes of the token, the key
    and the audience: the payload, or [None] when it raises. *)
Variable jwt_decode : list Byte.byte → value → value → option value.

(** [app.config[key]] *)
Definition config_getitem (config : gmap string value) (key : string)
  : outcome value :=
  match config !! key with
  | Some v => Done v
  | None => Failed (KeyError key)
  end.

(** [request_json] is [request.json]. *)
Definition get_auth0_payload (config : gmap string value) (request_json : value)
  : outcome value :=
  public_key ← config_getitem config "AUTH0_PUBLIC_KEY";
  audience ← config_getitem config "AUTH0_AUDIENCE";
  args ← of_result (get_args subclass_of dateutil_parse today multidict_get request_json
                      (Some [("token", TStr)]) None None None);
  token ← getitem (VDict args) "token";
  match token with
  | VStr token =>
      match str_encode token with
      | Some token =>
          match jwt_decode token public_key audience with
          | Some payload => Done payload
          | None => Failed (LibraryError "jwt.decode")
          end
      | None => Failed (UnicodeEncodeError token)
      end
  | _ => Failed (AttributeError "encode")
  end.
End auth0.

(** ** Responses *)

(** [flask.jsonify] of a dict is the dict; a response is its body and
    its status. *)
Definition response : Type := pydict value * Z.

(** [e] is [str(e)] of the first argument. *)
Definition flask_return_exception (e : string) (return_type : option Z)
  : response :=
  let return_type := default 500 return_type in
  ([("http_status_code", VInt return_type); ("error", VStr e)], return_type).

Definition flask_return_success (result : value) (return_type : option Z)
  : response :=
  let return_type := default 200 return_type in
  ([("result", result)], return_type).

Section handler.
(** The exception classes are those of [tikki.exceptions], which is not
    part of this module: [exc_str e] is [str(e)], and the three tests are
    [isinstance(e, Flask400Exception)], [isinstance(e, Flask500Exception)]
    and [isinstance(e, NoRecordsException)]. *)
Variable exception : Type.
Variable exc_str : exception → string.
Variable is_flask400 is_flask500 is_no_records : exception → bool.

(** [format_exc] is the text [traceback.format_exc()] gives during the
    call; [log] holds the messages handed to [logger.error]. *)
Definition flask_handle_exception (format_exc : string) (e : exception)
    (log : list string) : response * list string :=
  if is_flask400 e then (flask_return_exception (exc_str e) (Some 400), log)
  else if is_flask500 e then (flask_return_exception (exc_str e) (Some 500), log)
  else if is_no_records e then (flask_return_exception (exc_str e) (Some 400), log)
  else (flask_return_exception format_exc (Some 500), log ++ [format_exc]).

(** [req_is_json] is [req.is_json]; the result is the message of the
    [Flask400Exception] raised, if one is. *)
Definition flask_validate_request_is_json (req_is_json : bool) : option string :=
  if req_is_json then None else Some "Request body is not JSON.".
End handler.

(** ** UUIDs *)

Section uuid.
(** [uuid4()] draws from a source of random bytes: [rng] is the state of
    the source and [uuid4 g] the UUID drawn with the state it leaves. *)
Variable UUID : Type.
Variable rng : Type.
Variable uuid4 : rng → UUID * rng.

(** [[uuid4() for _ in range(n)]] *)
Fixpoint uuid4_list (n : nat) (g : rng) : list UUID * rng :=
  match n with
  | O => ([], g)
  | S n =>
      let '(u, g) := uuid4 g in
      let '(us, g) := uuid4_list n g in
      (u :: us, g)
  end.

(** What [generate_uuid] returns: one UUID, a list of them, or [None]. *)
Inductive uuids : Type :=
| OneUUID (u : UUID)
| ManyUUIDs (us : list UUID)
| NoUUID.

Definition generate_uuid (count : Z) (g : rng) : uuids * rng :=
  if count =? 1 then
    let '(u, g) := uuid4 g in (OneUUID u, g)
  else if 1 <? count then
    let '(us, g) := uuid4_list (Z.to_nat count) g in (ManyUUIDs us, g)
  else (NoUUID, g).
End uuid.

(** Instances of the library calls and of the environment, for the
    concrete cases. *)
Module ExampleServices.
Definition jwks : value :=
  VDict [("keys", VList [VDict [("kty", VStr "RSA"); ("kid", VStr "1")]])].
Definition public_key : value := VObject "RSAPublicKey".
Definition urlopen_read : string → option string := λ _, Some "{...}".
Definition json_loads : string → option value := λ _, Some jwks.
Definition json_dumps : value → string := λ _, "{...}".
Definition from_jwk : string → option value := λ _, Some public_key.

(** The str [\ud800], a lone surrogate, for the concrete cases: it is
    held as the three bytes its code point would take in UTF-8. *)
Definition lone_surrogate : string :=
  String (Ascii.ascii_of_nat 237)
    (String (Ascii.ascii_of_nat 160) (String (Ascii.ascii_of_nat 128) "")).

(** An [encode] instance for the strs of the concrete cases: it raises
    on the lone surrogate and gives the bytes of an ASCII str. *)
Definition str_encode : string → option (list Byte.byte) := λ s,
  if decide (s = lone_surrogate) then None else Some (String.list_byte_of_string s).

Definition jwt_decode : list Byte.byte → value → value → option value :=
  λ token _ audience,
    Some (VDict [("sub", VStr (String.string_of_list_byte token)); ("aud", audience)]).

(** An environment with the three variables, and one without the secret
    and the audience. *)
Definition environ : gmap string string :=
  <["TIKKI_JWT_SECRET" := "s3cret"]>
    (<["TIKKI_SQLA_DB_URI" := "postgresql://db/tikki"]>
       (<["TIKKI_AUTH0_AUDIENCE" := "tikki-api"]> ∅)).
Definition environ_uri_only : gmap string string :=
  <["TIKKI_SQLA_DB_URI" := "postgresql://db/tikki"]> ∅.

Definition config : gmap string value :=
  <["AUTH0_PUBLIC_KEY" := public_key]> (<["AUTH0_AUDIENCE" := VStr "tikki-api"]> ∅).

(** A source of UUIDs that counts. *)
Definition uuid4 : nat → nat * nat := λ g, (g, S g).
End ExampleServices.

(** * Properties *)

(** ** Dicts *)

Section pydict_facts.
Context {V : Type}.
Implicit Types (d acc : pydict V) (key k : string) (v : V).

Lemma dict_lookup_setitem d key v k :
  dict_lookup (dict_setitem d key v) k
  = if decide (key = k) then Some v else dict_lookup d k.
Proof.
  induction d as [|[k0 x] rest IH]; simpl.
  - reflexivity.
  - destruct (decide (k0 = key)) as [->|Hne]; simpl.
    + destruct (decide (key = k)); reflexivity.
    + rewrite IH. destruct (decide (k0 = k)) as [->|]; [|reflexivity].
      destruct (decide (key = k)); congruence.
Qed.

Lemma dict_keys_setitem d key v k :
  k ∈ dict_keys (dict_setitem d key v) ↔ k = key ∨ k ∈ dict_keys d.
Proof.
  unfold dict_keys. induction d as [|[k0 x] rest IH]; simpl.
  - rewrite list_elem_of_singleton. set_solver.
  - destruct (decide (k0 = key)) as [->|Hne]; simpl.
    + set_solver.
    + rewrite !elem_of_cons, IH. tauto.
Qed.

Lemma dict_lookup_is_Some d k : is_Some (dict_lookup d k) ↔ k ∈ dict_keys d.
Proof.
  unfold dict_keys. induction d as [|[k0 x] rest IH]; simpl.
  - split; [intros [? [=]]|intros H; inversion H].
  - destruct (decide (k0 = k)) as [->|Hne].
    + split; [set_solver|eauto].
    + rewrite IH. set_solver.
Qed.

Lemma dict_lookup_None d k : dict_lookup d k = None ↔ k ∉ dict_keys d.
Proof. rewrite <- dict_lookup_is_Some, eq_None_not_Some. tauto. Qed.

Lemma dict_setitem_fresh d key v :
  key ∉ dict_keys d → dict_setitem d key v = d ++ [(key, v)].
Proof.
  unfold dict_keys. induction d as [|[k0 x] rest IH]; simpl; intros Hnot.
  - reflexivity.
  - destruct (decide (k0 = key)) as [->|Hne]; [set_solver|].
    f_equal. apply IH. set_solver.
Qed.

Lemma dict_wf_setitem d key v : dict_wf d → dict_wf (dict_setitem d key v).
Proof.
  unfold dict_wf. induction d as [|[k0 x] rest IH]; simpl; intros Hwf.
  - apply NoDup_singleton.
  - destruct (decide (k0 = key)) as [->|Hne]; [exact Hwf|].
    apply NoDup_cons in Hwf as [Hnot Hwf]. simpl. apply NoDup_cons. split.
    + intros Hin. apply dict_keys_setitem in Hin as [?|?]; [congruence|].
      contradiction.
    + apply IH, Hwf.
Qed.

Lemma dict_wf_update acc d : dict_wf acc → dict_wf (dict_update acc d).
Proof.
  unfold dict_update. revert acc.
  induction d as [|[k x] rest IH]; simpl; intros acc Hwf; [exact Hwf|].
  apply IH, dict_wf_setitem, Hwf.
Qed.

Lemma dict_keys_update acc d k :
  k ∈ dict_keys (dict_update acc d) ↔ k ∈ dict_keys acc ∨ k ∈ dict_keys d.
Proof.
  unfold dict_update. revert acc.
  induction d as [|[k0 x] rest IH]; simpl; intros acc.
  - unfold dict_keys. simpl. set_solver.
  - rewrite IH, dict_keys_setitem. unfold dict_keys. simpl. set_solver.
Qed.

Lemma dict_update_snoc acc d key v :
  dict_update acc (d ++ [(key, v)]) = dict_setitem (dict_update acc d) key v.
Proof. unfold dict_update. rewrite foldl_app. reflexivity. Qed.

Lemma dict_setitem_setitem_eq d key v v' :
  dict_setitem (dict_setitem d key v) key v' = dict_setitem d key v'.
Proof.
  induction d as [|[k0 x] rest IH]; simpl.
  - rewrite decide_True by done. reflexivity.
  - destruct (decide (k0 = key)) as [->|Hne]; simpl.
    + rewrite decide_True by done. reflexivity.
    + rewrite decide_False by done. f_equal. apply IH.
Qed.

Lemma dict_setitem_comm d key v k x :
  key ∈ dict_keys d → key ≠ k →
  dict_setitem (dict_setitem d k x) key v
  = dict_setitem (dict_setitem d key v) k x.
Proof.
  unfold dict_keys. induction d as [|[k0 y] rest IH]; simpl; intros Hin Hne.
  - inversion Hin.
  - destruct (decide (k0 = k)) as [Hk|Hk]; destruct (decide (k0 = key)) as [Hkey|Hkey];
      simpl; try congruence.
    + rewrite decide_False, decide_True by done. reflexivity.
    + rewrite decide_True, decide_False by done. reflexivity.
    + rewrite !decide_False by done. f_equal. apply IH; [set_solver|done].
Qed.

(** Writing a key the dict already holds commutes with an update that
    does not mention the key. *)
Lemma dict_setitem_update acc d key v :
  key ∈ dict_keys acc → key ∉ dict_keys d →
  dict_setitem (dict_update acc d) key v = dict_update (dict_setitem acc key v) d.
Proof.
  unfold dict_update. revert acc.
  induction d as [|[k0 x] rest IH]; simpl; intros acc Hin Hnot; [reflexivity|].
  unfold dict_keys in Hnot. simpl in Hnot.
  rewrite IH.
  - f_equal. apply dict_setitem_comm; [done|set_solver].
  - apply dict_keys_setitem. by right.
  - set_solver.
Qed.

Lemma dict_update_setitem acc d key v :
  dict_wf d →
  dict_update acc (dict_setitem d key v) = dict_setitem (dict_update acc d) key v.
Proof.
  revert acc. induction d as [|[k0 x] rest IH]; simpl; intros acc Hwf.
  - reflexivity.
  - apply NoDup_cons in Hwf as [Hnot Hwf]. fold (dict_keys rest) in Hnot.
    destruct (decide (k0 = key)) as [->|Hne].
    + change (dict_update acc ((key, v) :: rest))
        with (dict_update (dict_setitem acc key v) rest).
      change (dict_update acc ((key, x) :: rest))
        with (dict_update (dict_setitem acc key x) rest).
      rewrite dict_setitem_update; [|apply dict_keys_setitem; by left|done].
      by rewrite dict_setitem_setitem_eq.
    + change (dict_update acc ((k0, x) :: dict_setitem rest key v))
        with (dict_update (dict_setitem acc k0 x) (dict_setitem rest key v)).
      rewrite IH by done. reflexivity.
Qed.

(** Updating with the result of an update is updating twice. *)
Lemma dict_update_assoc acc d other :
  dict_wf d →
  dict_update acc (dict_update d other) = dict_update (dict_update acc d) other.
Proof.
  intros Hwf. induction other as [|[k x] rest IH] using rev_ind.
  - reflexivity.
  - rewrite !dict_update_snoc, <- IH.
    apply dict_update_setitem, dict_wf_update, Hwf.
Qed.

Lemma dict_update_nil_l_app acc d :
  dict_wf (acc ++ d) → dict_update acc d = acc ++ d.
Proof.
  revert acc. induction d as [|[k x] rest IH]; intros acc Hwf.
  - by rewrite app_nil_r.
  - change (dict_update acc ((k, x) :: rest))
      with (dict_update (dict_setitem acc k x) rest).
    assert (k ∉ dict_keys acc) as Hnot.
    { unfold dict_wf, dict_keys in *. rewrite fmap_app in Hwf.
      apply NoDup_app in Hwf as (_ & Hdisj & _). intros Hin.
      apply (Hdisj _ Hin). simpl. set_solver. }
    rewrite (dict_setitem_fresh _ _ _ Hnot), IH; rewrite <- app_assoc; done.
Qed.

(** [{}.update(d)] is a copy of [d]. *)
Lemma dict_update_nil_l d : dict_wf d → dict_update [] d = d.
Proof. intros Hwf. by apply (dict_update_nil_l_app []). Qed.

Lemma dict_lookup_update_notin acc d k :
  k ∉ dict_keys d → dict_lookup (dict_update acc d) k = dict_lookup acc k.
Proof.
  unfold dict_update, dict_keys. revert acc.
  induction d as [|[k0 x] rest IH]; simpl; intros acc Hnot; [reflexivity|].
  rewrite IH by set_solver. rewrite dict_lookup_setitem.
  rewrite decide_False; [done|set_solver].
Qed.

(** After [acc.update(d)] every key of [d] carries its value in [d]. *)
Lemma dict_lookup_update_in acc d k v :
  dict_wf d → dict_lookup d k = Some v →
  dict_lookup (dict_update acc d) k = Some v.
Proof.
  revert acc. induction d as [|[k0 x] rest IH]; simpl; intros acc Hwf Hk; [done|].
  apply NoDup_cons in Hwf as [Hnot Hwf]. fold (dict_keys rest) in Hnot.
  change (dict_update acc ((k0, x) :: rest))
    with (dict_update (dict_setitem acc k0 x) rest).
  destruct (decide (k0 = k)) as [->|Hne].
  - injection Hk as ->. rewrite dict_lookup_update_notin by done.
    rewrite dict_lookup_setitem. by rewrite decide_True.
  - by apply IH.
Qed.
End pydict_facts.

(** ** Strings *)

Lemma string_app_cons (c : Ascii.ascii) (s t : string) :
  String c s +:+ t = String c (s +:+ t).
Proof. reflexivity. Qed.

Lemma string_app_assoc (s1 s2 s3 : string) : s1 +:+ (s2 +:+ s3) = (s1 +:+ s2) +:+ s3.
Proof.
  induction s1 as [|c s1 IH]; [reflexivity|].
  by rewrite !string_app_cons, IH.
Qed.

Lemma string_app_nil_r (s : string) : s +:+ "" = s.
Proof.
  induction s as [|c s IH]; [reflexivity|].
  by rewrite string_app_cons, IH.
Qed.

Lemma string_concat_cons (x : string) (xs : list string) :
  String.concat "" (x :: xs) = x +:+ String.concat "" xs.
Proof. destruct xs; [apply eq_sym, string_app_nil_r|reflexivity]. Qed.

Lemma missing_message_from (prefix : string) (missing : list string) :
  foldl (λ msg arg, msg +:+ " " +:+ arg) prefix missing
  = prefix +:+ String.concat "" ((λ arg, " " +:+ arg) <$> missing).
Proof.
  revert prefix. induction missing as [|arg rest IH]; intros prefix.
  - simpl. by rewrite string_app_nil_r.
  - rewrite fmap_cons, string_concat_cons. simpl foldl.
    rewrite IH. apply eq_sym, string_app_assoc.
Qed.

(** The message is the fixed prefix followed by each name after a space. *)
Lemma missing_message_spaced (missing : list string) :
  missing_message missing
  = "Missing following arguments:"
    +:+ String.concat "" ((λ arg, " " +:+ arg) <$> missing).
Proof. apply missing_message_from. Qed.

(** ** The extractor *)

Lemma bind_Return {A B} (r : result A) (k : A → result B) (b : B) :
  (r ≫= k) = Return b ↔ ∃ a, r = Return a ∧ k a = Return b.
Proof.
  destruct r as [a|e]; simpl; split.
  - eauto.
  - by intros (a' & [= <-] & Hk).
  - by intros [=].
  - by intros (a' & [=] & _).
Qed.

Section extractor_facts.
Variable subclass_of : pytype → string → bool.
Variable dateutil_parse : datetime → string → option datetime.
Variable today : datetime.
Variable multidict_get :
  list (string * list value) → string → value → pytype → option value.

Local Abbreviation isinstance := (isinstance subclass_of).
Local Abbreviation parse_value := (parse_value subclass_of dateutil_parse today).
Local Abbreviation get_anydict_value :=
  (get_anydict_value subclass_of dateutil_parse today multidict_get).
Local Abbreviation required_step :=
  (required_step subclass_of dateutil_parse today multidict_get).
Local Abbreviation defaultable_step :=
  (defaultable_step subclass_of dateutil_parse today multidict_get).
Local Abbreviation optional_step :=
  (optional_step subclass_of dateutil_parse today multidict_get).
Local Abbreviation required_group :=
  (required_group subclass_of dateutil_parse today multidict_get).
Local Abbreviation defaultable_group :=
  (defaultable_group subclass_of dateutil_parse today multidict_get).
Local Abbreviation optional_group :=
  (optional_group subclass_of dateutil_parse today multidict_get).
Local Abbreviation absent := (absent subclass_of dateutil_parse today multidict_get).
Local Abbreviation coerces := (coerces subclass_of dateutil_parse today multidict_get).
Local Abbreviation lookup_raises :=
  (lookup_raises subclass_of dateutil_parse today multidict_get).
Local Abbreviation performed :=
  (performed subclass_of dateutil_parse today multidict_get).
Local Abbreviation get_args :=
  (get_args subclass_of dateutil_parse today multidict_get).

Implicit Types (received val : value) (key : string).

(** *** The loops, decomposed *)

Lemma required_loop_from received items missing acc :
  for_each (required_step received) items (missing, acc)
  = p ← required_group received items;
    Return (missing ++ p.1, dict_update acc p.2).
Proof.
  unfold required_group. revert missing acc.
  induction items as [|[key t] rest IH]; intros missing acc; simpl.
  - by rewrite app_nil_r.
  - destruct (get_anydict_value received key VNone t) as [val|e]; simpl; [|done].
    rewrite IH. rewrite (IH (if is_none val then [key] else []) [(key, val)]).
    destruct (for_each (required_step received) rest ([], [])) as [[ms d]|e];
      simpl; [|done].
    f_equal. f_equal.
    + destruct (is_none val); simpl; by rewrite <- ?app_assoc.
    + rewrite (dict_update_assoc acc [(key, val)]); [done|].
      apply NoDup_singleton.
Qed.

Lemma required_group_cons received key t rest :
  required_group received ((key, t) :: rest)
  = val ← get_anydict_value received key VNone t;
    p ← required_group received rest;
    Return ((if is_none val then [key] else []) ++ p.1,
            dict_update [(key, val)] p.2).
Proof.
  unfold required_group at 1. simpl.
  destruct (get_anydict_value received key VNone t) as [val|e]; simpl; [|done].
  rewrite required_loop_from. by destruct (is_none val).
Qed.

Lemma defaultable_loop_from received items acc :
  for_each (defaultable_step received) items acc
  = d ← defaultable_group received items; Return (dict_update acc d).
Proof.
  unfold defaultable_group. revert acc.
  induction items as [|[key dv] rest IH]; intros acc; simpl; [done|].
  destruct (get_anydict_value received key dv (type_of dv)) as [val|e];
    simpl; [|done].
  rewrite IH. rewrite (IH [(key, val)]).
  destruct (for_each (defaultable_step received) rest []) as [d|e]; simpl; [|done].
  f_equal. rewrite (dict_update_assoc acc [(key, val)]); [done|].
  apply NoDup_singleton.
Qed.

Lemma defaultable_group_cons received key dv rest :
  defaultable_group received ((key, dv) :: rest)
  = val ← get_anydict_value received key dv (type_of dv);
    d ← defaultable_group received rest;
    Return (dict_update [(key, val)] d).
Proof.
  unfold defaultable_group at 1. simpl.
  destruct (get_anydict_value received key dv (type_of dv)) as [val|e];
    simpl; [|done].
  by rewrite defaultable_loop_from.
Qed.

Lemma optional_loop_from received items acc :
  for_each (optional_step received) items acc
  = d ← optional_group received items; Return (dict_update acc d).
Proof.
  unfold optional_group. revert acc.
  induction items as [|[key t] rest IH]; intros acc; simpl; [done|].
  destruct (get_anydict_value received key VNone t) as [val|e]; simpl; [|done].
  destruct (is_none val).
  { apply IH. }
  rewrite IH. rewrite (IH [(key, val)]).
  destruct (for_each (optional_step received) rest []) as [d|e]; simpl; [|done].
  f_equal. rewrite (dict_update_assoc acc [(key, val)]); [done|].
  apply NoDup_singleton.
Qed.

Lemma optional_group_cons received key t rest :
  optional_group received ((key, t) :: rest)
  = val ← get_anydict_value received key VNone t;
    d ← optional_group received rest;
    Return (dict_update (if is_none val then [] else [(key, val)]) d).
Proof.
  unfold optional_group at 1. simpl.
  destruct (get_anydict_value received key VNone t) as [val|e]; simpl; [|done].
  rewrite optional_loop_from. by destruct (is_none val).
Qed.

(** The body of [get_args] once a group argument is given. *)
Lemma get_args_body received required defaultable optional constant :
  ¬ (required = None ∧ defaultable = None ∧ optional = None ∧ constant = None) →
  get_args received required defaultable optional constant
  = '(missing, ret_dict) ←
      for_each (required_step received) (or_empty required) ([], []);
    ret_dict ← for_each (defaultable_step received) (or_empty defaultable) ret_dict;
    ret_dict ← for_each (optional_step received) (or_empty optional) ret_dict;
    if (0 <? length missing)%nat then Raise (AppException (missing_message missing))
    else Return (dict_update ret_dict (or_empty constant)).
Proof.
  intros Hsome. unfold get_args.
  destruct required, defaultable, optional, constant; try reflexivity.
  exfalso. by apply Hsome.
Qed.

(** [get_args] as the merge of the three groups and the constants. *)
Lemma get_args_merge received required defaultable optional constant :
  ¬ (required = None ∧ defaultable = None ∧ optional = None ∧ constant = None) →
  get_args received required defaultable optional constant
  = p ← required_group received (or_empty required);
    D ← defaultable_group received (or_empty defaultable);
    O ← optional_group received (or_empty optional);
    let ret_dict :=
      dict_update (dict_update (dict_update p.2 D) O) (or_empty constant) in
    if (0 <? length p.1)%nat then Raise (AppException (missing_message p.1))
    else Return ret_dict.
Proof.
  intros Hsome. rewrite get_args_body by done.
  fold (required_group received (or_empty required)).
  destruct (required_group received (or_empty required)) as [[ms R]|e]; simpl; [|done].
  rewrite defaultable_loop_from.
  destruct (defaultable_group received (or_empty defaultable)) as [D|e]; simpl; [|done].
  rewrite optional_loop_from.
  by destruct (optional_group received (or_empty optional)) as [O|e].
Qed.

(** *** What each group contributes *)

Lemma required_group_spec received items missing R :
  required_group received items = Return (missing, R) →
  (∀ k, k ∈ dict_keys R ↔ k ∈ dict_keys items)
  ∧ missing = dict_keys (filter (λ item, absent received item) items).
Proof.
  revert missing R. induction items as [|[key t] rest IH]; intros missing R H.
  - injection H as <- <-. split; [done|reflexivity].
  - rewrite required_group_cons in H.
    apply bind_Return in H as (val & Hval & H).
    apply bind_Return in H as ([ms' R'] & Hrest & H).
    injection H as <- <-. destruct (IH _ _ Hrest) as [Hkeys ->]. split.
    + intros k. rewrite dict_keys_update, Hkeys. unfold dict_keys. simpl. set_solver.
    + assert (absent received (key, t) = is_none val) as Habs.
      { unfold absent. simpl. by rewrite Hval. }
      rewrite filter_cons, Habs. by destruct (is_none val).
Qed.

Lemma defaultable_group_spec received items D :
  defaultable_group received items = Return D →
  ∀ k, k ∈ dict_keys D ↔ k ∈ dict_keys items.
Proof.
  revert D. induction items as [|[key dv] rest IH]; intros D H.
  - by injection H as <-.
  - rewrite defaultable_group_cons in H.
    apply bind_Return in H as (val & Hval & H).
    apply bind_Return in H as (D' & Hrest & H).
    injection H as <-. intros k.
    rewrite dict_keys_update, (IH _ Hrest). unfold dict_keys. simpl. set_solver.
Qed.

Lemma optional_group_spec received items O :
  optional_group received items = Return O →
  ∀ k, k ∈ dict_keys O
       ↔ k ∈ dict_keys (filter (λ item, coerces received item) items).
Proof.
  revert O. induction items as [|[key t] rest IH]; intros O H.
  - by injection H as <-.
  - rewrite optional_group_cons in H.
    apply bind_Return in H as (val & Hval & H).
    apply bind_Return in H as (O' & Hrest & H).
    injection H as <-. intros k.
    assert (coerces received (key, t) = negb (is_none val)) as Hco.
    { unfold coerces. simpl. by rewrite Hval. }
    rewrite dict_keys_update, (IH _ Hrest), filter_cons, Hco.
    destruct (is_none val); unfold dict_keys; simpl; set_solver.
Qed.

(** A group whose lookups all return runs to the end. *)
Lemma required_group_total received items :
  (∀ item, item ∈ items → lookup_raises received item.1 VNone item.2 = false) →
  ∃ p, required_group received items = Return p.
Proof.
  induction items as [|[key t] rest IH]; intros Hok; [by eexists|].
  rewrite required_group_cons.
  pose proof (Hok (key, t) ltac:(set_solver)) as Hkey.
  unfold lookup_raises in Hkey. simpl in Hkey.
  destruct (get_anydict_value received key VNone t) as [val|e]; [|done].
  destruct IH as [p ->]; [set_solver|]. by eexists.
Qed.

Lemma defaultable_group_total received items :
  (∀ item, item ∈ items →
     lookup_raises received item.1 item.2 (type_of item.2) = false) →
  ∃ D, defaultable_group received items = Return D.
Proof.
  induction items as [|[key dv] rest IH]; intros Hok; [by eexists|].
  rewrite defaultable_group_cons.
  pose proof (Hok (key, dv) ltac:(set_solver)) as Hkey.
  unfold lookup_raises in Hkey. simpl in Hkey.
  destruct (get_anydict_value received key dv (type_of dv)) as [val|e]; [|done].
  destruct IH as [D ->]; [set_solver|]. by eexists.
Qed.

Lemma optional_group_total received items :
  (∀ item, item ∈ items → lookup_raises received item.1 VNone item.2 = false) →
  ∃ O, optional_group received items = Return O.
Proof.
  induction items as [|[key t] rest IH]; intros Hok; [by eexists|].
  rewrite optional_group_cons.
  pose proof (Hok (key, t) ltac:(set_solver)) as Hkey.
  unfold lookup_raises in Hkey. simpl in Hkey.
  destruct (get_anydict_value received key VNone t) as [val|e]; [|done].
  destruct IH as [O ->]; [set_solver|]. by eexists.
Qed.

(** *** The output of a successful call *)

(** C1: when [get_args] returns, the returned dict is the required
    group's dict updated with the defaultable group's, then the optional
    group's, then the constants; its keys are exactly the required keys,
    the defaultable keys, the optional keys whose value coerced, and the
    constant keys; and every constant key carries its constant value. *)
Theorem get_args_output received required defaultable optional constant out :
  get_args received required defaultable optional constant = Return out →
  dict_wf (or_empty constant) →
  ∃ R D O,
    required_group received (or_empty required) = Return ([], R)
    ∧ defaultable_group received (or_empty defaultable) = Return D
    ∧ optional_group received (or_empty optional) = Return O
    ∧ (∀ k, k ∈ dict_keys R ↔ k ∈ dict_keys (or_empty required))
    ∧ (∀ k, k ∈ dict_keys D ↔ k ∈ dict_keys (or_empty defaultable))
    ∧ (∀ k, k ∈ dict_keys O
            ↔ k ∈ dict_keys (filter (λ item, coerces received item)
                               (or_empty optional)))
    ∧ out = dict_update (dict_update (dict_update R D) O) (or_empty constant)
    ∧ (∀ k, k ∈ dict_keys out
            ↔ k ∈ dict_keys (or_empty required)
              ∨ k ∈ dict_keys (or_empty defaultable)
              ∨ k ∈ dict_keys (filter (λ item, coerces received item)
                                 (or_empty optional))
              ∨ k ∈ dict_keys (or_empty constant))
    ∧ (∀ k v, dict_lookup (or_empty constant) k = Some v →
              dict_lookup out k = Some v).
Proof.
  intros Hout Hwf.
  rewrite get_args_merge in Hout.
  2: { intros (-> & -> & -> & ->). discriminate Hout. }
  apply bind_Return in Hout as ([ms R] & HR & Hout).
  apply bind_Return in Hout as (D & HD & Hout).
  apply bind_Return in Hout as (O & HO & Hout).
  simpl in Hout. destruct ms as [|m ms]; [|discriminate Hout].
  injection Hout as <-.
  destruct (required_group_spec _ _ _ _ HR) as [HkR _].
  pose proof (defaultable_group_spec _ _ _ HD) as HkD.
  pose proof (optional_group_spec _ _ _ HO) as HkO.
  exists R, D, O. repeat split; try done; try apply HkR; try apply HkD; try apply HkO.
  - rewrite !dict_keys_update, HkR, HkD, HkO. tauto.
  - rewrite !dict_keys_update, HkR, HkD, HkO. tauto.
  - intros k v Hk. by apply dict_lookup_update_in.
Qed.

(** *** Missing required arguments *)

Lemma or_empty_elem_of {V} (arg : option (pydict V)) (item : string * V) :
  item ∈ or_empty arg → arg ≠ None.
Proof. destruct arg; [done|]. simpl. by intros ?%elem_of_nil. Qed.

(** C2, as the code has it: when the lookup of a required descriptor
    gives [None], its key is in the list of missing arguments and the call
    returns no dict, whatever the other groups wrote; and when no lookup
    of any group raises, the call raises the [AppException] whose message
    is the fixed prefix followed by every missing key, each after a space,
    in the order of the required group. *)
Theorem get_args_missing_required
    received required defaultable optional constant item :
  item ∈ or_empty required →
  get_anydict_value received item.1 VNone item.2 = Return VNone →
  let missing :=
    dict_keys (filter (λ item, absent received item) (or_empty required)) in
  item.1 ∈ missing
  ∧ (∀ out, get_args received required defaultable optional constant ≠ Return out)
  ∧ ((∀ it, it ∈ or_empty required →
            lookup_raises received it.1 VNone it.2 = false) →
     (∀ it, it ∈ or_empty defaultable →
            lookup_raises received it.1 it.2 (type_of it.2) = false) →
     (∀ it, it ∈ or_empty optional →
            lookup_raises received it.1 VNone it.2 = false) →
     get_args received required defaultable optional constant
     = Raise (AppException
                ("Missing following arguments:"
                 +:+ String.concat "" ((λ arg, " " +:+ arg) <$> missing)))).
Proof.
  intros Hitem Hnone missing.
  assert (item.1 ∈ missing) as Hin.
  { unfold missing, dict_keys. apply list_elem_of_fmap. exists item. split; [done|].
    apply list_elem_of_filter. split; [|done].
    unfold absent. by rewrite Hnone. }
  assert (¬ (required = None ∧ defaultable = None ∧ optional = None
             ∧ constant = None)) as Hsome.
  { intros [Hreq _]. by apply (or_empty_elem_of _ _ Hitem). }
  assert (∀ ms R, required_group received (or_empty required) = Return (ms, R) →
            (0 <? length ms)%nat = true) as Hlen.
  { intros ms R HR. apply required_group_spec in HR as [_ ->].
    fold missing. destruct missing; [by apply elem_of_nil in Hin|done]. }
  split; [exact Hin|]. split.
  - intros out. rewrite get_args_merge by done.
    destruct (required_group received (or_empty required)) as [[ms R]|e] eqn:HR;
      [|done].
    simpl. rewrite (Hlen _ _ eq_refl).
    destruct (defaultable_group received (or_empty defaultable)); [|done].
    simpl. by destruct (optional_group received (or_empty optional)).
  - intros Hreq Hdfl Hopt. rewrite get_args_merge by done.
    destruct (required_group_total _ _ Hreq) as [[ms R] HR].
    destruct (defaultable_group_total _ _ Hdfl) as [D HD].
    destruct (optional_group_total _ _ Hopt) as [O HO].
    rewrite HR, HD, HO. simpl. rewrite (Hlen _ _ HR).
    apply required_group_spec in HR as [_ ->].
    by rewrite missing_message_spaced.
Qed.

(** *** Defaultable arguments *)

(** A key the plain dict does not hold comes out as the declared default. *)
Lemma parse_value_default (dv : value) :
  parse_value dv (type_of dv) = Return dv.
Proof.
  destruct dv; try reflexivity; unfold parse_value, isinstance, issubclass; simpl;
    by rewrite bool_decide_eq_true_2.
Qed.

Lemma defaultable_missing_key (d : pydict value) key (dv : value) :
  key ∉ dict_keys d →
  get_anydict_value (VDict d) key dv (type_of dv) = Return dv.
Proof.
  intros Hnot%dict_lookup_None. simpl. unfold dict_get. rewrite Hnot.
  apply parse_value_default.
Qed.

(** A key the plain dict holds with a value that is no instance of the
    default's type (and is not a string for the date parser) comes out as
    [None], not as the default. *)
Lemma defaultable_wrong_type (d : pydict value) key (v dv : value) :
  dict_lookup d key = Some v →
  isinstance v (type_of dv) = false →
  (type_of dv = TDateTime → ∀ s, v ≠ VStr s) →
  get_anydict_value (VDict d) key dv (type_of dv) = Return VNone.
Proof.
  intros Hkey Hinst Hdate. simpl. unfold dict_get. rewrite Hkey.
  destruct (type_of dv) eqn:Ht; simpl; try (by rewrite Hinst).
  destruct v; try (by rewrite Hinst). by destruct (Hdate eq_refl s).
Qed.

(** C3, at the input where the code departs from it: the source holds
    the key with a string, the default is an int, and the output carries
    [None] under the key instead of the default. *)
Theorem get_args_defaultable_wrong_type :
  get_args (VDict [("c", VStr "x")]) None (Some [("c", VInt 2)]) None None
  = Return [("c", VNone)].
Proof. reflexivity. Qed.

(** *** No descriptor groups *)

(** C4, as the code has it: the call raises the [AppException] about the
    missing groups when all four group arguments are omitted; when a group
    is supplied and all groups are empty, the call returns the empty dict. *)
Theorem get_args_no_groups received required defaultable optional constant :
  (required = None → defaultable = None → optional = None → constant = None →
   get_args received required defaultable optional constant
   = Raise (AppException no_groups_message))
  ∧ (¬ (required = None ∧ defaultable = None ∧ optional = None ∧ constant = None) →
     or_empty required = [] → or_empty defaultable = [] →
     or_empty optional = [] → or_empty constant = [] →
     get_args received required defaultable optional constant = Return []).
Proof.
  split.
  - by intros -> -> -> ->.
  - intros Hsome Hreq Hdfl Hopt Hcst.
    rewrite get_args_merge by done. by rewrite Hreq, Hdfl, Hopt, Hcst.
Qed.

(** *** Coercion *)

(** C5, as the code has it: [parse_value] raises only when the date
    parser does; a string under the date/time type is what the parser makes
    of it on the date of the call; any other value passes through
    unchanged when it is an instance of the declared type, and becomes
    [None] otherwise.  A value is an instance of the declared type when its
    class is the declared type, when the declared type is [object], when
    it is a [bool] under [int] or a [MultiDict] under [dict], or when the
    declared type is another class of which the value's class is a
    subclass. *)
Theorem parse_value_outcome val (default_type : pytype) :
  (∀ e, parse_value val default_type = Raise e →
        default_type = TDateTime
        ∧ ∃ s, val = VStr s ∧ dateutil_parse today s = None ∧ e = ParserError s)
  ∧ (∀ s d, default_type = TDateTime → val = VStr s →
            dateutil_parse today s = Some d →
            parse_value val default_type = Return (VDateTime d))
  ∧ ((default_type = TDateTime → ∀ s, val ≠ VStr s) →
     parse_value val default_type
     = Return (if isinstance val default_type then val else VNone))
  ∧ (isinstance val default_type = true
     ↔ type_of val = default_type
       ∨ default_type = TObject
       ∨ (type_of val = TBool ∧ default_type = TInt)
       ∨ (type_of val = TMultiDict ∧ default_type = TDict)
       ∨ (∃ name, default_type = TClass name
                  ∧ subclass_of (type_of val) name = true)).
Proof.
  split; [|split; [|split; [|split]]].
  - intros e H. destruct default_type, val; try done.
    simpl in H. destruct (dateutil_parse today s) eqn:Hs; [done|].
    injection H as <-. split; [done|]. by exists s.
  - intros s d -> -> Hs. simpl. by rewrite Hs.
  - intros Hnot. destruct default_type; try reflexivity.
    destruct val; try reflexivity. by specialize (Hnot eq_refl s).
  - unfold isinstance, issubclass. intros H.
    repeat (apply orb_prop in H as [H|H]).
    + left. by apply bool_decide_eq_true in H.
    + right; left. by apply bool_decide_eq_true in H.
    + right; right; left. apply andb_prop in H as [H1 H2].
      by apply bool_decide_eq_true in H1, H2.
    + right; right; right; left. apply andb_prop in H as [H1 H2].
      by apply bool_decide_eq_true in H1, H2.
    + right; right; right; right. destruct default_type; try discriminate H.
      by exists name.
  - unfold isinstance, issubclass. intros [H|[H|[[H1 H2]|[[H1 H2]|(name & -> & H)]]]].
    + by rewrite (bool_decide_eq_true_2 _ H).
    + rewrite (bool_decide_eq_true_2 _ H). by rewrite orb_true_r.
    + rewrite (bool_decide_eq_true_2 _ H1), (bool_decide_eq_true_2 _ H2).
      by rewrite !orb_true_r.
    + rewrite (bool_decide_eq_true_2 _ H1), (bool_decide_eq_true_2 _ H2).
      by rewrite !orb_true_r.
    + rewrite H. by rewrite !orb_true_r.
Qed.

(** *** Source kinds *)

Lemma all_lookups_keys (required : pydict pytype) (defaultable : pydict value)
    (optional : pydict pytype) :
  (λ call : string * value * pytype, call.1.1)
    <$> all_lookups required defaultable optional
  = dict_keys required ++ dict_keys defaultable ++ dict_keys optional.
Proof.
  unfold all_lookups, dict_keys. rewrite !fmap_app, <- !list_fmap_compose.
  reflexivity.
Qed.

(** C6: a source that is a dict is looked up with [dict.get], a source
    that is a [MultiDict] with its typed [get], and these are the only
    two kinds: on a source of any other type every lookup raises the
    [AppException] naming the type, so does a call of [get_args] that
    performs a lookup, and the first lookup of the call is the only one
    performed. *)
Theorem get_anydict_value_source_kinds
    received key (default_value : value) (default_type : pytype)
    required defaultable optional constant :
  (∀ d, received = VDict d →
        get_anydict_value received key default_value default_type
        = parse_value (dict_get d key default_value) default_type)
  ∧ (∀ m, received = VMultiDict m →
          get_anydict_value received key default_value default_type
          = match multidict_get m key default_value default_type with
            | Some val => parse_value val default_type
            | None => Raise (ConversionError key)
            end)
  ∧ (isinstance received TDict = true
     ↔ (∃ d, received = VDict d) ∨ (∃ m, received = VMultiDict m))
  ∧ (isinstance received TDict = false →
     get_anydict_value received key default_value default_type
     = Raise (AppException (unsupported_message received)))
  ∧ (isinstance received TDict = false →
     dict_keys (or_empty required) ++ dict_keys (or_empty defaultable)
       ++ dict_keys (or_empty optional) ≠ [] →
     get_args received required defaultable optional constant
     = Raise (AppException (unsupported_message received)))
  ∧ (isinstance received TDict = false →
     performed received
       (all_lookups (or_empty required) (or_empty defaultable) (or_empty optional))
     = take 1 (dict_keys (or_empty required) ++ dict_keys (or_empty defaultable)
               ++ dict_keys (or_empty optional))).
Proof.
  assert (∀ k dv t, isinstance received TDict = false →
            get_anydict_value received k dv t
            = Raise (AppException (unsupported_message received))) as Hraise.
  { intros k dv t. by destruct received. }
  split; [by intros d ->|]. split; [by intros m ->|]. split.
  { destruct received; simpl; split; try done; try (intros [[? [=]]|[? [=]]]); eauto. }
  split; [apply Hraise|]. split.
  2: { intros Hkind. rewrite <- all_lookups_keys.
       destruct (all_lookups _ _ _) as [|[[k dv] t] rest]; [done|].
       simpl. unfold lookup_raises. by rewrite Hraise. }
  intros Hkind Hkeys. rewrite get_args_merge.
  2: { intros (-> & -> & -> & _). by apply Hkeys. }
  destruct (or_empty required) as [|[k t] rest].
  2: { rewrite required_group_cons. by rewrite Hraise. }
  destruct (or_empty defaultable) as [|[k dv] rest].
  2: { rewrite defaultable_group_cons. by rewrite Hraise. }
  destruct (or_empty optional) as [|[k t] rest]; [done|].
  rewrite optional_group_cons. by rewrite Hraise.
Qed.

End extractor_facts.

(** ** The extractor over the store *)

Lemma run_bind {A B} (m : state A) (k : A → state B) (w : world) :
  (m ≫= k) w
  = match m w with
    | (Return a, w') => k a w'
    | (Raise e, w') => (Raise e, w')
    end.
Proof. reflexivity. Qed.

Lemma for_each_st_cons {A} (body : A → state ()) (x : A) (rest : list A) w :
  for_each_st body (x :: rest) w
  = match body x w with
    | (Return _, w') => for_each_st body rest w'
    | (Raise e, w') => (Raise e, w')
    end.
Proof. reflexivity. Qed.

Section locals_facts.
Variables (h : gmap loc object) (missing ret_dict : loc).
Hypothesis distinct : missing ≠ ret_dict.

Lemma locals_lookup_ret ms d :
  locals h missing ret_dict ms d !! ret_dict = Some (OValue (VDict d)).
Proof. apply lookup_insert_eq. Qed.

Lemma locals_lookup_missing ms d :
  locals h missing ret_dict ms d !! missing = Some (OStrings ms).
Proof.
  unfold locals. rewrite lookup_insert_ne by done. apply lookup_insert_eq.
Qed.

Lemma locals_lookup_other ms d l :
  l ≠ missing → l ≠ ret_dict → locals h missing ret_dict ms d !! l = h !! l.
Proof. intros ??. unfold locals. by rewrite !lookup_insert_ne. Qed.

Lemma locals_set_ret ms d d' :
  <[ret_dict := OValue (VDict d')]> (locals h missing ret_dict ms d)
  = locals h missing ret_dict ms d'.
Proof. apply insert_insert_eq. Qed.

Lemma locals_set_missing ms ms' d :
  <[missing := OStrings ms']> (locals h missing ret_dict ms d)
  = locals h missing ret_dict ms' d.
Proof.
  unfold locals. rewrite insert_insert_ne by done. by rewrite insert_insert_eq.
Qed.

Lemma list_append_at_locals ms d lg x :
  list_append_at missing x (World (locals h missing ret_dict ms d) lg)
  = (Return (), World (locals h missing ret_dict (ms ++ [x]) d) lg).
Proof.
  unfold list_append_at. rewrite run_bind. unfold load_strings. simpl.
  rewrite locals_lookup_missing. unfold store. simpl.
  by rewrite locals_set_missing.
Qed.

Lemma dict_setitem_at_locals ms d lg key v :
  dict_setitem_at ret_dict key v (World (locals h missing ret_dict ms d) lg)
  = (Return (), World (locals h missing ret_dict ms (dict_setitem d key v)) lg).
Proof.
  unfold dict_setitem_at. rewrite run_bind. unfold load_dict. simpl.
  rewrite locals_lookup_ret. unfold store. simpl.
  by rewrite locals_set_ret.
Qed.
Lemma load_types_locals ms d lg l content :
  l ≠ missing → l ≠ ret_dict → h !! l = Some (OTypes content) →
  load_types l (World (locals h missing ret_dict ms d) lg)
  = (Return content, World (locals h missing ret_dict ms d) lg).
Proof.
  intros ?? Hl. unfold load_types. simpl.
  by rewrite locals_lookup_other, Hl.
Qed.

Lemma load_dict_locals ms d lg l content :
  l ≠ missing → l ≠ ret_dict → h !! l = Some (OValue (VDict content)) →
  load_dict l (World (locals h missing ret_dict ms d) lg)
  = (Return content, World (locals h missing ret_dict ms d) lg).
Proof.
  intros ?? Hl. unfold load_dict. simpl.
  by rewrite locals_lookup_other, Hl.
Qed.

Lemma load_strings_locals ms d lg :
  load_strings missing (World (locals h missing ret_dict ms d) lg)
  = (Return ms, World (locals h missing ret_dict ms d) lg).
Proof. unfold load_strings. simpl. by rewrite locals_lookup_missing. Qed.

Lemma dict_update_at_locals ms d lg l content :
  l ≠ missing → l ≠ ret_dict → h !! l = Some (OValue (VDict content)) →
  dict_update_at ret_dict l (World (locals h missing ret_dict ms d) lg)
  = (Return (), World (locals h missing ret_dict ms (dict_update d content)) lg).
Proof.
  intros ?? Hl. unfold dict_update_at.
  rewrite run_bind, (load_dict_locals _ _ _ l content) by done.
  rewrite run_bind. unfold load_dict. simpl. rewrite locals_lookup_ret.
  unfold store. simpl. by rewrite locals_set_ret.
Qed.

(** The locals are new objects: writing them leaves the store they were
    allocated in as it was. *)
Lemma locals_frame h0 ms d :
  h0 ⊆ h → h !! missing = None → h !! ret_dict = None →
  h0 ⊆ locals h missing ret_dict ms d.
Proof.
  intros Hsub Hm Hr. etrans; [exact Hsub|]. unfold locals.
  etrans; [apply (insert_subseteq _ missing (OStrings ms) Hm)|].
  apply insert_subseteq. by rewrite lookup_insert_ne.
Qed.
End locals_facts.

Section store_facts.
Variable subclass_of : pytype → string → bool.
Variable dateutil_parse : datetime → string → option datetime.
Variable today : datetime.
Variable multidict_get :
  list (string * list value) → string → value → pytype → option value.

Local Abbreviation isinstance := (isinstance subclass_of).
Local Abbreviation get_anydict_value :=
  (get_anydict_value subclass_of dateutil_parse today multidict_get).
Local Abbreviation get_anydict_value_st :=
  (get_anydict_value_st subclass_of dateutil_parse today multidict_get).
Local Abbreviation required_step :=
  (required_step subclass_of dateutil_parse today multidict_get).
Local Abbreviation defaultable_step :=
  (defaultable_step subclass_of dateutil_parse today multidict_get).
Local Abbreviation optional_step :=
  (optional_step subclass_of dateutil_parse today multidict_get).
Local Abbreviation required_body_st :=
  (required_body_st subclass_of dateutil_parse today multidict_get).
Local Abbreviation defaultable_body_st :=
  (defaultable_body_st subclass_of dateutil_parse today multidict_get).
Local Abbreviation optional_body_st :=
  (optional_body_st subclass_of dateutil_parse today multidict_get).
Local Abbreviation lookup_raises :=
  (lookup_raises subclass_of dateutil_parse today multidict_get).
Local Abbreviation performed :=
  (performed subclass_of dateutil_parse today multidict_get).
Local Abbreviation loop_outcome :=
  (loop_outcome subclass_of dateutil_parse today multidict_get).
Local Abbreviation get_args :=
  (get_args subclass_of dateutil_parse today multidict_get).
Local Abbreviation get_args_st :=
  (get_args_st subclass_of dateutil_parse today multidict_get).

Lemma performed_cons_Return rv key dv t calls val :
  get_anydict_value rv key dv t = Return val →
  performed rv ((key, dv, t) :: calls) = key :: performed rv calls.
Proof. intros H. simpl. unfold lookup_raises. by rewrite H. Qed.

Lemma performed_cons_Raise rv key dv t calls e :
  get_anydict_value rv key dv t = Raise e →
  performed rv ((key, dv, t) :: calls) = [key].
Proof. intros H. simpl. unfold lookup_raises. by rewrite H. Qed.

(** The three loops, run on a store that holds the source at [received]
    and the two locals at [missing] and [ret_dict]. *)
Section loops.
Variables (h : gmap loc object) (received missing ret_dict : loc) (rv : value).
Hypothesis distinct : missing ≠ ret_dict.
Hypothesis received_missing : received ≠ missing.
Hypothesis received_ret : received ≠ ret_dict.
Hypothesis received_value : h !! received = Some (OValue rv).

Local Abbreviation locals := (locals h missing ret_dict).
Local Abbreviation logged := (fmap (M := list) (λ key : string, (received, key))).

Lemma get_anydict_value_st_locals ms d lg key dv t :
  get_anydict_value_st received key dv t (World (locals ms d) lg)
  = (get_anydict_value rv key dv t,
     World (locals ms d) (lg ++ [(received, key)])).
Proof.
  unfold get_anydict_value_st. rewrite run_bind. unfold log_lookup. simpl.
  rewrite run_bind. unfold load_value. simpl.
  rewrite locals_lookup_other, received_value by done. reflexivity.
Qed.

Lemma required_body_st_locals ms d lg key t :
  required_body_st received missing ret_dict (key, t) (World (locals ms d) lg)
  = match get_anydict_value rv key VNone t with
    | Return val =>
        (Return (),
         World (locals (if is_none val then ms ++ [key] else ms)
                  (dict_setitem d key val))
           (lg ++ [(received, key)]))
    | Raise e => (Raise e, World (locals ms d) (lg ++ [(received, key)]))
    end.
Proof.
  unfold required_body_st. rewrite run_bind, get_anydict_value_st_locals.
  destruct (get_anydict_value rv key VNone t) as [val|e]; [|done].
  rewrite run_bind. destruct (is_none val).
  - rewrite list_append_at_locals by done. by rewrite dict_setitem_at_locals.
  - unfold mret, state_ret. by rewrite dict_setitem_at_locals.
Qed.

Lemma defaultable_body_st_locals ms d lg key dv :
  defaultable_body_st received ret_dict (key, dv) (World (locals ms d) lg)
  = match get_anydict_value rv key dv (type_of dv) with
    | Return val =>
        (Return (),
         World (locals ms (dict_setitem d key val)) (lg ++ [(received, key)]))
    | Raise e => (Raise e, World (locals ms d) (lg ++ [(received, key)]))
    end.
Proof.
  unfold defaultable_body_st. rewrite run_bind, get_anydict_value_st_locals.
  destruct (get_anydict_value rv key dv (type_of dv)) as [val|e]; [|done].
  by rewrite dict_setitem_at_locals.
Qed.

Lemma optional_body_st_locals ms d lg key t :
  optional_body_st received ret_dict (key, t) (World (locals ms d) lg)
  = match get_anydict_value rv key VNone t with
    | Return val =>
        (Return (),
         World (locals ms (if is_none val then d else dict_setitem d key val))
           (lg ++ [(received, key)]))
    | Raise e => (Raise e, World (locals ms d) (lg ++ [(received, key)]))
    end.
Proof.
  unfold optional_body_st. rewrite run_bind, get_anydict_value_st_locals.
  destruct (get_anydict_value rv key VNone t) as [val|e]; [|done].
  destruct (is_none val); [done|]. by rewrite dict_setitem_at_locals.
Qed.

Lemma required_loop_st items ms d lg :
  let calls := (λ item : string * pytype, (item.1, VNone, item.2)) <$> items in
  ∃ res ms' d',
    for_each_st (required_body_st received missing ret_dict) items
      (World (locals ms d) lg)
    = (res, World (locals ms' d') (lg ++ logged (performed rv calls)))
    ∧ loop_outcome rv res (for_each (required_step rv) items (ms, d)) (ms', d') calls.
Proof.
  revert ms d lg. induction items as [|[key t] rest IH]; intros ms d lg; cbv zeta.
  - exists (Return ()), ms, d. simpl. by rewrite app_nil_r.
  - rewrite for_each_st_cons, required_body_st_locals, fmap_cons. simpl fst; simpl snd.
    destruct (get_anydict_value rv key VNone t) as [val|e] eqn:Hval.
    + rewrite (performed_cons_Return _ _ _ _ _ _ Hval).
      destruct (IH (if is_none val then ms ++ [key] else ms)
                  (dict_setitem d key val) (lg ++ [(received, key)]))
        as (res & ms' & d' & -> & Hout).
      exists res, ms', d'. rewrite <- app_assoc. split; [done|].
      unfold loop_outcome in *.
      destruct res; destruct Hout as [Hpure Hcalls];
        (split; [simpl; rewrite Hval; exact Hpure|]);
        intros more; rewrite <- !app_comm_cons;
        rewrite !(performed_cons_Return _ _ _ _ _ _ Hval); by rewrite Hcalls.
    + rewrite (performed_cons_Raise _ _ _ _ _ _ Hval).
      exists (Raise e), ms, d. split; [done|].
      split; [simpl; by rewrite Hval|].
      intros more. rewrite <- app_comm_cons.
      by rewrite !(performed_cons_Raise _ _ _ _ _ _ Hval).
Qed.

Lemma defaultable_loop_st items ms d lg :
  let calls :=
    (λ item : string * value, (item.1, item.2, type_of item.2)) <$> items in
  ∃ res d',
    for_each_st (defaultable_body_st received ret_dict) items
      (World (locals ms d) lg)
    = (res, World (locals ms d') (lg ++ logged (performed rv calls)))
    ∧ loop_outcome rv res (for_each (defaultable_step rv) items d) d' calls.
Proof.
  revert d lg. induction items as [|[key dv] rest IH]; intros d lg; cbv zeta.
  - exists (Return ()), d. simpl. by rewrite app_nil_r.
  - rewrite for_each_st_cons, defaultable_body_st_locals, fmap_cons. simpl fst; simpl snd.
    destruct (get_anydict_value rv key dv (type_of dv)) as [val|e] eqn:Hval.
    + rewrite (performed_cons_Return _ _ _ _ _ _ Hval).
      destruct (IH (dict_setitem d key val) (lg ++ [(received, key)]))
        as (res & d' & -> & Hout).
      exists res, d'. rewrite <- app_assoc. split; [done|].
      unfold loop_outcome in *.
      destruct res; destruct Hout as [Hpure Hcalls];
        (split; [simpl; rewrite Hval; exact Hpure|]);
        intros more; rewrite <- !app_comm_cons;
        rewrite !(performed_cons_Return _ _ _ _ _ _ Hval); by rewrite Hcalls.
    + rewrite (performed_cons_Raise _ _ _ _ _ _ Hval).
      exists (Raise e), d. split; [done|].
      split; [simpl; by rewrite Hval|].
      intros more. rewrite <- app_comm_cons.
      by rewrite !(performed_cons_Raise _ _ _ _ _ _ Hval).
Qed.

Lemma optional_loop_st items ms d lg :
  let calls := (λ item : string * pytype, (item.1, VNone, item.2)) <$> items in
  ∃ res d',
    for_each_st (optional_body_st received ret_dict) items
      (World (locals ms d) lg)
    = (res, World (locals ms d') (lg ++ logged (performed rv calls)))
    ∧ loop_outcome rv res (for_each (optional_step rv) items d) d' calls.
Proof.
  revert d lg. induction items as [|[key t] rest IH]; intros d lg; cbv zeta.
  - exists (Return ()), d. simpl. by rewrite app_nil_r.
  - rewrite for_each_st_cons, optional_body_st_locals, fmap_cons. simpl fst; simpl snd.
    destruct (get_anydict_value rv key VNone t) as [val|e] eqn:Hval.
    + rewrite (performed_cons_Return _ _ _ _ _ _ Hval).
      destruct (IH (if is_none val then d else dict_setitem d key val)
                  (lg ++ [(received, key)]))
        as (res & d' & -> & Hout).
      exists res, d'. rewrite <- app_assoc. split; [done|].
      unfold loop_outcome in *.
      destruct res; destruct Hout as [Hpure Hcalls];
        (split; [simpl; rewrite Hval; exact Hpure|]);
        intros more; rewrite <- !app_comm_cons;
        rewrite !(performed_cons_Return _ _ _ _ _ _ Hval); by rewrite Hcalls.
    + rewrite (performed_cons_Raise _ _ _ _ _ _ Hval).
      exists (Raise e), d. split; [done|].
      split; [simpl; by rewrite Hval|].
      intros more. rewrite <- app_comm_cons.
      by rewrite !(performed_cons_Raise _ _ _ _ _ _ Hval).
Qed.
End loops.

(** *** The prologue: empty groups for the omitted ones *)

Lemma types_at_weaken h h' arg content :
  h ⊆ h' → types_at h arg content → types_at h' arg content.
Proof.
  intros Hsub Harg. destruct Harg; constructor. by eapply lookup_weaken.
Qed.

Lemma dict_at_weaken h h' arg content :
  h ⊆ h' → dict_at h arg content → dict_at h' arg content.
Proof.
  intros Hsub Harg. destruct Harg; constructor. by eapply lookup_weaken.
Qed.

Lemma new_spec o w :
  let l := fresh (dom (heap w)) in
  new o w = (Return l, World (<[l := o]> (heap w)) (lookups w))
  ∧ heap w !! l = None
  ∧ heap w ⊆ <[l := o]> (heap w).
Proof.
  intros l. assert (heap w !! l = None) as Hfresh.
  { apply not_elem_of_dom, is_fresh. }
  split; [done|]. split; [done|]. by apply insert_subseteq.
Qed.

Lemma types_or_empty_spec arg content w :
  types_at (heap w) arg content →
  ∃ l h', types_or_empty arg w = (Return l, World h' (lookups w))
          ∧ heap w ⊆ h'
          ∧ h' !! l = Some (OTypes (or_empty content)).
Proof.
  intros Harg. destruct w as [h lg]. simpl in *.
  destruct Harg as [l d Hl|]; simpl.
  - rewrite run_bind. unfold load_types. simpl. rewrite Hl.
    destruct d as [|item rest].
    + destruct (new_spec (OTypes []) (World h lg)) as (-> & _ & Hsub).
      eexists _, _. split; [done|]. split; [done|]. apply lookup_insert_eq.
    + by exists l, h.
  - destruct (new_spec (OTypes []) (World h lg)) as (-> & _ & Hsub).
    eexists _, _. split; [done|]. split; [done|]. apply lookup_insert_eq.
Qed.

Lemma dict_or_empty_spec arg content w :
  dict_at (heap w) arg content →
  ∃ l h', dict_or_empty arg w = (Return l, World h' (lookups w))
          ∧ heap w ⊆ h'
          ∧ h' !! l = Some (OValue (VDict (or_empty content))).
Proof.
  intros Harg. destruct w as [h lg]. simpl in *.
  destruct Harg as [l d Hl|]; simpl.
  - rewrite run_bind. unfold load_dict. simpl. rewrite Hl.
    destruct d as [|item rest].
    + destruct (new_spec (OValue (VDict [])) (World h lg)) as (-> & _ & Hsub).
      eexists _, _. split; [done|]. split; [done|]. apply lookup_insert_eq.
    + by exists l, h.
  - destruct (new_spec (OValue (VDict [])) (World h lg)) as (-> & _ & Hsub).
    eexists _, _. split; [done|]. split; [done|]. apply lookup_insert_eq.
Qed.

(** *** The whole call *)

Lemma get_args_st_body received required defaultable optional constant :
  ¬ (required = None ∧ defaultable = None ∧ optional = None ∧ constant = None) →
  get_args_st received required defaultable optional constant
  = (required ← types_or_empty required;
     defaultable ← dict_or_empty defaultable;
     optional ← types_or_empty optional;
     constant ← dict_or_empty constant;
     missing ← new (OStrings []);
     ret_dict ← new (OValue (VDict []));
     items ← load_types required;
     _ ← for_each_st (required_body_st received missing ret_dict) items;
     items ← load_dict defaultable;
     _ ← for_each_st (defaultable_body_st received ret_dict) items;
     items ← load_types optional;
     _ ← for_each_st (optional_body_st received ret_dict) items;
     _ ← dict_update_at ret_dict constant;
     missing ← load_strings missing;
     if (0 <? length missing)%nat
     then raise (AppException (missing_message missing))
     else mret ret_dict).
Proof.
  intros Hsome. unfold get_args_st.
  destruct required, defaultable, optional, constant; try reflexivity.
  exfalso. by apply Hsome.
Qed.

(** A call over the store leaves every object of the store as it was,
    logs exactly the lookups performed, and ends as the functional model
    does on the contents of its arguments: with the same exception, or
    with a new dict that holds the returned mapping. *)
Lemma get_args_st_spec w received rv
    required reqd defaultable dfld optional optd constant cstd :
  heap w !! received = Some (OValue rv) →
  types_at (heap w) required reqd →
  dict_at (heap w) defaultable dfld →
  types_at (heap w) optional optd →
  dict_at (heap w) constant cstd →
  ∃ res h',
    get_args_st received required defaultable optional constant w
    = (res,
       World h'
         (lookups w
          ++ ((λ key, (received, key))
              <$> performed rv
                    (all_lookups (or_empty reqd) (or_empty dfld) (or_empty optd)))))
    ∧ heap w ⊆ h'
    ∧ match res with
      | Return l =>
          heap w !! l = None
          ∧ ∃ d, h' !! l = Some (OValue (VDict d))
                 ∧ get_args rv reqd dfld optd cstd = Return d
      | Raise e => get_args rv reqd dfld optd cstd = Raise e
      end.
Proof.
  intros Hrecv Hreq Hdfl Hopt Hcst. destruct w as [h lg]. simpl in *.
  destruct (decide (required = None ∧ defaultable = None ∧ optional = None
                    ∧ constant = None)) as [(-> & -> & -> & ->)|Hsome].
  { inversion Hreq; inversion Hdfl; inversion Hopt; inversion Hcst; subst.
    exists (Raise (AppException no_groups_message)), h. simpl.
    by rewrite app_nil_r. }
  assert (¬ (reqd = None ∧ dfld = None ∧ optd = None ∧ cstd = None)) as Hsome'.
  { intros (-> & -> & -> & ->). apply Hsome.
    inversion Hreq; inversion Hdfl; inversion Hopt; inversion Hcst; done. }
  rewrite get_args_st_body, get_args_body by done.
  (* the prologue *)
  destruct (types_or_empty_spec required reqd (World h lg) Hreq)
    as (req' & h1 & Hrun & Hsub1 & Hreq'); simpl in Hrun, Hsub1.
  rewrite run_bind, Hrun. clear Hrun.
  destruct (dict_or_empty_spec defaultable dfld (World h1 lg)
              (dict_at_weaken _ _ _ _ Hsub1 Hdfl))
    as (dfl' & h2 & Hrun & Hsub2 & Hdfl'); simpl in Hrun, Hsub2.
  rewrite run_bind, Hrun. clear Hrun.
  assert (h ⊆ h2) as Hsub12 by (by etrans).
  destruct (types_or_empty_spec optional optd (World h2 lg)
              (types_at_weaken _ _ _ _ Hsub12 Hopt))
    as (opt' & h3 & Hrun & Hsub3 & Hopt'); simpl in Hrun, Hsub3.
  rewrite run_bind, Hrun. clear Hrun.
  assert (h ⊆ h3) as Hsub13 by (by etrans).
  destruct (dict_or_empty_spec constant cstd (World h3 lg)
              (dict_at_weaken _ _ _ _ Hsub13 Hcst))
    as (cst' & h4 & Hrun & Hsub4 & Hcst'); simpl in Hrun, Hsub4.
  rewrite run_bind, Hrun. clear Hrun.
  assert (h ⊆ h4) as Hsub by (by etrans).
  pose proof (lookup_weaken _ _ _ _ Hrecv Hsub) as Hrecv4.
  assert (h4 !! req' = Some (OTypes (or_empty reqd))) as Hreq4.
  { eapply lookup_weaken; [exact Hreq'|]. etrans; [exact Hsub2|]. by etrans. }
  assert (h4 !! dfl' = Some (OValue (VDict (or_empty dfld)))) as Hdfl4.
  { eapply lookup_weaken; [exact Hdfl'|]. by etrans. }
  pose proof (lookup_weaken _ _ _ _ Hopt' Hsub4) as Hopt4.
  clear Hreq' Hdfl' Hopt' Hsub1 Hsub2 Hsub3 Hsub4 Hsub12 Hsub13 h1 h2 h3.
  (* the two locals *)
  destruct (new_spec (OStrings []) (World h4 lg)) as (Hrun & Hms & _);
    simpl in Hrun, Hms.
  rewrite run_bind, Hrun. clear Hrun.
  set (ms := fresh (dom h4)) in *.
  destruct (new_spec (OValue (VDict [])) (World (<[ms := OStrings []]> h4) lg))
    as (Hrun & Hrd & _); simpl in Hrun, Hrd.
  rewrite run_bind, Hrun. clear Hrun.
  set (rd := fresh (dom (<[ms := OStrings []]> h4))) in *.
  assert (ms ≠ rd) as Hdistinct.
  { intros Heq. rewrite <- Heq, lookup_insert_eq in Hrd. discriminate Hrd. }
  rewrite lookup_insert_ne in Hrd by done.
  assert (∀ l o, h4 !! l = Some o → l ≠ ms ∧ l ≠ rd) as Hold.
  { intros l o Hl. split; intros ->; congruence. }
  destruct (Hold _ _ Hrecv4) as [? ?]. destruct (Hold _ _ Hreq4) as [? ?].
  destruct (Hold _ _ Hdfl4) as [? ?]. destruct (Hold _ _ Hopt4) as [? ?].
  destruct (Hold _ _ Hcst') as [? ?].
  change (<[rd := OValue (VDict [])]> (<[ms := OStrings []]> h4))
    with (locals h4 ms rd [] []).
  assert (∀ ms' d', h ⊆ locals h4 ms rd ms' d') as Hframe.
  { intros ms' d'. by apply locals_frame. }
  unfold all_lookups.
  (* the loop over the required group *)
  rewrite run_bind, (load_types_locals h4 ms rd [] [] lg req' _) by done.
  rewrite run_bind.
  destruct (required_loop_st h4 received ms rd rv Hdistinct ltac:(done)
              ltac:(done) Hrecv4 (or_empty reqd) [] [] lg)
    as (res1 & ms1 & d1 & -> & Hout1).
  destruct res1 as [[]|e]; destruct Hout1 as [-> Hcalls1]; rewrite Hcalls1.
  2: { by exists (Raise e), (locals h4 ms rd ms1 d1). }
  simpl.
  (* the loop over the defaultable group *)
  rewrite run_bind, (load_dict_locals h4 ms rd ms1 d1 _ dfl' _) by done.
  rewrite run_bind.
  destruct (defaultable_loop_st h4 received ms rd rv ltac:(done)
              ltac:(done) Hrecv4 (or_empty dfld) ms1 d1
              (lg ++ ((λ key, (received, key))
                      <$> performed rv
                            ((λ item : string * pytype, (item.1, VNone, item.2))
                             <$> or_empty reqd))))
    as (res2 & d2 & -> & Hout2).
  rewrite <- app_assoc, <- fmap_app.
  destruct res2 as [[]|e]; destruct Hout2 as [-> Hcalls2]; rewrite Hcalls2.
  2: { by exists (Raise e), (locals h4 ms rd ms1 d2). }
  simpl.
  (* the loop over the optional group *)
  rewrite run_bind, (load_types_locals h4 ms rd ms1 d2 _ opt' _) by done.
  rewrite run_bind.
  destruct (optional_loop_st h4 received ms rd rv ltac:(done)
              ltac:(done) Hrecv4 (or_empty optd) ms1 d2
              (lg ++ ((λ key, (received, key))
                      <$> (performed rv
                             ((λ item : string * pytype, (item.1, VNone, item.2))
                              <$> or_empty reqd)
                           ++ performed rv
                                ((λ item : string * value,
                                    (item.1, item.2, type_of item.2))
                                 <$> or_empty dfld)))))
    as (res3 & d3 & -> & Hout3).
  rewrite <- app_assoc, <- fmap_app, <- app_assoc.
  destruct res3 as [[]|e]; destruct Hout3 as [-> _].
  2: { by exists (Raise e), (locals h4 ms rd ms1 d3). }
  simpl.
  (* the constants and the result *)
  rewrite run_bind, (dict_update_at_locals h4 ms rd ms1 d3 _ cst' _) by done.
  rewrite run_bind, load_strings_locals by done.
  destruct (0 <? length ms1)%nat.
  - by exists (Raise (AppException (missing_message ms1))),
      (locals h4 ms rd ms1 (dict_update d3 (or_empty cstd))).
  - exists (Return rd), (locals h4 ms rd ms1 (dict_update d3 (or_empty cstd))).
    split; [reflexivity|]. split; [done|]. split.
    + by eapply lookup_weaken_None.
    + eexists. split; [by apply locals_lookup_ret|done].
Qed.

(** *** Constants only *)

Lemma get_args_constant received (cst : pydict value) :
  dict_wf cst → get_args received None None None (Some cst) = Return cst.
Proof.
  intros Hwf. destruct cst as [|kv rest]; [reflexivity|].
  unfold get_args. simpl. f_equal.
  apply (dict_update_nil_l (kv :: rest) Hwf).
Qed.

(** C10: a call with the constant group alone returns a dict equal to
    that group, whatever the source is, and looks nothing up in the
    source: over the store the log of lookups is as it was, the objects of
    the store are as they were, and the result is a new dict that holds
    the constants. *)
Theorem get_args_constant_only w received rv constant (cst : pydict value) :
  heap w !! received = Some (OValue rv) →
  heap w !! constant = Some (OValue (VDict cst)) →
  dict_wf cst →
  get_args rv None None None (Some cst) = Return cst
  ∧ ∃ l h',
      get_args_st received None None None (Some constant) w
      = (Return l, World h' (lookups w))
      ∧ heap w ⊆ h'
      ∧ heap w !! l = None
      ∧ h' !! l = Some (OValue (VDict cst)).
Proof.
  intros Hrecv Hcst Hwf.
  pose proof (get_args_constant rv cst Hwf) as Hpure. split; [exact Hpure|].
  destruct (get_args_st_spec w received rv None None None None None None
              (Some constant) (Some cst) Hrecv)
    as (res & h' & Hrun & Hsub & Hres); try by constructor.
  simpl in Hrun. rewrite app_nil_r in Hrun.
  destruct res as [l|e]; [|congruence].
  destruct Hres as (Hnew & d & Hl & Hd).
  exists l, h'. repeat split; try done. congruence.
Qed.

End store_facts.

(** *** Purity *)

Lemma for_each_ext {A S} (body1 body2 : S → A → result S) (xs : list A) (s : S) :
  (∀ s x, x ∈ xs → body1 s x = body2 s x) →
  for_each body1 xs s = for_each body2 xs s.
Proof.
  revert s. induction xs as [|x rest IH]; intros s Hsame; simpl; [done|].
  rewrite (Hsame s x) by apply list_elem_of_here.
  destruct (body2 s x) as [s'|e]; simpl; [|done].
  apply IH. intros s0 x0 Hin. apply Hsame. by apply list_elem_of_further.
Qed.

Section purity.
Variable subclass_of : pytype → string → bool.
Variable dateutil_parse : datetime → string → option datetime.
Variable multidict_get :
  list (string * list value) → string → value → pytype → option value.

Local Abbreviation parse_value today := (parse_value subclass_of dateutil_parse today).
Local Abbreviation get_anydict_value today :=
  (get_anydict_value subclass_of dateutil_parse today multidict_get).
Local Abbreviation required_group today :=
  (required_group subclass_of dateutil_parse today multidict_get).
Local Abbreviation defaultable_group today :=
  (defaultable_group subclass_of dateutil_parse today multidict_get).
Local Abbreviation optional_group today :=
  (optional_group subclass_of dateutil_parse today multidict_get).
Local Abbreviation get_args today :=
  (get_args subclass_of dateutil_parse today multidict_get).
Local Abbreviation get_args_st today :=
  (get_args_st subclass_of dateutil_parse today multidict_get).

Implicit Types (today : datetime) (val : value) (t : pytype).

(** The date of the call reaches the result through the date parser
    alone, and the parser is called for the date/time type alone. *)
Lemma parse_value_today today1 today2 val t :
  (t = TDateTime → ∀ s, dateutil_parse today1 s = dateutil_parse today2 s) →
  parse_value today1 val t = parse_value today2 val t.
Proof.
  intros Hsame. destruct t; try reflexivity. destruct val; try reflexivity.
  simpl. by rewrite (Hsame eq_refl s).
Qed.

Lemma get_anydict_value_today today1 today2 (received : value) key (dv : value) t :
  (t = TDateTime → ∀ s, dateutil_parse today1 s = dateutil_parse today2 s) →
  get_anydict_value today1 received key dv t
  = get_anydict_value today2 received key dv t.
Proof.
  intros Hsame. destruct received; try reflexivity; simpl.
  - by apply parse_value_today.
  - destruct (multidict_get d key dv t); [|done]. by apply parse_value_today.
Qed.

Lemma get_args_today today1 today2 (received : value)
    required defaultable optional constant :
  (∀ s, dateutil_parse today1 s = dateutil_parse today2 s)
  ∨ TDateTime ∉ (all_lookups (or_empty required) (or_empty defaultable)
                   (or_empty optional)).*2 →
  get_args today1 received required defaultable optional constant
  = get_args today2 received required defaultable optional constant.
Proof.
  intros Hsame.
  assert (∀ call, call ∈ all_lookups (or_empty required) (or_empty defaultable)
                           (or_empty optional) →
            call.2 = TDateTime →
            ∀ s, dateutil_parse today1 s = dateutil_parse today2 s) as Hcall.
  { intros call Hin Ht. destruct Hsame as [Hsame|Hnone]; [done|].
    exfalso. apply Hnone. rewrite <- Ht. apply list_elem_of_fmap. by exists call. }
  clear Hsame. unfold all_lookups in Hcall.
  destruct (decide (required = None ∧ defaultable = None ∧ optional = None
                    ∧ constant = None)) as [(-> & -> & -> & ->)|Hsome]; [done|].
  rewrite !get_args_body by done.
  rewrite (for_each_ext
             (required_step subclass_of dateutil_parse today1 multidict_get received)
             (required_step subclass_of dateutil_parse today2 multidict_get received)).
  2: { intros [ms d] [key t] Hin. unfold required_step.
       rewrite (get_anydict_value_today today1 today2); [done|].
       apply (Hcall (key, VNone, t)). rewrite !elem_of_app. left.
       apply list_elem_of_fmap. by exists (key, t). }
  destruct (for_each _ (or_empty required) _) as [[ms R]|e]; simpl; [|done].
  rewrite (for_each_ext
             (defaultable_step subclass_of dateutil_parse today1 multidict_get
                received)
             (defaultable_step subclass_of dateutil_parse today2 multidict_get
                received)).
  2: { intros d [key dv] Hin. unfold defaultable_step.
       rewrite (get_anydict_value_today today1 today2); [done|].
       apply (Hcall (key, dv, type_of dv)). rewrite !elem_of_app. right; left.
       apply list_elem_of_fmap. by exists (key, dv). }
  destruct (for_each _ (or_empty defaultable) _) as [D|e]; simpl; [|done].
  rewrite (for_each_ext
             (optional_step subclass_of dateutil_parse today1 multidict_get received)
             (optional_step subclass_of dateutil_parse today2 multidict_get received));
    [done|].
  intros d [key t] Hin. unfold optional_step.
  rewrite (get_anydict_value_today today1 today2); [done|].
  apply (Hcall (key, VNone, t)). rewrite !elem_of_app. right; right.
  apply list_elem_of_fmap. by exists (key, t).
Qed.

End purity.

(** ** Configuration from the environment *)

Lemma add_config_defined environ config config_key env_variable missing_list
    default_value val :
  environ !! env_variable = Some val →
  _add_config_from_env environ config config_key env_variable missing_list
    default_value
  = (true, <[config_key := VStr val]> config, missing_list).
Proof. intros H. unfold _add_config_from_env. by rewrite H. Qed.

Lemma add_config_default environ config config_key env_variable missing_list
    default_value :
  environ !! env_variable = None → truthy default_value = true →
  _add_config_from_env environ config config_key env_variable missing_list
    default_value
  = (true, <[config_key := default_value]> config, missing_list).
Proof. intros H Ht. unfold _add_config_from_env. by rewrite H, Ht. Qed.

Lemma add_config_missing environ config config_key env_variable missing_list
    default_value :
  environ !! env_variable = None → truthy default_value = false →
  _add_config_from_env environ config config_key env_variable missing_list
    default_value
  = (false, config, (λ xs, xs ++ [env_variable]) <$> missing_list).
Proof.
  intros H Ht. unfold _add_config_from_env. rewrite H, Ht.
  by destruct missing_list.
Qed.

(** C8, at the input where the code departs from it: the variable is
    undefined and the default supplied is [False]; the default is not
    stored, the variable is recorded as missing and the call reports
    failure. *)
Theorem add_config_falsy_default :
  _add_config_from_env ∅ ∅ "DEBUG" "TIKKI_DEBUG" (Some []) (VBool false)
  = (false, ∅, Some ["TIKKI_DEBUG"]).
Proof. reflexivity. Qed.

(** ** Binary64 rounding *)

Lemma round_half_even_bounds p q :
  0 < q → 2 * p - q ≤ 2 * (q * round_half_even p q) ≤ 2 * p + q.
Proof.
  intros Hq. unfold round_half_even.
  pose proof (Z.div_mod p q ltac:(lia)) as Hdm.
  pose proof (Z.mod_pos_bound p q Hq) as Hr.
  destruct (2 * (p `mod` q) <? q) eqn:H1;
    [apply Z.ltb_lt in H1|apply Z.ltb_ge in H1]; [lia|].
  destruct (q <? 2 * (p `mod` q)) eqn:H2;
    [apply Z.ltb_lt in H2|apply Z.ltb_ge in H2]; [lia|].
  destruct (Z.even (p `div` q)); lia.
Qed.

Lemma round_half_even_ge p q n : 0 < q → n * q ≤ p → n ≤ round_half_even p q.
Proof.
  intros Hq Hn.
  assert (n ≤ p `div` q) by (apply Z.div_le_lower_bound; lia).
  unfold round_half_even.
  destruct (_ <? _); [lia|]. destruct (_ <? _); [lia|]. destruct (Z.even _); lia.
Qed.

Lemma round_half_even_le p q n : 0 < q → p ≤ n * q → round_half_even p q ≤ n.
Proof.
  intros Hq Hn.
  pose proof (Z.div_mod p q ltac:(lia)) as Hdm.
  pose proof (Z.mod_pos_bound p q Hq) as Hr.
  assert (p `div` q ≤ n) by (apply Z.div_le_upper_bound; lia).
  assert (0 < p `mod` q → p `div` q + 1 ≤ n) by nia.
  unfold round_half_even.
  destruct (2 * (p `mod` q) <? q) eqn:H1;
    [apply Z.ltb_lt in H1|apply Z.ltb_ge in H1]; [lia|].
  destruct (_ <? _); [lia|]. destruct (Z.even _); lia.
Qed.

Lemma spacing_pos p q : 0 < spacing p q.
Proof. unfold spacing. apply Z.pow_pos_nonneg; lia. Qed.

Lemma spacing_divide p q b :
  0 ≤ p → 0 < q → p < q * 2 ^ (b + 53) → 0 ≤ b → (spacing p q | 2 ^ b).
Proof.
  intros Hp Hq Hlt Hb. unfold spacing.
  assert (p `div` q < 2 ^ (b + 53)) as Hdiv by (apply Z.div_lt_upper_bound; lia).
  assert (0 ≤ p `div` q) as Hpos by (apply Z.div_pos; lia).
  assert (Z.log2 (p `div` q) < b + 53) as Hlog.
  { destruct (decide (p `div` q = 0)) as [->|Hne]; [simpl; lia|].
    apply Z.log2_lt_pow2; lia. }
  exists (2 ^ (b - Z.max 0 (Z.log2 (p `div` q) - 52))).
  rewrite <- Z.pow_add_r by lia. f_equal. lia.
Qed.

Lemma round_float_nonneg p q :
  0 ≤ p → 0 < q →
  round_float p q = spacing p q * round_half_even p (q * spacing p q).
Proof.
  intros Hp Hq. unfold round_float. rewrite Z.abs_eq by done.
  destruct (decide (p = 0)) as [->|Hne].
  - pose proof (spacing_pos 0 q).
    assert (round_half_even 0 (q * spacing 0 q) = 0) as ->; [|lia].
    apply Z.le_antisymm; [apply round_half_even_le|apply round_half_even_ge]; nia.
  - rewrite Z.sgn_pos by lia. lia.
Qed.

Lemma round_float_le p q b B :
  0 ≤ p → 0 < q → p < q * 2 ^ (b + 53) → 0 ≤ b → (2 ^ b | B) → p ≤ B * q →
  round_float p q ≤ B.
Proof.
  intros Hp Hq Hlt Hb Hdiv Hle. rewrite round_float_nonneg by done.
  pose proof (spacing_pos p q) as Hu.
  destruct (Z.divide_trans _ _ _ (spacing_divide p q b Hp Hq Hlt Hb) Hdiv)
    as [n ->].
  assert (round_half_even p (q * spacing p q) ≤ n);
    [apply round_half_even_le; nia|nia].
Qed.

Lemma round_float_ge p q b B :
  0 ≤ p → 0 < q → p < q * 2 ^ (b + 53) → 0 ≤ b → (2 ^ b | B) → B * q ≤ p →
  B ≤ round_float p q.
Proof.
  intros Hp Hq Hlt Hb Hdiv Hle. rewrite round_float_nonneg by done.
  pose proof (spacing_pos p q) as Hu.
  destruct (Z.divide_trans _ _ _ (spacing_divide p q b Hp Hq Hlt Hb) Hdiv)
    as [n ->].
  assert (n ≤ round_half_even p (q * spacing p q));
    [apply round_half_even_ge; nia|nia].
Qed.

Lemma round_float_near p q b :
  0 ≤ p → 0 < q → p < q * 2 ^ (b + 53) → 0 ≤ b →
  2 * (q * round_float p q) ≤ 2 * p + q * 2 ^ b.
Proof.
  intros Hp Hq Hlt Hb. rewrite round_float_nonneg by done.
  pose proof (spacing_pos p q) as Hu.
  pose proof (round_half_even_bounds p (q * spacing p q) ltac:(nia)) as [_ Hnear].
  assert (spacing p q ≤ 2 ^ b).
  { apply Z.divide_pos_le; [apply Z.pow_pos_nonneg; lia|by apply spacing_divide]. }
  nia.
Qed.

Lemma pow2_split (a b c : Z) : 0 ≤ a → 0 ≤ b → c = a + b → 2 ^ c = 2 ^ a * 2 ^ b.
Proof. intros ? ? ->. by apply Z.pow_add_r. Qed.

Lemma float_of_int_exact n : 0 ≤ n < 2 ^ 53 → float_of_int n = n * float_unit.
Proof.
  intros [Hn Hlt]. unfold float_of_int, float_unit.
  assert (0 < 2 ^ 1074) as HU by (by apply Z.pow_pos_nonneg).
  assert (n * 2 ^ 1074 < 1 * 2 ^ (1074 + 53)) as Hrange.
  { rewrite (pow2_split 1074 53 (1074 + 53)) by done. nia. }
  assert ((2 ^ 1074 | n * 2 ^ 1074)) as Hdiv by (by exists n).
  apply Z.le_antisymm.
  - apply (round_float_le _ _ 1074); try done; lia.
  - apply (round_float_ge _ _ 1074); try done; lia.
Qed.

Lemma int_truediv_range us :
  0 ≤ us < 1000000 →
  0 ≤ int_truediv us 1000000 ≤ float_unit - 2 ^ 1054 - 2 ^ 1044.
Proof.
  intros [Hus Hlt]. unfold int_truediv, float_unit.
  assert (0 < 2 ^ 1044) as Ha by (by apply Z.pow_pos_nonneg).
  assert (2 ^ 1054 = 2 ^ 1044 * 1024) as H54 by (by apply (pow2_split 1044 10)).
  assert (2 ^ 1074 = 2 ^ 1044 * 1073741824) as H74
    by (by apply (pow2_split 1044 30)).
  assert (2 ^ 1044 = 2 ^ 1021 * 2 ^ 23) as H44 by (by apply pow2_split).
  assert (2 ^ (1021 + 53) = 2 ^ 1074) as Hb by done.
  assert (us * 2 ^ 1074 < 1000000 * 2 ^ (1021 + 53)) as Hrange
    by (rewrite Hb; nia).
  split.
  - apply (round_float_ge _ _ 1021); [nia|lia|done|lia|by exists 0|lia].
  - apply (round_float_le _ _ 1021); [nia|lia|done|lia| |].
    + rewrite H54, H74, H44.
      exists (2 ^ 23 * 1073741824 - 2 ^ 23 * 1024 - 2 ^ 23). lia.
    + rewrite H54, H74. nia.
Qed.

Lemma int_of_timestamp secs us :
  0 ≤ secs < 2 ^ 34 → 0 ≤ us < 1000000 →
  int_of_float (float_add (float_of_int secs) (int_truediv us 1000000)) = secs.
Proof.
  intros [Hs Hlt] Hus.
  rewrite float_of_int_exact by lia.
  pose proof (int_truediv_range us Hus) as [Hf0 Hf1].
  set (f := int_truediv us 1000000) in *. clearbody f.
  unfold float_add, int_of_float, float_unit in *.
  assert (0 < 2 ^ 1044) as Ha by (by apply Z.pow_pos_nonneg).
  assert (2 ^ 1054 = 2 ^ 1044 * 1024) as H54 by (by apply (pow2_split 1044 10)).
  assert (2 ^ 1055 = 2 ^ 1044 * 2048) as H55 by (by apply (pow2_split 1044 11)).
  assert (2 ^ 1074 = 2 ^ 1044 * 1073741824) as H74
    by (by apply (pow2_split 1044 30)).
  assert (2 ^ (1055 + 53) = 2 ^ 1074 * 2 ^ 34) as Hb
    by (by apply pow2_split).
  remember (secs * 2 ^ 1074 + f) as s eqn:Hsum.
  assert (0 ≤ s) by nia.
  assert (s < 1 * 2 ^ (1055 + 53)) as Hrange by (rewrite Hb; nia).
  assert (secs * 2 ^ 1074 ≤ round_float s 1) as Hlow.
  { apply (round_float_ge _ _ 1055); [done|done|done|done| |lia].
    rewrite H74, H55. exists (secs * 524288). lia. }
  pose proof (round_float_near s 1 1055 ltac:(done) ltac:(done) Hrange ltac:(done))
    as Hnear.
  assert (0 ≤ secs * 2 ^ 1074) by nia.
  rewrite Z.quot_div_nonneg by lia.
  symmetry. apply (Z.div_unique _ _ _ (round_float s 1 - secs * 2 ^ 1074)); [|lia].
  left. lia.
Qed.

Lemma int_of_timestamp_near secs us :
  0 ≤ secs < 2 ^ 52 → 0 ≤ us < 1000000 →
  secs ≤ int_of_float (float_add (float_of_int secs) (int_truediv us 1000000))
       ≤ secs + 1.
Proof.
  intros [Hs Hlt] Hus.
  rewrite float_of_int_exact by lia.
  pose proof (int_truediv_range us Hus) as [Hf0 Hf1].
  set (f := int_truediv us 1000000) in *. clearbody f.
  unfold float_add, int_of_float, float_unit in *.
  assert (0 < 2 ^ 1044) as Ha by (by apply Z.pow_pos_nonneg).
  assert (0 < 2 ^ 1054) as Ha' by (by apply Z.pow_pos_nonneg).
  assert (0 < 2 ^ 1074) as HU by (by apply Z.pow_pos_nonneg).
  assert (2 ^ (1074 + 53) = 2 ^ 1074 * 2 ^ 53) as Hb
    by (by apply pow2_split).
  remember (secs * 2 ^ 1074 + f) as s eqn:Hsum.
  assert (0 ≤ s) by nia.
  assert (s < 1 * 2 ^ (1074 + 53)) as Hrange by (rewrite Hb; nia).
  assert (secs * 2 ^ 1074 ≤ round_float s 1) as Hlow.
  { apply (round_float_ge _ _ 1074);
      [done|done|done|done|by exists secs|lia]. }
  assert (round_float s 1 ≤ (secs + 1) * 2 ^ 1074) as Hhigh.
  { apply (round_float_le _ _ 1074);
      [done|done|done|done|by exists (secs + 1)|lia]. }
  assert (0 ≤ secs * 2 ^ 1074) by nia.
  rewrite Z.quot_div_nonneg by lia. split.
  - apply Z.div_le_lower_bound; lia.
  - apply Z.div_le_upper_bound; lia.
Qed.

(** ** Identity claims *)

Section identity_facts.
Variable user : Type.
Variable user_id_str : user → string.
Variable user_type_id : user → value.
Variable mktime : Z → Z.

Local Abbreviation timestamp := (timestamp mktime).
Local Abbreviation utcoffset := (utcoffset mktime).
Local Abbreviation create_jwt_identity :=
  (create_jwt_identity user user_id_str user_type_id mktime).

(** Up to 2514-05-30T01:53:03 the float holds the microseconds well
    enough for [int] to give the whole seconds back. *)
Lemma int_of_float_timestamp (d : datetime) :
  0 ≤ mktime (d `div` 1000000) < 2 ^ 34 →
  int_of_float (timestamp d) = mktime (d `div` 1000000).
Proof.
  intros Hrange. unfold timestamp. apply int_of_timestamp; [done|].
  apply Z.mod_pos_bound. lia.
Qed.

(** Later the microseconds can round to the next whole second. *)
Lemma int_of_float_timestamp_near (d : datetime) :
  0 ≤ mktime (d `div` 1000000) < 2 ^ 52 →
  mktime (d `div` 1000000) ≤ int_of_float (timestamp d)
                           ≤ mktime (d `div` 1000000) + 1.
Proof.
  intros Hrange. unfold timestamp. apply int_of_timestamp_near; [done|].
  apply Z.mod_pos_bound. lia.
Qed.

Lemma one_day_later (d : datetime) :
  (d + timedelta_days 1) `div` 1000000 = d `div` 1000000 + 86400.
Proof.
  unfold timedelta_days.
  replace (d + 1 * 86400 * 1000000) with (d + 86400 * 1000000) by lia.
  by rewrite Z.div_add by lia.
Qed.

End identity_facts.

(** * Concrete cases *)

(** ** The test case of [tests/utils_tests.py], for any parser *)

Section utils_tests.
Import UtilsTestCase.
Variable subclass_of : pytype → string → bool.
Variable dateutil_parse : datetime → string → option datetime.
Variable today : datetime.
Variable multidict_get :
  list (string * list value) → string → value → pytype → option value.
Local Abbreviation get_args :=
  (get_args subclass_of dateutil_parse today multidict_get).

Example test_get_args_no_groups :
  get_args received None None None None
  = Raise (AppException no_groups_message).
Proof. reflexivity. Qed.

Example test_get_args_required :
  get_args received (Some required) None None None = Return [("a", VInt 1)].
Proof. reflexivity. Qed.

Example test_get_args_defaultable :
  get_args received None (Some defaultable) None None
  = Return [("a", VInt 1); ("c", VInt 2)].
Proof. reflexivity. Qed.

Example test_get_args_optional :
  get_args received None None (Some optional) None
  = Return [("a", VInt 1); ("b", VStr "c")].
Proof. reflexivity. Qed.

Example test_get_args_constant :
  get_args received None None None (Some constant) = Return [("a", VInt 2)].
Proof. reflexivity. Qed.

Example test_get_args_all :
  get_args received (Some required) (Some defaultable) (Some optional)
    (Some constant)
  = Return [("a", VInt 2); ("c", VInt 2); ("b", VStr "c")].
Proof. reflexivity. Qed.
End utils_tests.

(** ** Instances of the theorems *)

Lemma get_args_output_witness :
  let out := [("a", VInt 2); ("c", VInt 2); ("b", VStr "c")] in
  get_args stdlib_classes rejecting_parser
      example_today raising_multidict_get UtilsTestCase.received
    (Some UtilsTestCase.required) (Some UtilsTestCase.defaultable)
    (Some UtilsTestCase.optional) (Some UtilsTestCase.constant)
  = Return out
  ∧ dict_wf UtilsTestCase.constant
  ∧ ∃ R D O, out = dict_update (dict_update (dict_update R D) O)
                     UtilsTestCase.constant.
Proof.
  intros out.
  assert (get_args stdlib_classes rejecting_parser
      example_today raising_multidict_get UtilsTestCase.received
            (Some UtilsTestCase.required) (Some UtilsTestCase.defaultable)
            (Some UtilsTestCase.optional) (Some UtilsTestCase.constant)
          = Return out) as Hout by reflexivity.
  assert (dict_wf UtilsTestCase.constant) as Hwf by apply NoDup_singleton.
  split; [exact Hout|]. split; [exact Hwf|].
  destruct (get_args_output _ _ _ _ _ _ _ _ _ _ Hout Hwf)
    as (R & D & O & _ & _ & _ & _ & _ & _ & Hmerge & _).
  exists R, D, O. exact Hmerge.
Defined.

Lemma get_args_missing_required_witness :
  get_args stdlib_classes rejecting_parser
      example_today raising_multidict_get (VDict [])
    (Some [("x", TInt)]) None None None
  = Raise (AppException "Missing following arguments: x").
Proof.
  destruct (get_args_missing_required stdlib_classes rejecting_parser
      example_today raising_multidict_get
              (VDict []) (Some [("x", TInt)]) None None None ("x", TInt))
    as (_ & _ & Hraise).
  - simpl. apply list_elem_of_here.
  - reflexivity.
  - apply Hraise.
    + intros it Hin. simpl in Hin. apply list_elem_of_singleton in Hin as ->.
      reflexivity.
    + intros it Hin. simpl in Hin. by apply elem_of_nil in Hin.
    + intros it Hin. simpl in Hin. by apply elem_of_nil in Hin.
Defined.

(** With a date/time descriptor among the optional ones and a string the
    parser rejects, a call with a missing required argument ends in the
    parser's error, not in the [AppException] that lists the missing
    arguments. *)
Lemma get_args_missing_then_parser_error :
  let received := VDict [("d", VStr "not a date")] in
  get_anydict_value stdlib_classes rejecting_parser
      example_today raising_multidict_get received "x" VNone TInt
  = Return VNone
  ∧ get_args stdlib_classes rejecting_parser
        example_today raising_multidict_get received
      (Some [("x", TInt)]) None (Some [("d", TDateTime)]) None
    = Raise (ParserError "not a date")
  ∧ ∀ msg, get_args stdlib_classes rejecting_parser
        example_today raising_multidict_get received
             (Some [("x", TInt)]) None (Some [("d", TDateTime)]) None
           ≠ Raise (AppException msg).
Proof. intros received. split; [reflexivity|]. split; [reflexivity|]. done. Qed.

Lemma get_args_no_groups_witness :
  get_args stdlib_classes rejecting_parser
      example_today raising_multidict_get UtilsTestCase.received
    None None None None
  = Raise (AppException no_groups_message)
  ∧ get_args stdlib_classes rejecting_parser
        example_today raising_multidict_get UtilsTestCase.received
      (Some []) None None (Some [])
    = Return [].
Proof.
  split.
  - apply (get_args_no_groups stdlib_classes rejecting_parser
        example_today raising_multidict_get
             UtilsTestCase.received None None None None); reflexivity.
  - apply (get_args_no_groups stdlib_classes rejecting_parser
        example_today raising_multidict_get
             UtilsTestCase.received (Some []) None None (Some []));
      [by intros ([=] & _)|reflexivity..].
Defined.

(** A call with all four groups supplied and empty does not fail. *)
Lemma get_args_empty_groups_return :
  get_args stdlib_classes rejecting_parser
      example_today raising_multidict_get (VDict [("a", VInt 1)])
    (Some []) (Some []) (Some []) (Some [])
  = Return [].
Proof. reflexivity. Qed.

Lemma parse_value_outcome_witness :
  parse_value stdlib_classes rejecting_parser example_today (VInt 1) TInt
  = Return (VInt 1)
  ∧ parse_value stdlib_classes rejecting_parser example_today (VStr "1") TInt
    = Return VNone
  ∧ parse_value stdlib_classes rejecting_parser example_today
      (VDateTime example_today) (TClass "date")
    = Return (VDateTime example_today)
  ∧ parse_value stdlib_classes rejecting_parser example_today
      (VInt 1) (TClass "Number")
    = Return (VInt 1).
Proof.
  split; [|split; [|split]].
  - apply (parse_value_outcome stdlib_classes rejecting_parser example_today
             (VInt 1) TInt). done.
  - apply (parse_value_outcome stdlib_classes rejecting_parser example_today
             (VStr "1") TInt). done.
  - apply (parse_value_outcome stdlib_classes rejecting_parser example_today
             (VDateTime example_today) (TClass "date")). done.
  - apply (parse_value_outcome stdlib_classes rejecting_parser example_today
             (VInt 1) (TClass "Number")). done.
Defined.

(** [parse_value] raises on a string the date parser rejects, and passes
    a [bool] through under the declared type [int]. *)
Lemma parse_value_raises_and_subclass :
  parse_value stdlib_classes rejecting_parser example_today
    (VStr "not a date") TDateTime
  = Raise (ParserError "not a date")
  ∧ type_of (VBool true) ≠ TInt
  ∧ parse_value stdlib_classes rejecting_parser example_today (VBool true) TInt
    = Return (VBool true).
Proof. split; [reflexivity|]. split; [done|reflexivity]. Qed.

Lemma get_anydict_value_source_kinds_witness :
  get_args stdlib_classes rejecting_parser example_today raising_multidict_get VNone
    (Some [("token", TStr)]) None None None
  = Raise (AppException "Unsupported source_dict type: NoneType").
Proof.
  apply (get_anydict_value_source_kinds stdlib_classes rejecting_parser
      example_today raising_multidict_get
           VNone "token" VNone TStr (Some [("token", TStr)]) None None None);
    [reflexivity|done].
Defined.




(** At 2514-05-30T01:53:03.999999, with UTC as the local time, the time
    stamp of the reading is below [2^34] seconds and keeps its microseconds,
    the time stamp a day later is above and rounds to the next whole
    second: [exp] is [iat] plus 86401. *)
Example create_jwt_identity_year_2514 :
  create_jwt_identity unit (λ _, "42") (λ _, VInt 1) (λ s, s)
    17179869183999999 ()
  = Some [("sub", VStr "42"); ("rol", VInt 1);
          ("iat", VInt 17179869183); ("exp", VInt 17179955584)].
Proof. vm_compute. reflexivity. Qed.

(** On the last day of the year 9999 the addition of the day overflows. *)
Example create_jwt_identity_year_9999 :
  create_jwt_identity unit (λ _, "42") (λ _, VInt 1) (λ s, s)
    datetime_max ()
  = None.
Proof. vm_compute. reflexivity. Qed.

Lemma get_args_constant_only_witness :
  get_args stdlib_classes rejecting_parser
      example_today raising_multidict_get VNone None None None
    (Some UtilsTestCase.constant)
  = Return UtilsTestCase.constant
  ∧ ∃ l h',
      get_args_st stdlib_classes rejecting_parser
          example_today raising_multidict_get 1%positive
        None None None (Some 2%positive) ExampleStores.world_none
      = (Return l, World h' (lookups ExampleStores.world_none))
      ∧ heap ExampleStores.world_none ⊆ h'
      ∧ heap ExampleStores.world_none !! l = None
      ∧ h' !! l = Some (OValue (VDict UtilsTestCase.constant)).
Proof.
  apply (get_args_constant_only stdlib_classes rejecting_parser
      example_today raising_multidict_get
           ExampleStores.world_none 1%positive VNone 2%positive
           UtilsTestCase.constant);
    [reflexivity|reflexivity|apply NoDup_singleton].
Defined.

(** * Further properties *)

(** ** Dicts: entries and lookups *)

Section pydict_entries.
Context {V : Type}.
Implicit Types (d acc : pydict V) (key k : string) (v : V).

Lemma dict_lookup_elem_of d k v : dict_lookup d k = Some v → (k, v) ∈ d.
Proof.
  induction d as [|[k0 x] rest IH]; simpl; [done|].
  destruct (decide (k0 = k)) as [->|Hne].
  - intros [= ->]. apply list_elem_of_here.
  - intros H. apply list_elem_of_further, IH, H.
Qed.

Lemma dict_elem_of_lookup d k v : dict_wf d → (k, v) ∈ d → dict_lookup d k = Some v.
Proof.
  unfold dict_wf, dict_keys.
  induction d as [|[k0 x] rest IH]; simpl; intros Hwf Hin.
  - by apply elem_of_nil in Hin.
  - apply NoDup_cons in Hwf as [Hnot Hwf].
    apply elem_of_cons in Hin as [[= <- <-]|Hin].
    + by rewrite decide_True.
    + rewrite decide_False; [by apply IH|].
      intros ->. apply Hnot. apply list_elem_of_fmap. by exists (k, v).
Qed.

Lemma elem_of_dict_setitem d key x k v :
  (k, v) ∈ dict_setitem d key x → (k, v) = (key, x) ∨ (k, v) ∈ d.
Proof.
  induction d as [|[k0 y] rest IH]; simpl.
  - intros ->%list_elem_of_singleton. by left.
  - destruct (decide (k0 = key)) as [->|Hne].
    + intros [->|Hin]%elem_of_cons; [by left|]. right. by apply list_elem_of_further.
    + intros [->|Hin]%elem_of_cons.
      * right. apply list_elem_of_here.
      * destruct (IH Hin) as [?|?]; [by left|]. right. by apply list_elem_of_further.
Qed.

Lemma elem_of_dict_update acc d k v :
  (k, v) ∈ dict_update acc d → (k, v) ∈ acc ∨ (k, v) ∈ d.
Proof.
  unfold dict_update. revert acc.
  induction d as [|[k0 x] rest IH]; simpl; intros acc Hin; [by left|].
  destruct (IH _ Hin) as [Hacc|Hrest].
  - destruct (elem_of_dict_setitem _ _ _ _ _ Hacc) as [->|?]; [|by left].
    right. apply list_elem_of_here.
  - right. by apply list_elem_of_further.
Qed.

Lemma dict_update_nil_r acc : dict_update acc [] = acc.
Proof. reflexivity. Qed.
End pydict_entries.

(** ** Coercion and the extractor *)

Section extractor_more.
Variable subclass_of : pytype → string → bool.
Variable dateutil_parse : datetime → string → option datetime.
Variable today : datetime.
Variable multidict_get :
  list (string * list value) → string → value → pytype → option value.

Local Abbreviation isinstance := (isinstance subclass_of).
Local Abbreviation parse_value := (parse_value subclass_of dateutil_parse today).
Local Abbreviation get_anydict_value :=
  (get_anydict_value subclass_of dateutil_parse today multidict_get).
Local Abbreviation required_step :=
  (required_step subclass_of dateutil_parse today multidict_get).
Local Abbreviation defaultable_step :=
  (defaultable_step subclass_of dateutil_parse today multidict_get).
Local Abbreviation optional_step :=
  (optional_step subclass_of dateutil_parse today multidict_get).
Local Abbreviation required_group :=
  (required_group subclass_of dateutil_parse today multidict_get).
Local Abbreviation defaultable_group :=
  (defaultable_group subclass_of dateutil_parse today multidict_get).
Local Abbreviation optional_group :=
  (optional_group subclass_of dateutil_parse today multidict_get).
Local Abbreviation absent := (absent subclass_of dateutil_parse today multidict_get).
Local Abbreviation coerces := (coerces subclass_of dateutil_parse today multidict_get).
Local Abbreviation lookup_raises :=
  (lookup_raises subclass_of dateutil_parse today multidict_get).
Local Abbreviation performed :=
  (performed subclass_of dateutil_parse today multidict_get).
Local Abbreviation get_args :=
  (get_args subclass_of dateutil_parse today multidict_get).
Local Abbreviation get_args_st :=
  (get_args_st subclass_of dateutil_parse today multidict_get).

Implicit Types (received val v : value) (key : string) (t : pytype).

(** *** Coercion *)

Lemma parse_value_instance val t v :
  parse_value val t = Return v → v = VNone ∨ isinstance v t = true.
Proof.
  intros H.
  assert (Return (if isinstance val t then val else VNone) = Return v →
          v = VNone ∨ isinstance v t = true) as Hplain.
  { intros [= <-]. destruct (isinstance val t) eqn:Hinst; [by right|by left]. }
  destruct t; try (by apply Hplain).
  destruct val; try (by apply Hplain).
  simpl in H. destruct (dateutil_parse today s); [|done].
  injection H as <-. by right.
Qed.

Lemma parse_value_again val t v :
  parse_value val t = Return v → parse_value v t = Return v.
Proof.
  intros H. destruct (parse_value_instance _ _ _ H) as [->|Hinst].
  - destruct t; try done. simpl. by destruct (isinstance VNone (TClass name)).
  - destruct t; simpl; try (by rewrite Hinst).
    destruct v; try (by rewrite Hinst). done.
Qed.

(** X1: what coercion returns is [None] or an instance of the declared
    type, never a value of another type; and coercing the result once
    more to the same type gives it back unchanged. *)
Theorem parse_value_typed_and_stable val t v :
  parse_value val t = Return v →
  (v = VNone ∨ isinstance v t = true) ∧ parse_value v t = Return v.
Proof.
  intros H. split; [by eapply parse_value_instance|by eapply parse_value_again].
Qed.

Lemma get_anydict_value_instance received key (dv : value) t v :
  get_anydict_value received key dv t = Return v →
  (v = VNone ∨ isinstance v t = true) ∧ parse_value v t = Return v.
Proof.
  intros H.
  assert (∃ val, parse_value val t = Return v) as [val Hval].
  { destruct received; try done; simpl in H; [by eexists|].
    destruct (multidict_get d key dv t); [by eexists|done]. }
  split; [by eapply parse_value_instance|by eapply parse_value_again].
Qed.

(** On a plain dict a lookup raises only in the date parser. *)
Lemma get_anydict_value_dict_no_raise (d : pydict value) key (dv : value) t :
  t ≠ TDateTime → lookup_raises (VDict d) key dv t = false.
Proof.
  intros Ht. unfold lookup_raises. simpl. by destruct t.
Qed.

(** *** The groups, entry by entry *)

Lemma required_group_wf received items missing R :
  required_group received items = Return (missing, R) → dict_wf R.
Proof.
  revert missing R. induction items as [|[key t] rest IH]; intros missing R H.
  - injection H as <- <-. apply NoDup_nil_2.
  - rewrite required_group_cons in H.
    apply bind_Return in H as (val & _ & H).
    apply bind_Return in H as ([ms' R'] & _ & H).
    injection H as <- <-. apply dict_wf_update, NoDup_singleton.
Qed.

Lemma defaultable_group_wf received items D :
  defaultable_group received items = Return D → dict_wf D.
Proof.
  revert D. induction items as [|[key dv] rest IH]; intros D H.
  - injection H as <-. apply NoDup_nil_2.
  - rewrite defaultable_group_cons in H.
    apply bind_Return in H as (val & _ & H).
    apply bind_Return in H as (D' & _ & H).
    injection H as <-. apply dict_wf_update, NoDup_singleton.
Qed.

Lemma optional_group_wf received items O :
  optional_group received items = Return O → dict_wf O.
Proof.
  revert O. induction items as [|[key t] rest IH]; intros O H.
  - injection H as <-. apply NoDup_nil_2.
  - rewrite optional_group_cons in H.
    apply bind_Return in H as (val & _ & H).
    apply bind_Return in H as (O' & _ & H).
    injection H as <-. apply dict_wf_update.
    destruct (is_none val); [apply NoDup_nil_2|apply NoDup_singleton].
Qed.

(** The required group's dict holds, under each key, what the lookup of
    the key gave; the key is missing exactly when that is [None]. *)
Lemma required_group_lookup received items missing R key t :
  required_group received items = Return (missing, R) →
  dict_wf items → (key, t) ∈ items →
  ∃ v, get_anydict_value received key VNone t = Return v
       ∧ dict_lookup R key = Some v
       ∧ (is_none v = true → key ∈ missing).
Proof.
  revert missing R. induction items as [|[k0 t0] rest IH]; intros missing R H Hwf Hin.
  - by apply elem_of_nil in Hin.
  - rewrite required_group_cons in H.
    apply bind_Return in H as (val & Hval & H).
    apply bind_Return in H as ([ms' R'] & Hrest & H).
    injection H as <- <-.
    apply NoDup_cons in Hwf as [Hnot Hwf]. fold (dict_keys rest) in Hnot.
    apply elem_of_cons in Hin as [[= -> ->]|Hin].
    + exists val. split; [done|]. split.
      * rewrite dict_lookup_update_notin.
        -- simpl. by rewrite decide_True.
        -- by rewrite (proj1 (required_group_spec _ _ _ _ _ _ _ _ Hrest)).
      * intros Hnone. rewrite Hnone. apply list_elem_of_here.
    + destruct (IH _ _ Hrest Hwf Hin) as (v & Hv & Hlook & Hmiss).
      exists v. split; [done|]. split.
      * apply dict_lookup_update_in; [|done]. by eapply required_group_wf.
      * intros Hnone. apply elem_of_app. right. by apply Hmiss.
Qed.

Lemma defaultable_group_lookup received items D key (dv : value) :
  defaultable_group received items = Return D →
  dict_wf items → (key, dv) ∈ items →
  ∃ v, get_anydict_value received key dv (type_of dv) = Return v
       ∧ dict_lookup D key = Some v.
Proof.
  revert D. induction items as [|[k0 dv0] rest IH]; intros D H Hwf Hin.
  - by apply elem_of_nil in Hin.
  - rewrite defaultable_group_cons in H.
    apply bind_Return in H as (val & Hval & H).
    apply bind_Return in H as (D' & Hrest & H).
    injection H as <-.
    apply NoDup_cons in Hwf as [Hnot Hwf]. fold (dict_keys rest) in Hnot.
    apply elem_of_cons in Hin as [[= -> ->]|Hin].
    + exists val. split; [done|].
      rewrite dict_lookup_update_notin.
      * simpl. by rewrite decide_True.
      * by rewrite (defaultable_group_spec _ _ _ _ _ _ _ Hrest).
    + destruct (IH _ Hrest Hwf Hin) as (v & Hv & Hlook).
      exists v. split; [done|].
      apply dict_lookup_update_in; [|done]. by eapply defaultable_group_wf.
Qed.

(** Every entry of the optional group's dict is the value, other than
    [None], that the lookup of an optional descriptor gave. *)
Lemma optional_group_entries received items O key v :
  optional_group received items = Return O → (key, v) ∈ O →
  is_none v = false
  ∧ ∃ t, (key, t) ∈ items ∧ get_anydict_value received key VNone t = Return v.
Proof.
  revert O. induction items as [|[k0 t0] rest IH]; intros O H Hin.
  - injection H as <-. by apply elem_of_nil in Hin.
  - rewrite optional_group_cons in H.
    apply bind_Return in H as (val & Hval & H).
    apply bind_Return in H as (O' & Hrest & H).
    injection H as <-.
    apply elem_of_dict_update in Hin as [Hin|Hin].
    + destruct (is_none val) eqn:Hnone; [by apply elem_of_nil in Hin|].
      apply list_elem_of_singleton in Hin as [= -> ->].
      split; [done|]. exists t0. split; [apply list_elem_of_here|done].
    + destruct (IH _ Hrest Hin) as (Hv & t & Ht & Hlook).
      split; [done|]. exists t. split; [by apply list_elem_of_further|done].
Qed.

Lemma optional_group_keys_subset received items O key :
  optional_group received items = Return O →
  key ∈ dict_keys O → key ∈ dict_keys items.
Proof.
  intros HO Hin. apply (optional_group_spec _ _ _ _ _ _ _ HO) in Hin.
  unfold dict_keys in *. apply list_elem_of_fmap in Hin as (item & -> & Hitem).
  apply list_elem_of_filter in Hitem as [_ Hitem].
  apply list_elem_of_fmap. by exists item.
Qed.

Lemma parse_value_of_instance v t :
  isinstance v t = true → parse_value v t = Return v.
Proof.
  intros Hinst. destruct t; simpl; try (by rewrite Hinst).
  destruct v; try (by rewrite Hinst). done.
Qed.

Lemma is_none_false_instance v t :
  is_none v = false → v = VNone ∨ isinstance v t = true → isinstance v t = true.
Proof. by intros Hnone [->|?]. Qed.

(** The outcome of a call, given as the three groups and the merge. *)
Lemma get_args_Return received required defaultable optional constant out :
  get_args received required defaultable optional constant = Return out →
  ∃ R D O,
    required_group received (or_empty required) = Return ([], R)
    ∧ defaultable_group received (or_empty defaultable) = Return D
    ∧ optional_group received (or_empty optional) = Return O
    ∧ out = dict_update (dict_update (dict_update R D) O) (or_empty constant).
Proof.
  intros Hout. rewrite get_args_merge in Hout.
  2: { intros (-> & -> & -> & ->). discriminate Hout. }
  apply bind_Return in Hout as ([ms R] & HR & Hout).
  apply bind_Return in Hout as (D & HD & Hout).
  apply bind_Return in Hout as (O & HO & Hout).
  simpl in Hout. destruct ms as [|m ms]; [|discriminate Hout].
  injection Hout as <-. by exists R, D, O.
Qed.

(** *** Values in the output *)

(** X2: in the output of a successful call, a required key that the
    defaultable and constant groups do not name never carries [None];
    and when the optional group does not name it either, it carries what
    its own lookup gave, an instance of its declared type. *)
Theorem get_args_required_values
    received required defaultable optional constant out key t :
  get_args received required defaultable optional constant = Return out →
  dict_wf (or_empty required) →
  (key, t) ∈ or_empty required →
  key ∉ dict_keys (or_empty defaultable) →
  key ∉ dict_keys (or_empty constant) →
  ∃ v, dict_lookup out key = Some v
       ∧ is_none v = false
       ∧ (key ∉ dict_keys (or_empty optional) →
          get_anydict_value received key VNone t = Return v
          ∧ isinstance v t = true).
Proof.
  intros Hout Hwf Hin Hdfl Hcst.
  destruct (get_args_Return _ _ _ _ _ _ Hout) as (R & D & O & HR & HD & HO & ->).
  destruct (required_group_lookup _ _ _ _ _ _ HR Hwf Hin) as (v0 & Hv0 & HRkey & Hmiss).
  assert (is_none v0 = false) as Hsome.
  { destruct (is_none v0); [|done]. by apply elem_of_nil in Hmiss. }
  rewrite dict_lookup_update_notin by done.
  destruct (dict_lookup O key) as [v|] eqn:HOkey.
  - exists v. split.
    { apply dict_lookup_update_in; [by eapply optional_group_wf|done]. }
    apply dict_lookup_elem_of in HOkey as HOin.
    destruct (optional_group_entries _ _ _ _ _ HO HOin) as (Hv & t' & Ht' & _).
    split; [done|]. intros Hopt. exfalso. apply Hopt.
    apply list_elem_of_fmap. by exists (key, t').
  - apply dict_lookup_None in HOkey.
    exists v0. rewrite dict_lookup_update_notin by done.
    rewrite dict_lookup_update_notin
      by (by rewrite (defaultable_group_spec _ _ _ _ _ _ _ HD)).
    split; [done|]. split; [done|]. intros _. split; [done|].
    destruct (get_anydict_value_instance _ _ _ _ _ Hv0) as [Hinst _].
    by eapply is_none_false_instance.
Qed.

(** X7: in the output of a successful call, a key that only the optional
    group names carries a value other than [None], the one the lookup of
    an optional descriptor of that key gave, an instance of that
    descriptor's type. *)
Theorem get_args_optional_values
    received required defaultable optional constant out key v :
  get_args received required defaultable optional constant = Return out →
  key ∉ dict_keys (or_empty required) →
  key ∉ dict_keys (or_empty defaultable) →
  key ∉ dict_keys (or_empty constant) →
  dict_lookup out key = Some v →
  is_none v = false
  ∧ ∃ t, (key, t) ∈ or_empty optional
         ∧ get_anydict_value received key VNone t = Return v
         ∧ isinstance v t = true.
Proof.
  intros Hout Hreq Hdfl Hcst Hkey.
  destruct (get_args_Return _ _ _ _ _ _ Hout) as (R & D & O & HR & HD & HO & ->).
  rewrite dict_lookup_update_notin in Hkey by done.
  apply dict_lookup_elem_of, elem_of_dict_update in Hkey as [Hkey|Hkey].
  - exfalso. apply elem_of_dict_update in Hkey as [Hkey|Hkey].
    + apply Hreq. rewrite <- (proj1 (required_group_spec _ _ _ _ _ _ _ _ HR)).
      apply list_elem_of_fmap. by exists (key, v).
    + apply Hdfl. rewrite <- (defaultable_group_spec _ _ _ _ _ _ _ HD).
      apply list_elem_of_fmap. by exists (key, v).
  - destruct (optional_group_entries _ _ _ _ _ HO Hkey) as (Hv & t & Ht & Hlook).
    split; [done|]. exists t. split; [done|]. split; [done|].
    destruct (get_anydict_value_instance _ _ _ _ _ Hlook) as [Hinst _].
    by eapply is_none_false_instance.
Qed.

(** X5: with a plain dict as the source, in the output of a successful
    call a defaultable key that the optional and constant groups do not
    name carries the declared default when the source lacks the key, and
    the source's own value when that value is an instance of the
    default's type. *)
Theorem get_args_defaultable_values
    (d : pydict value) required defaultable optional constant out key (dv : value) :
  get_args (VDict d) required defaultable optional constant = Return out →
  dict_wf (or_empty defaultable) →
  (key, dv) ∈ or_empty defaultable →
  key ∉ dict_keys (or_empty optional) →
  key ∉ dict_keys (or_empty constant) →
  (dict_lookup d key = None → dict_lookup out key = Some dv)
  ∧ (∀ v, dict_lookup d key = Some v → isinstance v (type_of dv) = true →
          dict_lookup out key = Some v).
Proof.
  intros Hout Hwf Hin Hopt Hcst.
  destruct (get_args_Return _ _ _ _ _ _ Hout) as (R & D & O & HR & HD & HO & ->).
  destruct (defaultable_group_lookup _ _ _ _ _ HD Hwf Hin) as (v' & Hv' & HDkey).
  assert (dict_lookup
            (dict_update (dict_update (dict_update R D) O) (or_empty constant)) key
          = Some v') as ->.
  { rewrite dict_lookup_update_notin by done.
    rewrite dict_lookup_update_notin.
    - apply dict_lookup_update_in; [by eapply defaultable_group_wf|done].
    - intros HO'. apply Hopt. by eapply optional_group_keys_subset. }
  simpl in Hv'. unfold dict_get in Hv'. split.
  - intros Hnone. rewrite Hnone, parse_value_default in Hv'. congruence.
  - intros v Hkey Hinst. rewrite Hkey, (parse_value_of_instance _ _ Hinst) in Hv'.
    congruence.
Qed.

(** *** Calls that look the same keys up *)

Lemma required_group_ext received1 received2 items :
  (∀ key t, (key, t) ∈ items →
     get_anydict_value received1 key VNone t
     = get_anydict_value received2 key VNone t) →
  required_group received1 items = required_group received2 items.
Proof.
  induction items as [|[key t] rest IH]; intros Hsame; [done|].
  rewrite !required_group_cons, (Hsame key t), IH; [done| |apply list_elem_of_here].
  intros k t' Hin. apply Hsame. by apply list_elem_of_further.
Qed.

Lemma defaultable_group_ext received1 received2 items :
  (∀ key (dv : value), (key, dv) ∈ items →
     get_anydict_value received1 key dv (type_of dv)
     = get_anydict_value received2 key dv (type_of dv)) →
  defaultable_group received1 items = defaultable_group received2 items.
Proof.
  induction items as [|[key dv] rest IH]; intros Hsame; [done|].
  rewrite !defaultable_group_cons, (Hsame key dv), IH;
    [done| |apply list_elem_of_here].
  intros k dv' Hin. apply Hsame. by apply list_elem_of_further.
Qed.

Lemma optional_group_ext received1 received2 items :
  (∀ key t, (key, t) ∈ items →
     get_anydict_value received1 key VNone t
     = get_anydict_value received2 key VNone t) →
  optional_group received1 items = optional_group received2 items.
Proof.
  induction items as [|[key t] rest IH]; intros Hsame; [done|].
  rewrite !optional_group_cons, (Hsame key t), IH; [done| |apply list_elem_of_here].
  intros k t' Hin. apply Hsame. by apply list_elem_of_further.
Qed.

Lemma get_anydict_value_dict_ext (d1 d2 : pydict value) key (dv : value) t :
  dict_lookup d1 key = dict_lookup d2 key →
  get_anydict_value (VDict d1) key dv t = get_anydict_value (VDict d2) key dv t.
Proof. intros H. simpl. unfold dict_get. by rewrite H. Qed.

(** X4: the outcome depends on the source only through the keys the
    descriptors name.  Two plain dicts that agree on every key of the
    required, defaultable and optional groups give the same result or the
    same exception, whatever else they hold. *)
Theorem get_args_reads_named_keys
    (d1 d2 : pydict value) required defaultable optional constant :
  (∀ key, key ∈ dict_keys (or_empty required)
                ++ dict_keys (or_empty defaultable)
                ++ dict_keys (or_empty optional) →
          dict_lookup d1 key = dict_lookup d2 key) →
  get_args (VDict d1) required defaultable optional constant
  = get_args (VDict d2) required defaultable optional constant.
Proof.
  intros Hsame.
  destruct (decide (required = None ∧ defaultable = None ∧ optional = None
                    ∧ constant = None)) as [(-> & -> & -> & ->)|Hsome]; [done|].
  rewrite !get_args_merge by done.
  rewrite (required_group_ext (VDict d1) (VDict d2)),
    (defaultable_group_ext (VDict d1) (VDict d2)),
    (optional_group_ext (VDict d1) (VDict d2)); [done|..].
  - intros key t Hin. apply get_anydict_value_dict_ext, Hsame.
    rewrite !elem_of_app. right; right. apply list_elem_of_fmap. by exists (key, t).
  - intros key dv Hin. apply get_anydict_value_dict_ext, Hsame.
    rewrite !elem_of_app. right; left. apply list_elem_of_fmap. by exists (key, dv).
  - intros key t Hin. apply get_anydict_value_dict_ext, Hsame.
    rewrite !elem_of_app. left. apply list_elem_of_fmap. by exists (key, t).
Qed.

(** X3: validating a validated payload again changes nothing.  When a
    call with a required group alone returns a dict, the same call on
    that dict returns it unchanged. *)
Theorem get_args_required_idempotent received (required : pydict pytype) out :
  dict_wf required →
  get_args received (Some required) None None None = Return out →
  get_args (VDict out) (Some required) None None None = Return out.
Proof.
  intros Hwf Hout.
  assert (dict_wf (or_empty (Some required))) as Hwf' by (by destruct required).
  assert (get_args received (Some required) None None None
          = get_args (VDict out) (Some required) None None None) as <-; [|done].
  destruct (get_args_Return _ _ _ _ _ _ Hout) as (R & D & O & HR & HD & HO & Hmerge).
  injection HD as <-. injection HO as <-. simpl in Hmerge. subst out.
  rewrite !get_args_merge by (by intros [[=] _]).
  rewrite (required_group_ext received (VDict R)); [done|].
  intros key t Hin.
  destruct (required_group_lookup _ _ _ _ _ _ HR Hwf' Hin) as (v & Hv & HRkey & _).
  rewrite Hv. simpl. unfold dict_get. rewrite HRkey.
  by destruct (get_anydict_value_instance _ _ _ _ _ Hv) as [_ ->].
Qed.

(** *** Which exceptions a call can raise *)

Lemma get_args_Raise received required defaultable optional constant e :
  (∀ it, it ∈ or_empty required →
         lookup_raises received it.1 VNone it.2 = false) →
  (∀ it, it ∈ or_empty defaultable →
         lookup_raises received it.1 it.2 (type_of it.2) = false) →
  (∀ it, it ∈ or_empty optional →
         lookup_raises received it.1 VNone it.2 = false) →
  get_args received required defaultable optional constant = Raise e →
  (required = None ∧ defaultable = None ∧ optional = None ∧ constant = None
   ∧ e = AppException no_groups_message)
  ∨ ∃ missing,
      missing ≠ []
      ∧ missing = dict_keys (filter (λ item, absent received item)
                               (or_empty required))
      ∧ e = AppException (missing_message missing).
Proof.
  intros Hreq Hdfl Hopt He.
  destruct (decide (required = None ∧ defaultable = None ∧ optional = None
                    ∧ constant = None)) as [(-> & -> & -> & ->)|Hsome].
  { left. by injection He as <-. }
  right. rewrite get_args_merge in He by done.
  destruct (required_group_total _ _ _ _ _ _ Hreq) as [[ms R] HR].
  destruct (defaultable_group_total _ _ _ _ _ _ Hdfl) as [D HD].
  destruct (optional_group_total _ _ _ _ _ _ Hopt) as [O HO].
  rewrite HR, HD, HO in He. simpl in He.
  destruct ms as [|m ms]; [done|]. injection He as <-.
  exists (m :: ms). split; [done|]. split; [|done].
  by apply required_group_spec in HR as [_ ->].
Qed.

(** X6: with a plain dict as the source and no date/time type among the
    descriptors, a call raises nothing but its own two [AppException]s:
    the one about the groups, when all four are omitted, and the one that
    lists the missing required arguments. *)
Theorem get_args_dict_errors
    (d : pydict value) required defaultable optional constant e :
  (∀ it, it ∈ or_empty required → it.2 ≠ TDateTime) →
  (∀ it : string * value, it ∈ or_empty defaultable → type_of it.2 ≠ TDateTime) →
  (∀ it, it ∈ or_empty optional → it.2 ≠ TDateTime) →
  get_args (VDict d) required defaultable optional constant = Raise e →
  (required = None ∧ defaultable = None ∧ optional = None ∧ constant = None
   ∧ e = AppException no_groups_message)
  ∨ ∃ missing,
      missing ≠ []
      ∧ missing = dict_keys (filter (λ item, absent (VDict d) item)
                               (or_empty required))
      ∧ e = AppException (missing_message missing).
Proof.
  intros Hreq Hdfl Hopt. apply get_args_Raise.
  - intros it Hin. by apply get_anydict_value_dict_no_raise, Hreq.
  - intros it Hin. by apply get_anydict_value_dict_no_raise, Hdfl.
  - intros it Hin. by apply get_anydict_value_dict_no_raise, Hopt.
Qed.

(** *** The lookups of a call that returns *)

Lemma performed_all received (calls : list (string * value * pytype)) :
  (∀ call, call ∈ calls →
     lookup_raises received call.1.1 call.1.2 call.2 = false) →
  performed received calls = (λ call, call.1.1) <$> calls.
Proof.
  induction calls as [|[[key dv] t] rest IH]; intros Hok; [done|].
  pose proof (Hok (key, dv, t) (list_elem_of_here _ _)) as Hhead.
  simpl in *. rewrite Hhead.
  f_equal. apply IH. intros call Hin. apply Hok. by apply list_elem_of_further.
Qed.

Lemma required_group_Return_lookups received items p item :
  required_group received items = Return p → item ∈ items →
  lookup_raises received item.1 VNone item.2 = false.
Proof.
  revert p. induction items as [|[key t] rest IH]; intros p H Hin.
  - by apply elem_of_nil in Hin.
  - rewrite required_group_cons in H.
    apply bind_Return in H as (val & Hval & H).
    apply bind_Return in H as (p' & Hrest & _).
    apply elem_of_cons in Hin as [->|Hin]; [|by eapply IH].
    unfold lookup_raises. simpl. by rewrite Hval.
Qed.

Lemma defaultable_group_Return_lookups received items D (item : string * value) :
  defaultable_group received items = Return D → item ∈ items →
  lookup_raises received item.1 item.2 (type_of item.2) = false.
Proof.
  revert D. induction items as [|[key dv] rest IH]; intros D H Hin.
  - by apply elem_of_nil in Hin.
  - rewrite defaultable_group_cons in H.
    apply bind_Return in H as (val & Hval & H).
    apply bind_Return in H as (D' & Hrest & _).
    apply elem_of_cons in Hin as [->|Hin]; [|by eapply IH].
    unfold lookup_raises. simpl. by rewrite Hval.
Qed.

Lemma optional_group_Return_lookups received items O item :
  optional_group received items = Return O → item ∈ items →
  lookup_raises received item.1 VNone item.2 = false.
Proof.
  revert O. induction items as [|[key t] rest IH]; intros O H Hin.
  - by apply elem_of_nil in Hin.
  - rewrite optional_group_cons in H.
    apply bind_Return in H as (val & Hval & H).
    apply bind_Return in H as (O' & Hrest & _).
    apply elem_of_cons in Hin as [->|Hin]; [|by eapply IH].
    unfold lookup_raises. simpl. by rewrite Hval.
Qed.

(** X8: a call that returns has looked up in the source each key of the
    required group, then each key of the defaultable group, then each key
    of the optional group, once each and in the order of the groups, and
    nothing else. *)
Theorem get_args_st_lookups w (received : loc) rv
    required reqd defaultable dfld optional optd constant cstd l w' :
  heap w !! received = Some (OValue rv) →
  types_at (heap w) required reqd →
  dict_at (heap w) defaultable dfld →
  types_at (heap w) optional optd →
  dict_at (heap w) constant cstd →
  get_args_st received required defaultable optional constant w = (Return l, w') →
  lookups w'
  = lookups w
    ++ ((λ key, (received, key))
        <$> dict_keys (or_empty reqd) ++ dict_keys (or_empty dfld)
            ++ dict_keys (or_empty optd)).
Proof.
  intros Hrecv Hreq Hdfl Hopt Hcst Hrun.
  destruct (get_args_st_spec subclass_of dateutil_parse today multidict_get
              _ _ _ _ _ _ _ _ _ _ _
              Hrecv Hreq Hdfl Hopt Hcst)
    as (res & h' & Hspec & _ & Hres).
  rewrite Hrun in Hspec. injection Hspec as <- ->.
  destruct Hres as (_ & d & _ & Hpure). simpl.
  destruct (get_args_Return _ _ _ _ _ _ Hpure) as (R & D & O & HR & HD & HO & _).
  rewrite performed_all, all_lookups_keys; [done|].
  intros call Hin. unfold all_lookups in Hin. rewrite !elem_of_app in Hin.
  destruct Hin as [Hin|[Hin|Hin]];
    apply list_elem_of_fmap in Hin as (item & -> & Hitem); simpl.
  - by eapply required_group_Return_lookups.
  - by eapply defaultable_group_Return_lookups.
  - by eapply optional_group_Return_lookups.
Qed.

End extractor_more.

(** ** Configuration from the environment, continued *)

(** X9: a call of [_add_config_from_env] with a list for the missing
    variables either stores a value under the config key and leaves the
    list as it was, or appends the variable's name to the list and leaves
    the configuration as it was, the latter only when the variable is
    undefined; no other config key changes in either case. *)
Theorem add_config_outcome environ config config_key env_variable
    (missing_list : list string) (default_value : value) ok config' missing' :
  _add_config_from_env environ config config_key env_variable
    (Some missing_list) default_value
  = (ok, config', missing') →
  (∀ k, k ≠ config_key → config' !! k = config !! k)
  ∧ (ok = true → missing' = Some missing_list ∧ is_Some (config' !! config_key))
  ∧ (ok = false →
     missing' = Some (missing_list ++ [env_variable])
     ∧ config' = config
     ∧ environ !! env_variable = None).
Proof.
  unfold _add_config_from_env. intros H.
  destruct (environ !! env_variable) as [val|] eqn:Henv;
    [|destruct (truthy default_value)]; injection H as <- <- <-.
  - split; [intros k Hk; by rewrite lookup_insert_ne|]. split; [|done].
    intros _. split; [done|]. rewrite lookup_insert_eq. by eexists.
  - split; [intros k Hk; by rewrite lookup_insert_ne|]. split; [|done].
    intros _. split; [done|]. rewrite lookup_insert_eq. by eexists.
  - split; [done|]. split; [done|]. done.
Qed.

Lemma add_config_no_default environ config config_key env_variable
    (missing_list : list string) :
  _add_config_from_env environ config config_key env_variable
    (Some missing_list) VNone
  = match environ !! env_variable with
    | Some val => (true, <[config_key := VStr val]> config, Some missing_list)
    | None => (false, config, Some (missing_list ++ [env_variable]))
    end.
Proof. unfold _add_config_from_env. by destruct (environ !! env_variable). Qed.

(** The three reads of the environment, one after the other, each with
    its two cases. *)
Ltac init_app_environment environ :=
  rewrite add_config_no_default;
  destruct (environ !! "TIKKI_JWT_SECRET") as [jwt|] eqn:Hjwt;
  cbv beta iota zeta; rewrite add_config_no_default;
  destruct (environ !! "TIKKI_SQLA_DB_URI") as [uri|] eqn:Huri;
  cbv beta iota zeta; rewrite add_config_no_default;
  destruct (environ !! "TIKKI_AUTH0_AUDIENCE") as [aud|] eqn:Haud;
  cbv beta iota zeta.

Lemma getitem_Failed (v : value) key e :
  getitem v key = Failed e →
  e = KeyError key ∨ e = NotSubscriptable (type_name (type_of v)).
Proof.
  destruct v; simpl; try (intros [= <-]; by right).
  destruct (dict_lookup d key); [done|]. intros [= <-]. by left.
Qed.

Lemma getitem0_Failed (v : value) e :
  getitem0 v = Failed e →
  e = IndexError ∨ e = KeyError "0" ∨ e = NotSubscriptable (type_name (type_of v)).
Proof.
  destruct v as [| | | |s| |l| | |]; simpl; try (intros [= <-]; auto).
  - destruct s; [|done]. intros [= <-]. auto.
  - destruct l; [|done]. intros [= <-]. auto.
Qed.

Section init_app_facts.
Variable urlopen_read : string → option string.
Variable json_loads : string → option value.
Variable json_dumps : value → string.
Variable from_jwk : string → option value.

Local Abbreviation init_app :=
  (init_app urlopen_read json_loads json_dumps from_jwk).

(** The keys of [app.config] that [init_app] writes. *)
Local Abbreviation init_app_keys :=
  ["SQLALCHEMY_TRACK_MODIFICATIONS"; "JWT_SECRET_KEY"; "SQLALCHEMY_DATABASE_URI";
   "AUTH0_AUDIENCE"; "AUTH0_JWKS"; "AUTH0_PUBLIC_KEY"].

(** X10: when [init_app] returns, the three environment variables are
    defined, the key set was fetched and its first key parsed, and
    [app.config] is the configuration it was given with exactly six keys
    written: the flag, the three values from the environment (the database
    URI being what [get_sqla_uri] returns), the key set and the public
    key. *)
Theorem init_app_success environ config config' :
  init_app environ config = (Done (), config') →
  ∃ jwt uri aud contents jwks keys first public_key,
    environ !! "TIKKI_JWT_SECRET" = Some jwt
    ∧ environ !! "TIKKI_SQLA_DB_URI" = Some uri
    ∧ environ !! "TIKKI_AUTH0_AUDIENCE" = Some aud
    ∧ get_sqla_uri environ = Done uri
    ∧ urlopen_read jwks_url = Some contents
    ∧ json_loads contents = Some jwks
    ∧ getitem jwks "keys" = Done keys
    ∧ getitem0 keys = Done first
    ∧ from_jwk (json_dumps first) = Some public_key
    ∧ config'
      = <["AUTH0_PUBLIC_KEY" := public_key]>
          (<["AUTH0_JWKS" := jwks]>
             (<["AUTH0_AUDIENCE" := VStr aud]>
                (<["SQLALCHEMY_DATABASE_URI" := VStr uri]>
                   (<["JWT_SECRET_KEY" := VStr jwt]>
                      (<["SQLALCHEMY_TRACK_MODIFICATIONS" := VBool false]>
                         config))))).
Proof.
  unfold init_app, get_sqla_uri. init_app_environment environ.
  all: destruct (urlopen_read jwks_url) as [contents|]; [|done].
  all: destruct (json_loads contents) as [jwks|] eqn:Hloads; [|done].
  all: destruct (getitem jwks "keys") as [keys|] eqn:Hkeys; [|done]; simpl.
  all: destruct (getitem0 keys) as [first|] eqn:Hfirst; [|done].
  all: destruct (from_jwk (json_dumps first)) as [public_key|] eqn:Hkey; [|done].
  all: try done.
  intros [= <-]. by exists jwt, uri, aud, contents, jwks, keys, first, public_key.
Qed.
(** X11: when the key set is fetched and its first key parsed,
    [init_app] returns exactly when the three environment variables are
    defined, and otherwise raises the [RuntimeError] whose message lists
    the undefined ones, in the order they are read, separated by a comma
    and a space. *)
Theorem init_app_missing_report environ config contents jwks keys first public_key :
  urlopen_read jwks_url = Some contents →
  json_loads contents = Some jwks →
  getitem jwks "keys" = Done keys →
  getitem0 keys = Done first →
  from_jwk (json_dumps first) = Some public_key →
  (init_app environ config).1
  = match filter (λ var, environ !! var = None) init_app_variables with
    | [] => Done ()
    | missing =>
        Failed (RuntimeError
                  ("Following environment variables undefined: "
                   +:+ String.concat ", " missing))
    end.
Proof.
  intros Hurl Hloads Hkeys Hfirst Hkey.
  unfold init_app, init_app_variables. rewrite !filter_cons, filter_nil.
  init_app_environment environ.
  all: rewrite Hurl, Hloads, Hkeys; simpl; rewrite Hfirst, Hkey.
  all: repeat (rewrite decide_True by done); repeat (rewrite decide_False by done).
  all: reflexivity.
Qed.

(** X12: the undefined variables are reported only after the key set
    was fetched and its first key parsed.  A call that raises the
    [RuntimeError] has written the key set and the public key to
    [app.config]; and when the fetch raises, the call ends with that
    failure whatever the environment holds. *)
Theorem init_app_report_after_fetch environ config :
  (∀ msg, (init_app environ config).1 = Failed (RuntimeError msg) →
          is_Some ((init_app environ config).2 !! "AUTH0_JWKS")
          ∧ is_Some ((init_app environ config).2 !! "AUTH0_PUBLIC_KEY")
          ∧ filter (λ var, environ !! var = None) init_app_variables ≠ [])
  ∧ (urlopen_read jwks_url = None →
     (init_app environ config).1 = Failed (LibraryError "urlopen")).
Proof.
  split.
  - intros msg. unfold init_app, init_app_variables.
    rewrite !filter_cons, filter_nil.
    init_app_environment environ.
    all: destruct (urlopen_read jwks_url) as [contents|]; [|by simpl].
    all: destruct (json_loads contents) as [jwks|]; [|by simpl].
    all: destruct (getitem jwks "keys") as [keys|e] eqn:Hkeys; simpl.
    all: try (by destruct (getitem_Failed _ _ _ Hkeys) as [->| ->]).
    all: destruct (getitem0 keys) as [first|e] eqn:Hfirst; simpl.
    all: try (by destruct (getitem0_Failed _ _ Hfirst) as [->|[->| ->]]).
    all: destruct (from_jwk (json_dumps first)) as [public_key|]; [|by simpl].
    all: simpl; intros Hmsg; try discriminate Hmsg.
    all: split; [rewrite lookup_insert_ne by done; rewrite lookup_insert_eq; by eexists|].
    all: split; [rewrite lookup_insert_eq; by eexists|].
    all: repeat (rewrite decide_True by done); repeat (rewrite decide_False by done).
    all: done.
  - intros Hurl. unfold init_app. init_app_environment environ.
    all: by rewrite Hurl.
Qed.

(** X13: however [init_app] ends, the keys of [app.config] other than
    the six it writes are as they were, [SQLALCHEMY_TRACK_MODIFICATIONS] is
    [False], and each of the three environment variables that is defined
    has been stored under its config key: what was written before a
    failure stays written. *)
Theorem init_app_writes environ config :
  let config' := (init_app environ config).2 in
  (∀ key, key ∉ init_app_keys → config' !! key = config !! key)
  ∧ config' !! "SQLALCHEMY_TRACK_MODIFICATIONS" = Some (VBool false)
  ∧ (∀ val, environ !! "TIKKI_JWT_SECRET" = Some val →
            config' !! "JWT_SECRET_KEY" = Some (VStr val))
  ∧ (∀ val, environ !! "TIKKI_SQLA_DB_URI" = Some val →
            config' !! "SQLALCHEMY_DATABASE_URI" = Some (VStr val))
  ∧ (∀ val, environ !! "TIKKI_AUTH0_AUDIENCE" = Some val →
            config' !! "AUTH0_AUDIENCE" = Some (VStr val)).
Proof.
  unfold init_app. init_app_environment environ.
  all: destruct (urlopen_read jwks_url) as [contents|].
  all: try destruct (json_loads contents) as [jwks|].
  all: try (destruct (getitem jwks "keys") as [keys|]; simpl).
  all: try destruct (getitem0 keys) as [first|].
  all: try destruct (from_jwk (json_dumps first)) as [public_key|].
  all: simpl.
  all: split;
    [intros key Hkey; rewrite !not_elem_of_cons in Hkey;
     destruct Hkey as (? & ? & ? & ? & ? & ? & _);
     by rewrite ?lookup_insert_ne by done|].
  all: split; [by rewrite ?lookup_insert_ne by done; rewrite ?lookup_insert_eq|].
  all: repeat split; intros val Hval; try discriminate Hval;
    injection Hval as <-;
    rewrite ?lookup_insert_ne by done; by rewrite ?lookup_insert_eq.
Qed.

End init_app_facts.

(** ** The Auth0 payload *)

Section auth0_facts.
Variable subclass_of : pytype → string → bool.
Variable dateutil_parse : datetime → string → option datetime.
Variable today : datetime.
Variable multidict_get :
  list (string * list value) → string → value → pytype → option value.
Variable str_encode : string → option (list Byte.byte).
Variable jwt_decode : list Byte.byte → value → value → option value.

Local Abbreviation isinstance := (isinstance subclass_of).
Local Abbreviation get_anydict_value :=
  (get_anydict_value subclass_of dateutil_parse today multidict_get).
Local Abbreviation get_args :=
  (get_args subclass_of dateutil_parse today multidict_get).
Local Abbreviation get_auth0_payload :=
  (get_auth0_payload subclass_of dateutil_parse today multidict_get
     str_encode jwt_decode).

Lemma get_args_token (request_json : value) :
  get_args request_json (Some [("token", TStr)]) None None None
  = match get_anydict_value request_json "token" VNone TStr with
    | Return val =>
        if is_none val
        then Raise (AppException "Missing following arguments: token")
        else Return [("token", val)]
    | Raise e => Raise e
    end.
Proof.
  unfold get_args. simpl.
  destruct (get_anydict_value request_json "token" VNone TStr) as [val|e]; [|done].
  simpl. by destruct (is_none val).
Qed.

Lemma outcome_bind_Done {A B} (a : A) (k : A → outcome B) : (Done a ≫= k) = k a.
Proof. reflexivity. Qed.

Lemma instance_of_str (v : value) :
  isinstance v TStr = true → ∃ s, v = VStr s.
Proof. destruct v; try done. by eexists. Qed.

(** X14: with the key and the audience configured and a JSON object as
    the request body, [jwt.decode] is called when the body holds under
    [token] a string that [encode] turns into bytes, with those bytes, the
    configured key and the configured audience; a string that does not
    encode ends the call in the [UnicodeEncodeError] before any decoding;
    and a body without [token], or with a [token] that is not a string,
    ends the call in the [AppException] for the missing argument. *)
Theorem get_auth0_payload_object config (d : pydict value) public_key audience :
  config !! "AUTH0_PUBLIC_KEY" = Some public_key →
  config !! "AUTH0_AUDIENCE" = Some audience →
  get_auth0_payload config (VDict d)
  = match dict_lookup d "token" with
    | Some (VStr token) =>
        match str_encode token with
        | Some encoded =>
            match jwt_decode encoded public_key audience with
            | Some payload => Done payload
            | None => Failed (LibraryError "jwt.decode")
            end
        | None => Failed (UnicodeEncodeError token)
        end
    | _ => Failed (Extractor (AppException "Missing following arguments: token"))
    end.
Proof.
  intros Hkey Haud. unfold get_auth0_payload, config_getitem.
  rewrite Hkey, Haud, !outcome_bind_Done, get_args_token. simpl. unfold dict_get.
  destruct (dict_lookup d "token") as [v|]; [|done].
  by destruct v.
Qed.

(** X15: with the key and the audience configured, a request body that
    is no JSON object (no body at all, a list, a string, a number) ends
    the call in the [AppException] for the unsupported source type, and
    nothing is decoded. *)
Theorem get_auth0_payload_no_object config (request_json : value)
    public_key audience :
  config !! "AUTH0_PUBLIC_KEY" = Some public_key →
  config !! "AUTH0_AUDIENCE" = Some audience →
  isinstance request_json TDict = false →
  get_auth0_payload config request_json
  = Failed (Extractor (AppException (unsupported_message request_json))).
Proof.
  intros Hkey Haud Hkind. unfold get_auth0_payload, config_getitem.
  rewrite Hkey, Haud, !outcome_bind_Done, get_args_token.
  by destruct request_json.
Qed.

(** X16: the subscript of the validated arguments never fails and
    [encode] is called on a string.  The call never raises an
    [AttributeError]; a [KeyError] is always for one of the two config
    keys, absent from [app.config]; a [UnicodeEncodeError] is always for a
    string that the lookup of [token] in the request gave and that does
    not encode; and a payload is returned only as the result of
    [jwt.decode] on the bytes of a string that the lookup of [token] gave,
    with the configured key and audience. *)
Theorem get_auth0_payload_safe config (request_json : value) :
  (∀ name, get_auth0_payload config request_json ≠ Failed (AttributeError name))
  ∧ (∀ key, get_auth0_payload config request_json = Failed (KeyError key) →
            (key = "AUTH0_PUBLIC_KEY" ∨ key = "AUTH0_AUDIENCE")
            ∧ config !! key = None)
  ∧ (∀ token,
       get_auth0_payload config request_json = Failed (UnicodeEncodeError token) →
       get_anydict_value request_json "token" VNone TStr = Return (VStr token)
       ∧ str_encode token = None)
  ∧ (∀ payload, get_auth0_payload config request_json = Done payload →
       ∃ token encoded public_key audience,
         config !! "AUTH0_PUBLIC_KEY" = Some public_key
         ∧ config !! "AUTH0_AUDIENCE" = Some audience
         ∧ get_anydict_value request_json "token" VNone TStr = Return (VStr token)
         ∧ str_encode token = Some encoded
         ∧ jwt_decode encoded public_key audience = Some payload).
Proof.
  unfold get_auth0_payload, config_getitem.
  destruct (config !! "AUTH0_PUBLIC_KEY") as [public_key|] eqn:Hkey.
  2: { split; [done|]. split; [|done]. intros key [= <-]. auto. }
  rewrite outcome_bind_Done.
  destruct (config !! "AUTH0_AUDIENCE") as [audience|] eqn:Haud.
  2: { split; [done|]. split; [|done]. intros key [= <-]. auto. }
  rewrite outcome_bind_Done, get_args_token.
  destruct (get_anydict_value request_json "token" VNone TStr) as [val|e] eqn:Hval;
    simpl; [|done].
  destruct (is_none val) eqn:Hnone; simpl; [done|].
  destruct (get_anydict_value_instance _ _ _ _ _ _ _ _ _ Hval) as [[->|Hinst] _];
    [done|].
  apply instance_of_str in Hinst as [token ->].
  destruct (str_encode token) as [encoded|] eqn:Hencode.
  2: { split; [done|]. split; [done|]. split; [|done]. by intros s [= <-]. }
  destruct (jwt_decode encoded public_key audience) as [payload|] eqn:Hdecode.
  - split; [done|]. split; [done|]. split; [done|]. intros p [= <-].
    by exists token, encoded, public_key, audience.
  - done.
Qed.
End auth0_facts.

(** ** Responses *)

Section handler_facts.
Variable exception : Type.
Variable exc_str : exception → string.
Variable is_flask400 is_flask500 is_no_records : exception → bool.

Local Abbreviation flask_handle_exception :=
  (flask_handle_exception exception exc_str is_flask400 is_flask500 is_no_records).

(** X17: the response to an exception always has status 400 or 500, and
    its body holds exactly the two keys [http_status_code] and [error],
    the first carrying the same status as the response. *)
Theorem flask_handle_exception_status format_exc (e : exception) log :
  let '(body, status) := (flask_handle_exception format_exc e log).1 in
  (status = 400 ∨ status = 500)
  ∧ dict_keys body = ["http_status_code"; "error"]
  ∧ dict_lookup body "http_status_code" = Some (VInt status).
Proof.
  unfold flask_handle_exception.
  destruct (is_flask400 e), (is_flask500 e), (is_no_records e); simpl; auto.
Qed.

(** X18: the traceback reaches the client and the log together, and only
    for an exception of none of the three known classes.  For those the
    response is a 500 whose [error] is the traceback, and the traceback is
    the one message logged; for an exception of a known class the [error]
    is [str(e)] and nothing is logged. *)
Theorem flask_handle_exception_traceback format_exc (e : exception) log :
  let known := is_flask400 e || is_flask500 e || is_no_records e in
  let '(body, status, log') := flask_handle_exception format_exc e log in
  (known = true →
   log' = log ∧ dict_lookup body "error" = Some (VStr (exc_str e)))
  ∧ (known = false →
     log' = log ++ [format_exc]
     ∧ status = 500
     ∧ dict_lookup body "error" = Some (VStr format_exc)).
Proof.
  unfold flask_handle_exception.
  destruct (is_flask400 e), (is_flask500 e), (is_no_records e); simpl;
    (split; intros Hknown; [|]; try discriminate Hknown; repeat split; reflexivity).
Qed.
End handler_facts.

(** ** UUIDs *)

Section uuid_facts.
Variable UUID : Type.
Variable rng : Type.
Variable uuid4 : rng → UUID * rng.

Local Abbreviation uuid4_list := (uuid4_list UUID rng uuid4).
Local Abbreviation generate_uuid := (generate_uuid UUID rng uuid4).

Lemma uuid4_list_length n g : length (uuid4_list n g).1 = n.
Proof.
  revert g. induction n as [|n IH]; intros g; simpl; [done|].
  destruct (uuid4 g) as [u g1]. specialize (IH g1).
  destruct (uuid4_list n g1) as [us g2]. simpl in *. by rewrite IH.
Qed.

Lemma uuid4_list_add m n g :
  uuid4_list (m + n) g
  = let '(us1, g1) := uuid4_list m g in
    let '(us2, g2) := uuid4_list n g1 in
    (us1 ++ us2, g2).
Proof.
  revert g. induction m as [|m IH]; intros g; simpl.
  - by destruct (uuid4_list n g).
  - destruct (uuid4 g) as [u g1]. rewrite IH.
    destruct (uuid4_list m g1) as [us1 g2]. by destruct (uuid4_list n g2).
Qed.

Lemma generate_uuid_many (count : Z) (g : rng) :
  1 < count →
  generate_uuid count g
  = (ManyUUIDs UUID (uuid4_list (Z.to_nat count) g).1,
     (uuid4_list (Z.to_nat count) g).2).
Proof.
  intros Hcount. unfold generate_uuid.
  rewrite (proj2 (Z.eqb_neq _ _)) by lia.
  rewrite (proj2 (Z.ltb_lt _ _)) by lia.
  by destruct (uuid4_list (Z.to_nat count) g).
Qed.

(** X19: the shape of the result follows the count.  A count of 1 gives
    a single UUID, not a list; a count above 1 gives a list of exactly
    that many UUIDs; any other count gives [None] and draws nothing from
    the random source. *)
Theorem generate_uuid_shape (count : Z) (g : rng) :
  (count = 1 → ∃ u, (generate_uuid count g) = (OneUUID UUID u, (uuid4 g).2)
                    ∧ u = (uuid4 g).1)
  ∧ (1 < count →
     ∃ us, (generate_uuid count g).1 = ManyUUIDs UUID us
           ∧ Z.of_nat (length us) = count)
  ∧ (count < 1 → generate_uuid count g = (NoUUID UUID, g)).
Proof.
  unfold generate_uuid. split; [|split].
  - intros ->. simpl. destruct (uuid4 g) as [u g1]. by exists u.
  - intros Hcount.
    rewrite (proj2 (Z.eqb_neq _ _)) by lia.
    rewrite (proj2 (Z.ltb_lt _ _)) by lia.
    pose proof (uuid4_list_length (Z.to_nat count) g) as Hlen.
    destruct (uuid4_list (Z.to_nat count) g) as [us g1]. simpl in *.
    exists us. split; [done|]. lia.
  - intros Hcount.
    rewrite (proj2 (Z.eqb_neq _ _)) by lia.
    by rewrite (proj2 (Z.ltb_ge _ _)) by lia.
Qed.

(** X20: a batch is the same as two smaller batches drawn one after the
    other.  For counts [m] and [n] above 1, the list for [m + n] is the
    list for [m] followed by the list for [n] drawn from the source as the
    first batch left it, and the source ends in the same state. *)
Theorem generate_uuid_batches (m n : Z) (g : rng) :
  1 < m → 1 < n →
  ∃ us1 g1 us2 g2,
    generate_uuid m g = (ManyUUIDs UUID us1, g1)
    ∧ generate_uuid n g1 = (ManyUUIDs UUID us2, g2)
    ∧ generate_uuid (m + n) g = (ManyUUIDs UUID (us1 ++ us2), g2).
Proof.
  intros Hm Hn.
  exists (uuid4_list (Z.to_nat m) g).1, (uuid4_list (Z.to_nat m) g).2,
    (uuid4_list (Z.to_nat n) (uuid4_list (Z.to_nat m) g).2).1,
    (uuid4_list (Z.to_nat n) (uuid4_list (Z.to_nat m) g).2).2.
  rewrite !generate_uuid_many by lia.
  split; [done|]. split; [done|].
  rewrite Z2Nat.inj_add by lia. rewrite uuid4_list_add.
  destruct (uuid4_list (Z.to_nat m) g) as [us1 g1]. simpl.
  by destruct (uuid4_list (Z.to_nat n) g1) as [us2 g2].
Qed.
End uuid_facts.

(** ** Instances of the further properties *)

(** Close a decidable side condition on concrete dicts by evaluation. *)
Ltac by_decision :=
  unfold dict_wf, dict_keys; simpl;
  match goal with
  | |- ?P => apply (bool_decide_unpack P); vm_compute; exact I
  end.

Lemma parse_value_typed_and_stable_witness :
  parse_value stdlib_classes rejecting_parser
      example_today (VInt 7) TInt = Return (VInt 7)
  ∧ parse_value stdlib_classes rejecting_parser
        example_today (VStr "7") TInt = Return VNone.
Proof.
  destruct (parse_value_typed_and_stable stdlib_classes rejecting_parser
      example_today (VInt 7) TInt (VInt 7))
    as [_ Hint]; [reflexivity|].
  destruct (parse_value_typed_and_stable stdlib_classes rejecting_parser
      example_today (VStr "7") TInt VNone)
    as [_ Hstr]; [reflexivity|].
  split; [exact Hint|reflexivity].
Defined.

Lemma get_args_required_values_witness :
  ∃ v, dict_lookup [("a", VInt 1); ("b", VStr "c")] "b" = Some v
       ∧ is_none v = false
       ∧ isinstance stdlib_classes v TStr = true.
Proof.
  destruct (get_args_required_values stdlib_classes rejecting_parser
      example_today raising_multidict_get
              UtilsTestCase.received
              (Some [("a", TInt); ("b", TStr)]) (Some [("z", VInt 0)]) None None
              [("a", VInt 1); ("b", VStr "c"); ("z", VInt 0)] "b" TStr)
    as (v & _ & Hnone & Htyped).
  - reflexivity.
  - by_decision.
  - apply list_elem_of_further, list_elem_of_here.
  - by_decision.
  - apply not_elem_of_nil.
  - destruct Htyped as [Hlookup Hinst]; [apply not_elem_of_nil|].
    injection Hlookup as <-. by exists (VStr "c").
Defined.

Lemma get_args_required_idempotent_witness :
  get_args stdlib_classes rejecting_parser
      example_today raising_multidict_get (VDict [("a", VInt 1)])
    (Some UtilsTestCase.required) None None None
  = Return [("a", VInt 1)].
Proof.
  apply (get_args_required_idempotent stdlib_classes rejecting_parser
      example_today raising_multidict_get
           UtilsTestCase.received UtilsTestCase.required [("a", VInt 1)]);
    [apply NoDup_singleton|reflexivity].
Defined.

Lemma get_args_reads_named_keys_witness :
  get_args stdlib_classes rejecting_parser
      example_today raising_multidict_get UtilsTestCase.received
    (Some UtilsTestCase.required) None None None
  = get_args stdlib_classes rejecting_parser example_today raising_multidict_get
      (VDict [("a", VInt 1); ("b", VStr "other"); ("admin", VBool true)])
      (Some UtilsTestCase.required) None None None.
Proof.
  apply (get_args_reads_named_keys stdlib_classes rejecting_parser
      example_today raising_multidict_get
           [("a", VInt 1); ("b", VStr "c")]
           [("a", VInt 1); ("b", VStr "other"); ("admin", VBool true)]).
  intros key Hkey. simpl in Hkey. apply list_elem_of_singleton in Hkey as ->.
  reflexivity.
Defined.

Lemma get_args_defaultable_values_witness :
  dict_lookup [("a", VInt 1); ("c", VInt 2)] "c" = Some (VInt 2)
  ∧ dict_lookup [("a", VInt 1); ("c", VInt 2)] "a" = Some (VInt 1).
Proof.
  split.
  - destruct (get_args_defaultable_values stdlib_classes rejecting_parser
        example_today raising_multidict_get
                [("a", VInt 1); ("b", VStr "c")] None
                (Some UtilsTestCase.defaultable) None None
                [("a", VInt 1); ("c", VInt 2)] "c" (VInt 2)) as [Habsent _];
      [reflexivity|by_decision|apply list_elem_of_further, list_elem_of_here
      |apply not_elem_of_nil|apply not_elem_of_nil|].
    apply Habsent. reflexivity.
  - destruct (get_args_defaultable_values stdlib_classes rejecting_parser
        example_today raising_multidict_get
                [("a", VInt 1); ("b", VStr "c")] None
                (Some UtilsTestCase.defaultable) None None
                [("a", VInt 1); ("c", VInt 2)] "a" (VInt 3)) as [_ Hpresent];
      [reflexivity|by_decision|apply list_elem_of_here
      |apply not_elem_of_nil|apply not_elem_of_nil|].
    apply Hpresent; reflexivity.
Defined.

Lemma get_args_dict_errors_witness :
  ∃ missing,
    missing ≠ []
    ∧ AppException "Missing following arguments: x"
      = AppException (missing_message missing).
Proof.
  destruct (get_args_dict_errors stdlib_classes rejecting_parser
      example_today raising_multidict_get
              [] (Some [("x", TInt)]) None None None
              (AppException "Missing following arguments: x"))
    as [(Hnone & _)|(missing & Hsome & _ & Hmsg)].
  - intros it Hin. simpl in Hin. by apply list_elem_of_singleton in Hin as ->.
  - intros it Hin. by apply elem_of_nil in Hin.
  - intros it Hin. by apply elem_of_nil in Hin.
  - reflexivity.
  - discriminate Hnone.
  - by exists missing.
Defined.

Lemma get_args_optional_values_witness :
  is_none (VStr "c") = false
  ∧ ∃ t, (("b", t) : string * pytype) ∈ UtilsTestCase.optional
         ∧ get_anydict_value stdlib_classes rejecting_parser
               example_today raising_multidict_get
             UtilsTestCase.received "b" VNone t
           = Return (VStr "c")
         ∧ isinstance stdlib_classes (VStr "c") t = true.
Proof.
  apply (get_args_optional_values stdlib_classes rejecting_parser
      example_today raising_multidict_get
           UtilsTestCase.received (Some UtilsTestCase.required) None
           (Some UtilsTestCase.optional) None
           [("a", VInt 1); ("b", VStr "c")] "b" (VStr "c"));
    [reflexivity|by_decision|apply not_elem_of_nil
    |apply not_elem_of_nil|reflexivity].
Defined.

Lemma get_args_st_lookups_witness :
  lookups (get_args_st stdlib_classes rejecting_parser
      example_today raising_multidict_get 1%positive
             (Some 2%positive) (Some 3%positive) (Some 4%positive)
             (Some 5%positive) ExampleStores.world1).2
  = [(1%positive, "a"); (1%positive, "a"); (1%positive, "c");
     (1%positive, "a"); (1%positive, "b")].
Proof.
  apply (get_args_st_lookups stdlib_classes rejecting_parser
      example_today raising_multidict_get
           ExampleStores.world1 1%positive UtilsTestCase.received
           (Some 2%positive) (Some UtilsTestCase.required)
           (Some 3%positive) (Some UtilsTestCase.defaultable)
           (Some 4%positive) (Some UtilsTestCase.optional)
           (Some 5%positive) (Some UtilsTestCase.constant)
           7%positive);
    try reflexivity; constructor; reflexivity.
Defined.

Lemma add_config_outcome_witness :
  (_add_config_from_env ExampleServices.environ_uri_only ∅
     "JWT_SECRET_KEY" "TIKKI_JWT_SECRET" (Some []) VNone).1.2
  = (∅ : gmap string value).
Proof.
  destruct (add_config_outcome ExampleServices.environ_uri_only ∅
              "JWT_SECRET_KEY" "TIKKI_JWT_SECRET" [] VNone
              false ∅ (Some ["TIKKI_JWT_SECRET"]))
    as (_ & _ & Hfalse); [reflexivity|].
  destruct Hfalse as (_ & Hconfig & _); [reflexivity|]. reflexivity.
Defined.

Lemma init_app_success_witness :
  ∃ uri, get_sqla_uri ExampleServices.environ = Done uri
         ∧ uri = "postgresql://db/tikki".
Proof.
  destruct (init_app_success ExampleServices.urlopen_read
              ExampleServices.json_loads ExampleServices.json_dumps
              ExampleServices.from_jwk ExampleServices.environ ∅
              (init_app ExampleServices.urlopen_read ExampleServices.json_loads
                 ExampleServices.json_dumps ExampleServices.from_jwk
                 ExampleServices.environ ∅).2)
    as (jwt & uri & aud & contents & jwks & keys & first & public_key
        & _ & Huri & _ & Hsqla & _); [reflexivity|].
  exists uri. split; [exact Hsqla|]. by injection Huri as <-.
Defined.

Lemma init_app_missing_report_witness :
  (init_app ExampleServices.urlopen_read ExampleServices.json_loads
     ExampleServices.json_dumps ExampleServices.from_jwk
     ExampleServices.environ_uri_only ∅).1
  = Failed (RuntimeError
              "Following environment variables undefined: TIKKI_JWT_SECRET, TIKKI_AUTH0_AUDIENCE").
Proof.
  apply (init_app_missing_report ExampleServices.urlopen_read
           ExampleServices.json_loads ExampleServices.json_dumps
           ExampleServices.from_jwk ExampleServices.environ_uri_only ∅
           "{...}" ExampleServices.jwks
           (VList [VDict [("kty", VStr "RSA"); ("kid", VStr "1")]])
           (VDict [("kty", VStr "RSA"); ("kid", VStr "1")])
           ExampleServices.public_key); reflexivity.
Defined.

Lemma init_app_report_after_fetch_witness :
  (init_app (λ _, None) ExampleServices.json_loads ExampleServices.json_dumps
     ExampleServices.from_jwk ExampleServices.environ_uri_only ∅).1
  = Failed (LibraryError "urlopen").
Proof.
  apply (init_app_report_after_fetch (λ _, None) ExampleServices.json_loads
           ExampleServices.json_dumps ExampleServices.from_jwk
           ExampleServices.environ_uri_only ∅). reflexivity.
Defined.

Lemma init_app_writes_witness :
  (init_app (λ _, None) ExampleServices.json_loads ExampleServices.json_dumps
     ExampleServices.from_jwk ExampleServices.environ_uri_only ∅).2
    !! "SQLALCHEMY_DATABASE_URI"
  = Some (VStr "postgresql://db/tikki").
Proof.
  apply (init_app_writes (λ _, None) ExampleServices.json_loads
           ExampleServices.json_dumps ExampleServices.from_jwk
           ExampleServices.environ_uri_only ∅). reflexivity.
Defined.

Lemma get_auth0_payload_object_witness :
  get_auth0_payload stdlib_classes rejecting_parser example_today
    raising_multidict_get ExampleServices.str_encode
    ExampleServices.jwt_decode ExampleServices.config
    (VDict [("token", VStr "abc")])
  = Done (VDict [("sub", VStr "abc"); ("aud", VStr "tikki-api")])
  ∧ get_auth0_payload stdlib_classes rejecting_parser example_today
      raising_multidict_get ExampleServices.str_encode
      ExampleServices.jwt_decode ExampleServices.config
      (VDict [("token", VStr ExampleServices.lone_surrogate)])
    = Failed (UnicodeEncodeError ExampleServices.lone_surrogate)
  ∧ get_auth0_payload stdlib_classes rejecting_parser example_today
      raising_multidict_get ExampleServices.str_encode
      ExampleServices.jwt_decode ExampleServices.config
      (VDict [("token", VInt 5)])
    = Failed (Extractor (AppException "Missing following arguments: token")).
Proof.
  split; [|split].
  - apply (get_auth0_payload_object stdlib_classes rejecting_parser
             example_today raising_multidict_get ExampleServices.str_encode
             ExampleServices.jwt_decode ExampleServices.config
             [("token", VStr "abc")] ExampleServices.public_key
             (VStr "tikki-api")); reflexivity.
  - apply (get_auth0_payload_object stdlib_classes rejecting_parser
             example_today raising_multidict_get ExampleServices.str_encode
             ExampleServices.jwt_decode ExampleServices.config
             [("token", VStr ExampleServices.lone_surrogate)]
             ExampleServices.public_key (VStr "tikki-api")); reflexivity.
  - apply (get_auth0_payload_object stdlib_classes rejecting_parser
             example_today raising_multidict_get ExampleServices.str_encode
             ExampleServices.jwt_decode ExampleServices.config
             [("token", VInt 5)] ExampleServices.public_key
             (VStr "tikki-api")); reflexivity.
Defined.

Lemma get_auth0_payload_no_object_witness :
  get_auth0_payload stdlib_classes rejecting_parser example_today
    raising_multidict_get ExampleServices.str_encode
    ExampleServices.jwt_decode ExampleServices.config VNone
  = Failed (Extractor (AppException "Unsupported source_dict type: NoneType")).
Proof.
  apply (get_auth0_payload_no_object stdlib_classes rejecting_parser
           example_today raising_multidict_get ExampleServices.str_encode
           ExampleServices.jwt_decode ExampleServices.config VNone
           ExampleServices.public_key (VStr "tikki-api")); reflexivity.
Defined.

Lemma get_auth0_payload_safe_witness :
  (∃ token encoded public_key audience,
     ExampleServices.config !! "AUTH0_PUBLIC_KEY" = Some public_key
     ∧ ExampleServices.config !! "AUTH0_AUDIENCE" = Some audience
     ∧ get_anydict_value stdlib_classes rejecting_parser example_today
         raising_multidict_get (VDict [("token", VStr "abc")]) "token" VNone TStr
       = Return (VStr token)
     ∧ ExampleServices.str_encode token = Some encoded
     ∧ ExampleServices.jwt_decode encoded public_key audience
       = Some (VDict [("sub", VStr "abc"); ("aud", VStr "tikki-api")]))
  ∧ ExampleServices.str_encode ExampleServices.lone_surrogate = None.
Proof.
  split.
  - apply (get_auth0_payload_safe stdlib_classes rejecting_parser
             example_today raising_multidict_get ExampleServices.str_encode
             ExampleServices.jwt_decode ExampleServices.config
             (VDict [("token", VStr "abc")])). reflexivity.
  - apply (get_auth0_payload_safe stdlib_classes rejecting_parser
             example_today raising_multidict_get ExampleServices.str_encode
             ExampleServices.jwt_decode ExampleServices.config
             (VDict [("token", VStr ExampleServices.lone_surrogate)])).
    reflexivity.
Defined.

Lemma flask_handle_exception_traceback_witness :
  (flask_handle_exception nat (λ _, "boom") (λ _, false) (λ _, false)
     (λ _, false) "Traceback" 0%nat []).2
  = ["Traceback"].
Proof.
  pose proof (flask_handle_exception_traceback nat (λ _, "boom") (λ _, false)
                (λ _, false) (λ _, false) "Traceback" 0%nat []) as H.
  simpl in H. destruct H as [_ H]. destruct (H eq_refl) as (Hlog & _).
  exact Hlog.
Defined.

Lemma generate_uuid_shape_witness :
  ∃ us, (generate_uuid nat nat ExampleServices.uuid4 3 0%nat).1
        = ManyUUIDs nat us
        ∧ Z.of_nat (length us) = 3.
Proof.
  apply (generate_uuid_shape nat nat ExampleServices.uuid4 3 0%nat). lia.
Defined.

Lemma generate_uuid_batches_witness :
  ∃ us1 g1 us2 g2,
    generate_uuid nat nat ExampleServices.uuid4 2 0%nat = (ManyUUIDs nat us1, g1)
    ∧ generate_uuid nat nat ExampleServices.uuid4 3 g1 = (ManyUUIDs nat us2, g2)
    ∧ generate_uuid nat nat ExampleServices.uuid4 (2 + 3) 0%nat
      = (ManyUUIDs nat (us1 ++ us2), g2).
Proof.
  apply (generate_uuid_batches nat nat ExampleServices.uuid4 2 3 0%nat); lia.
Defined.
